(** * Flow run orchestration: trigger hooks and run lifecycle

    A shallow embedding of two services of the workflow runtime:

    - [TriggerHelper]: [triggerHelper.executeTrigger], the dispatcher of the
      six trigger hooks (engine side);
    - [FlowRunService]: [flowRunService] with its helpers
      [getFlowRunOrCreate], [returnHandlerId] and [updateLogs] (server side);

    and of what shares their files: the file-system piece metadata service,
    the SMTP email sender, the SQLite data source and the full-screen code
    editor dialog.

    Asynchronous code is sequential here: every [await] is a bind of a state
    and exception monad.  Collaborators that the files only import are
    parameters, gathered in one record per module.  Logging is left out, and
    so is [flowRunService.list], which only builds a paginated query. *)

From Stdlib Require Import ZArith QArith Qround Ascii.
From stdpp Require Import base option strings list gmap pretty sorting.

Open Scope string_scope.

(** ** JavaScript values and exceptions *)

Module Js.

(** The values piece code can hand back to the engine; numbers are the
    integers, and the fields of an object come in property order. *)
#[local] Set Warnings "-register-all".
Inductive JsValue : Type :=
| JsUndefined
| JsNull
| JsBool (b : bool)
| JsNumber (n : Z)
| JsBigInt (n : Z)
| JsString (s : string)
| JsArray (items : list JsValue)
| JsObject (fields : list (string * JsValue))
| JsFunction (name : string).

(** [typeof v] *)
Definition typeof (v : JsValue) : string :=
  match v with
  | JsUndefined => "undefined"
  | JsNull => "object"
  | JsBool _ => "boolean"
  | JsNumber _ => "number"
  | JsBigInt _ => "bigint"
  | JsString _ => "string"
  | JsArray _ => "object"
  | JsObject _ => "object"
  | JsFunction _ => "function"
  end.

(** [Array.isArray(v)] *)
Definition isArray (v : JsValue) : bool :=
  match v with
  | JsArray _ => true
  | _ => false
  end.

(** The array index a property key stands for, if any: a decimal numeral
    without leading zero, below [2^32 - 1].  An object lists the keys that
    are array indices first, in ascending order, and its other keys after
    them, in the order they were added. *)
Definition array_index (key : string) : option N :=
  let digits := String.list_ascii_of_string key in
  let is_digit c := (48 <=? nat_of_ascii c)%nat && (nat_of_ascii c <=? 57)%nat in
  let n := fold_left (fun acc c => (10 * acc + N.of_nat (nat_of_ascii c - 48))%N) digits 0%N in
  match digits with
  | [] => None
  | first :: rest =>
      if forallb is_digit digits
         && negb (Ascii.eqb first "0"%char && negb (length rest =? 0)%nat)
         && (length digits <=? 10)%nat && (n <? 4294967295)%N
      then Some n
      else None
  end.

(** [o[key]] *)
Definition property (o : JsValue) (key : string) : JsValue :=
  match o with
  | JsObject fields =>
      match List.find (fun kv => String.eqb (fst kv) key) fields with
      | Some kv => snd kv
      | None => JsUndefined
      end
  | _ => JsUndefined
  end.

(** What a [throw] carries: an [Error] object with its message, or any other
    value thrown by piece code. *)
Inductive Exn : Type :=
| JsError (message : string)
| JsThrown (v : JsValue).

(** Outcome of a call: a value, or an exception of type [X] in flight. *)
Inductive Result (X A : Type) : Type :=
| Ok (a : A)
| Threw (e : X).
Arguments Ok {X A} a.
Arguments Threw {X A} e.

(** *** [JSON.stringify]

    The text of a value, [None] where JavaScript answers [undefined]; a
    [BigInt] anywhere in the value makes the call throw a [TypeError].  A
    value that refers to itself, which makes it throw as well, is not among
    the values of [JsValue]; and functions being opaque here, a field that
    holds one is left out like any other function, also when its key is
    [toJSON]. *)

Definition DQUOTE : string := String "034"%char "".

Definition hex (n : nat) : string :=
  String (default "0"%char (String.list_ascii_of_string "0123456789abcdef" !! n)) "".

(** One character inside a string literal. *)
Definition escape (c : ascii) : string :=
  let n := nat_of_ascii c in
  if (n =? 34)%nat then "\" ++ DQUOTE
  else if (n =? 92)%nat then "\\"
  else if (n =? 8)%nat then "\b"
  else if (n =? 12)%nat then "\f"
  else if (n =? 10)%nat then "\n"
  else if (n =? 13)%nat then "\r"
  else if (n =? 9)%nat then "\t"
  else if (n <? 32)%nat then "\u00" ++ hex (n / 16) ++ hex (n mod 16)
  else String c "".

Fixpoint escaped (s : string) : string :=
  match s with
  | EmptyString => ""
  | String c rest => escape c ++ escaped rest
  end.

Definition quote (s : string) : string := DQUOTE ++ escaped s ++ DQUOTE.

Fixpoint JSON_stringify (v : JsValue) : Result Exn (option string) :=
  match v with
  | JsUndefined => Ok None
  | JsFunction _ => Ok None
  | JsNull => Ok (Some "null")
  | JsBool b => Ok (Some (if b then "true" else "false"))
  | JsNumber n => Ok (Some (pretty n))
  | JsBigInt _ => Threw (JsError "Do not know how to serialize a BigInt")
  | JsString s => Ok (Some (quote s))
  | JsArray items =>
      match
        (fix elements (l : list JsValue) : Result Exn (list string) :=
           match l with
           | [] => Ok []
           | item :: rest =>
               match JSON_stringify item with
               | Ok text =>
                   match elements rest with
                   | Ok texts => Ok (default "null" text :: texts)
                   | Threw e => Threw e
                   end
               | Threw e => Threw e
               end
           end) items
      with
      | Ok texts => Ok (Some ("[" ++ String.concat "," texts ++ "]"))
      | Threw e => Threw e
      end
  | JsObject fields =>
      match
        (fix members (l : list (string * JsValue)) : Result Exn (list string) :=
           match l with
           | [] => Ok []
           | (key, value) :: rest =>
               match JSON_stringify value with
               | Ok text =>
                   match members rest with
                   | Ok texts =>
                       Ok (match text with
                           | Some text => (quote key ++ ":" ++ text) :: texts
                           | None => texts
                           end)
                   | Threw e => Threw e
                   end
               | Threw e => Threw e
               end
           end) fields
      with
      | Ok texts => Ok (Some ("{" ++ String.concat "," texts ++ "}"))
      | Threw e => Threw e
      end
  end.

(** Truthiness of an optional string: [undefined] and the empty string are
    falsy. *)
Definition truthy (o : option string) : bool :=
  match o with
  | Some s => negb (String.eqb s "")
  | None => false
  end.

(** An [async] function over a store [S] that may throw an [X]: every
    [await] threads the store, and a throw keeps the writes made so far. *)
Definition Async (S X A : Type) : Type := S -> Result X A * S.

Section Async.
Context {S X : Type}.

Definition ret {A} (a : A) : Async S X A := fun st => (Ok a, st).
Definition throw {A} (e : X) : Async S X A := fun st => (Threw e, st).
Definition bind {A B} (m : Async S X A) (k : A -> Async S X B) : Async S X B :=
  fun st =>
    match m st with
    | (Ok a, st') => k a st'
    | (Threw e, st') => (Threw e, st')
    end.
(** [try { m } catch (e) { h e }] *)
Definition try_catch {A} (m : Async S X A) (h : X -> Async S X A) : Async S X A :=
  fun st =>
    match m st with
    | (Ok a, st') => (Ok a, st')
    | (Threw e, st') => h e st'
    end.
Definition lift {A} (r : Result X A) : Async S X A := fun st => (r, st).
(** Reading and writing the store. *)
Definition gets {A} (f : S -> A) : Async S X A := fun st => (Ok (f st), st).
Definition modify (f : S -> S) : Async S X unit := fun st => (Ok tt, f st).

End Async.

Notation "'await' x <- m ; k" := (bind m (fun x => k))
  (at level 10, x name, m at level 100, k at level 200).
Notation "'exec' m ; k" := (bind m (fun _ => k))
  (at level 10, m at level 100, k at level 200).

End Js.

(** ** The trigger hook engine *)

Module TriggerHelper.
Import Js.

Inductive TriggerStrategy := POLLING | WEBHOOK | APP_WEBHOOK.

Inductive TriggerHookType :=
  ON_ENABLE | ON_DISABLE | HANDSHAKE | RENEW | RUN | TEST.

Global Instance TriggerStrategy_eq_dec : EqDecision TriggerStrategy.
Proof. solve_decision. Defined.

Record Listener := {
  events : list string;
  identifierValue : string;
  identifierKey : string;
}.

(** [ScheduleOptions] as a hook passes it to [setSchedule]: only the cron
    expression is required. *)
Record ScheduleRequest := {
  req_cronExpression : string;
  req_timezone : option string;
  req_failureCount : option Z;
}.

(** [ScheduleOptions] as the engine records it. *)
Record ScheduleOptions := {
  cronExpression : string;
  timezone : string;
  failureCount : Z;
}.

(** The plain data of the [context] object built for a hook. *)
Record Context := {
  store_prefix : string;
  store_flowId : string;
  current_flowId : string;
  current_versionId : string;
  webhookUrl : option string;
  auth : JsValue;
  propsValue : JsValue;
  payload : JsValue;
  project_id : string;
  project_externalId : option string;
  files : option string;
}.

(** Piece code, seen from the engine: a hook body is a tree of calls to the
    two capabilities of [context] that write engine state.  [setSchedule] may
    throw; the second continuation is the body's [catch] (a body without a
    [try] passes [HThrow]). *)
Inductive Hook (R : Type) : Type :=
| HReturn (r : R)
| HThrow (e : Exn)
| HCreateListeners (l : Listener) (k : Hook R)
| HSetSchedule (request : ScheduleRequest) (k : Hook R) (handler : Exn -> Hook R).
Arguments HReturn {R} r.
Arguments HThrow {R} e.
Arguments HCreateListeners {R} l k.
Arguments HSetSchedule {R} request k handler.

Record Trigger := {
  type : TriggerStrategy;
  props : JsValue;
  onEnable : Context -> Hook unit;
  onDisable : Context -> Hook unit;
  onRenew : Context -> Hook unit;
  onHandshake : Context -> Hook JsValue;
  test : Context -> Hook JsValue;
  run : Context -> Hook JsValue;
}.

Record VerifyParams := {
  vp_appWebhookUrl : string;
  vp_payload : option JsValue;
  vp_webhookSecret : string;
}.

Record Piece := {
  getTrigger : string -> option Trigger;
  piece_auth : JsValue;
  piece_events : option (VerifyParams -> Result Exn bool);
}.

Record PieceTriggerSettings := {
  pieceName : string;
  pieceVersion : string;
  triggerName : option string;
  input : JsValue;
}.

Record FlowVersion := {
  fv_id : string;
  fv_flowId : string;
  fv_trigger_settings : PieceTriggerSettings;
}.

Record ExecuteTriggerOperation := {
  hookType : TriggerHookType;
  flowVersion : FlowVersion;
  projectId : string;
  engineToken : string;
  op_test : bool;
  op_webhookUrl : option string;
  appWebhookUrl : option string;
  webhookSecret : option string;
  triggerPayload : option JsValue;
}.

Record EngineConstants := {
  internalApiUrl : string;
  externalProjectId : option string;
  piecesSource : string;
}.

(** The shapes of [ExecuteTriggerResponse], one per hook type. *)
Inductive ExecuteTriggerResponse :=
| DisableResponse
| EnableResponse (listeners : list Listener) (scheduleOptions : option ScheduleOptions)
| RenewResponse (success : bool)
| HandshakeResponse (success : bool) (response : option JsValue) (message : option string)
| TestResponse (success : bool) (message : option string) (output : JsValue)
| RunResponse (success : bool) (message : option string) (output : list JsValue).

(** Routines of the piece that the engine may call. *)
Inductive Routine :=
  OnEnable | OnDisable | OnRenew | OnHandshake | OnTest | OnRun | Verify.

Global Instance Routine_eq_dec : EqDecision Routine.
Proof. solve_decision. Defined.

(** The mutable locals of one [executeTrigger] call, and the routines called
    so far (most recent first). *)
Record EngineState := {
  appListeners : list Listener;
  scheduleOptions : option ScheduleOptions;
  invoked : list Routine;
}.

Definition initial : EngineState :=
  {| appListeners := []; scheduleOptions := None; invoked := [] |}.

Definition E : Type -> Type := Async EngineState Exn.

(** What the module imports from libraries and sibling files. *)
Record Imports := {
  isValidCron : string -> bool;
  loadPieceOrThrow : string -> string -> string -> Result Exn Piece;
  resolve : JsValue -> JsValue;
  applyProcessorsAndValidators :
    JsValue -> JsValue -> JsValue -> JsValue * list (string * JsValue);
}.

(** [JSON.stringify(e)] of a caught exception: an [Error] has no enumerable
    property of its own. *)
Definition stringify_exn (e : Exn) : Result Exn (option string) :=
  match e with
  | JsError _ => Ok (Some "{}")
  | JsThrown v => JSON_stringify v
  end.

Section Engine.
Variable im : Imports.

(** [context.app.createListeners] *)
Definition createListeners (l : Listener) : E unit :=
  fun st =>
    (Ok tt,
     {| appListeners :=
          appListeners st ++
          [{| events := events l;
              identifierValue := identifierValue l;
              identifierKey := identifierKey l |}];
        scheduleOptions := scheduleOptions st;
        invoked := invoked st |}).

(** [context.setSchedule] *)
Definition setSchedule (request : ScheduleRequest) : E unit :=
  fun st =>
    if negb (isValidCron im (req_cronExpression request)) then
      (Threw (JsError ("Invalid cron expression: " ++ req_cronExpression request)), st)
    else
      (Ok tt,
       {| appListeners := appListeners st;
          scheduleOptions :=
            Some {| cronExpression := req_cronExpression request;
                    timezone := default "UTC" (req_timezone request);
                    failureCount := default 0%Z (req_failureCount request) |};
          invoked := invoked st |}).

(** Running a hook body against the capabilities. *)
Fixpoint runHook {R} (h : Hook R) : E R :=
  match h with
  | HReturn r => ret r
  | HThrow e => throw e
  | HCreateListeners l k => bind (createListeners l) (fun _ => runHook k)
  | HSetSchedule request k handler =>
      fun st =>
        match setSchedule request st with
        | (Ok _, st') => runHook k st'
        | (Threw e, st') => runHook (handler e) st'
        end
  end.

Definition note (r : Routine) : E unit :=
  fun st =>
    (Ok tt,
     {| appListeners := appListeners st;
        scheduleOptions := scheduleOptions st;
        invoked := r :: invoked st |}).

(** A call of one of the trigger's routines. *)
Definition call {R} (r : Routine) (body : Hook R) : E R :=
  exec note r; runHook body.

(** [assertNotNullOrUndefined] of the shared package: the error names the
    field. *)
Definition assertNotNullOrUndefined {A} (v : option A) (fieldName : string) : E A :=
  match v with
  | Some a => ret a
  | None => throw (JsError (fieldName ++ " is null or undefined"))
  end.

(** [assertEqual] on trigger strategies. *)
Definition assertEqual (actual expected : TriggerStrategy) (fieldName1 fieldName2 : string) : E unit :=
  if decide (actual = expected) then ret tt
  else throw (JsError (fieldName1 ++ " and " ++ fieldName2 ++ " should be equal")).

(** [piece.events?.verify(...)] : [None] stands for [undefined]. *)
Definition verifyEvent (piece : Piece) (p : VerifyParams) : E (option bool) :=
  match piece_events piece with
  | None => ret None
  | Some verify =>
      exec note Verify;
      await b <- lift (verify p);
      ret (Some b)
  end.

Definition withFiles (ctx : Context) (kind : string) : Context :=
  {| store_prefix := store_prefix ctx;
     store_flowId := store_flowId ctx;
     current_flowId := current_flowId ctx;
     current_versionId := current_versionId ctx;
     webhookUrl := webhookUrl ctx;
     auth := auth ctx;
     propsValue := propsValue ctx;
     payload := payload ctx;
     project_id := project_id ctx;
     project_externalId := project_externalId ctx;
     files := Some kind |}.

(** [processedInput[AUTHENTICATION_PROPERTY_NAME]] *)
Definition AUTHENTICATION_PROPERTY_NAME : string := "auth".

Definition buildContext (params : ExecuteTriggerOperation) (constants : EngineConstants)
    (processedInput : JsValue) : Context :=
  {| store_prefix := if op_test params then "test" else "";
     store_flowId := fv_flowId (flowVersion params);
     current_flowId := fv_flowId (flowVersion params);
     current_versionId := fv_id (flowVersion params);
     webhookUrl := op_webhookUrl params;
     auth := property processedInput AUTHENTICATION_PROPERTY_NAME;
     propsValue := processedInput;
     payload := default (JsObject []) (triggerPayload params);
     project_id := projectId params;
     project_externalId := externalProjectId constants;
     files := None |}.

(** The argument of [piece.events.verify]. *)
Definition verifyParams (params : ExecuteTriggerOperation) : VerifyParams :=
  {| vp_appWebhookUrl := default "" (appWebhookUrl params);
     vp_payload := triggerPayload params;
     vp_webhookSecret := default "" (webhookSecret params) |}.

(** The [APP_WEBHOOK] block of the [RUN] case: [None] lets the run routine
    go ahead, [Some r] is the early [return r]. *)
Definition verifyAppWebhook (params : ExecuteTriggerOperation) (piece : Piece)
    (pieceName : string) : E (option ExecuteTriggerResponse) :=
  if negb (truthy (appWebhookUrl params)) then
    throw (JsError ("App webhook url is not available for piece name " ++ pieceName))
  else if negb (truthy (webhookSecret params)) then
    throw (JsError ("Webhook secret is not available for piece name " ++ pieceName))
  else
    try_catch
      (await verified <- verifyEvent piece (verifyParams params);
       match verified with
       | Some false =>
           ret (Some (RunResponse false (Some "Webhook is not verified") []))
       | _ => ret None
       end)
      (fun _ => ret (Some (RunResponse false (Some "Error while verifying webhook") []))).

(** What stands between the [RUN] case and the run routine. *)
Definition guard (params : ExecuteTriggerOperation) (piece : Piece) (trigger : Trigger)
    (pieceName : string) : E (option ExecuteTriggerResponse) :=
  if decide (type trigger = APP_WEBHOOK)
  then verifyAppWebhook params piece pieceName
  else ret None.

(** The tail of the [RUN] case: call the run routine and check its shape. *)
Definition runTrigger (trigger : Trigger) (context : Context) : E ExecuteTriggerResponse :=
  await items <- call OnRun (run trigger (withFiles context "memory"));
  match items with
  | JsArray l => ret (RunResponse true None l)
  | _ =>
      throw (JsError ("Trigger run should return an array of items, but returned "
                      ++ typeof items))
  end.

(** The [switch (params.hookType)]. *)
Definition dispatch (params : ExecuteTriggerOperation) (piece : Piece)
    (trigger : Trigger) (pieceName : string) (context : Context) : E ExecuteTriggerResponse :=
  match hookType params with
  | ON_DISABLE =>
      exec call OnDisable (onDisable trigger context);
      ret DisableResponse
  | ON_ENABLE =>
      exec call OnEnable (onEnable trigger context);
      fun st =>
        (Ok (EnableResponse (appListeners st)
               (if decide (type trigger = POLLING) then scheduleOptions st else None)),
         st)
  | RENEW =>
      exec assertEqual (type trigger) WEBHOOK "triggerType" "WEBHOOK";
      exec call OnRenew (onRenew trigger context);
      ret (RenewResponse true)
  | HANDSHAKE =>
      try_catch
        (await response <- call OnHandshake (onHandshake trigger context);
         ret (HandshakeResponse true (Some response) None))
        (fun e =>
           await message <- lift (stringify_exn e);
           ret (HandshakeResponse false None message))
  | TEST =>
      try_catch
        (await output <- call OnTest (test trigger (withFiles context "db"));
         ret (TestResponse true None output))
        (fun e =>
           await message <- lift (stringify_exn e);
           ret (TestResponse false message (JsArray [])))
  | RUN =>
      await early <- guard params piece trigger pieceName;
      match early with
      | Some response => ret response
      | None => runTrigger trigger context
      end
  end.

(** [triggerHelper.executeTrigger] *)
Definition executeTrigger (params : ExecuteTriggerOperation) (constants : EngineConstants)
    : E ExecuteTriggerResponse :=
  let settings := fv_trigger_settings (flowVersion params) in
  await name <- assertNotNullOrUndefined (triggerName settings) "triggerName is required";
  await piece <-
    lift (loadPieceOrThrow im (pieceName settings) (pieceVersion settings)
            (piecesSource constants));
  match getTrigger piece name with
  | None =>
      throw (JsError ("trigger not found, pieceName=" ++ pieceName settings
                      ++ ", triggerName=" ++ name))
  | Some trigger =>
      let resolvedInput := resolve im (input settings) in
      let '(processedInput, errors) :=
        applyProcessorsAndValidators im resolvedInput (props trigger) (piece_auth piece) in
      if (0 <? length errors)%nat then
        await message <- lift (JSON_stringify (JsObject errors));
        throw (JsError (default "" message))
      else
        dispatch params piece trigger (pieceName settings)
          (buildContext params constants processedInput)
  end.

(** The prelude of [executeTrigger] went through: the trigger is named,
    the piece loads, it has that trigger, and the validators found nothing;
    [context] is the object built for the hook. *)
Definition Loaded (params : ExecuteTriggerOperation) (constants : EngineConstants)
    (piece : Piece) (trigger : Trigger) (context : Context) : Prop :=
  let settings := fv_trigger_settings (flowVersion params) in
  exists name,
    triggerName settings = Some name /\
    loadPieceOrThrow im (pieceName settings) (pieceVersion settings)
      (piecesSource constants) = Ok piece /\
    getTrigger piece name = Some trigger /\
    snd (applyProcessorsAndValidators im (resolve im (input settings))
           (props trigger) (piece_auth piece)) = [] /\
    context =
      buildContext params constants
        (fst (applyProcessorsAndValidators im (resolve im (input settings))
                (props trigger) (piece_auth piece))).

(** The [setSchedule] calls a hook body makes when it runs, in call order;
    a call whose cron expression does not parse throws into the body's
    handler. *)
Fixpoint called {R} (h : Hook R) : list ScheduleRequest :=
  match h with
  | HReturn _ => []
  | HThrow _ => []
  | HCreateListeners _ k => called k
  | HSetSchedule request k handler =>
      request ::
      (if isValidCron im (req_cronExpression request) then called k
       else called (handler (JsError ("Invalid cron expression: "
                                      ++ req_cronExpression request))))
  end.

(** The calls among them that were accepted. *)
Definition accepted {R} (h : Hook R) : list ScheduleRequest :=
  filter (fun request => isValidCron im (req_cronExpression request) = true) (called h).

(** What an accepted call records. *)
Definition recorded (request : ScheduleRequest) : ScheduleOptions :=
  {| cronExpression := req_cronExpression request;
     timezone := default "UTC" (req_timezone request);
     failureCount := default 0%Z (req_failureCount request) |}.

(** The listeners a hook body registers when it runs, in call order. *)
Fixpoint listened {R} (h : Hook R) : list Listener :=
  match h with
  | HReturn _ => []
  | HThrow _ => []
  | HCreateListeners l k => l :: listened k
  | HSetSchedule request k handler =>
      if isValidCron im (req_cronExpression request) then listened k
      else listened (handler (JsError ("Invalid cron expression: "
                                       ++ req_cronExpression request)))
  end.

End Engine.

End TriggerHelper.

(** ** The run lifecycle manager *)

Module FlowRunService.
Import Js.

(** Modelled from the spec: the enumerations and the pause-metadata variant
    are declared in the shared package, which is not part of the sources at
    hand; the constructors are the ones the data model lists. *)
Inductive FlowRunStatus :=
  RUNNING | PAUSED | SUCCEEDED | FAILED | STOPPED | INTERNAL_ERROR.
Inductive RunEnvironment := PRODUCTION | TESTING.
Inductive ExecutionType := BEGIN | RESUME.
Inductive ProgressUpdateType := NONE | TEST_FLOW | WEBHOOK_RESPONSE.
Inductive FlowRetryStrategy := FROM_FAILED_STEP | ON_LATEST_VERSION.
Inductive PauseType := DELAY | WEBHOOK.

Inductive PauseMetadata :=
| DelayPauseMetadata (resumeAt : string)
| WebhookPauseMetadata (requestId : string) (handlerId : option string).

Global Instance PauseType_eq_dec : EqDecision PauseType.
Proof. solve_decision. Defined.
Global Instance FlowRunStatus_eq_dec : EqDecision FlowRunStatus.
Proof. solve_decision. Defined.

(** Field reads on the variant; a field the variant lacks reads
    [undefined]. *)
Definition type (p : PauseMetadata) : PauseType :=
  match p with
  | DelayPauseMetadata _ => DELAY
  | WebhookPauseMetadata _ _ => WEBHOOK
  end.
Definition requestId (p : PauseMetadata) : option string :=
  match p with
  | DelayPauseMetadata _ => None
  | WebhookPauseMetadata r _ => Some r
  end.
Definition handlerId (p : PauseMetadata) : option string :=
  match p with
  | DelayPauseMetadata _ => None
  | WebhookPauseMetadata _ h => h
  end.

Inductive ErrorCode :=
  FLOW_RUN_NOT_FOUND | FLOW_VERSION_NOT_FOUND | FLOW_NOT_FOUND | FILE_NOT_FOUND.

Inductive ServiceError :=
| ActivepiecesError (code : ErrorCode) (id : string)
| EntityNotFoundError (id : string)
| Error (message : string)
| SyntaxError.

(** A run record; [Partial<FlowRun>] leaves the later columns unset. *)
Record FlowRun := {
  id : string;
  projectId : string;
  flowId : string;
  flowVersionId : string;
  environment : RunEnvironment;
  flowDisplayName : string;
  startTime : string;
  finishTime : option string;
  status : option FlowRunStatus;
  tasks : option Z;
  duration : option Z;
  logsFileId : option string;
  tags : list string;
  pauseMetadata : option PauseMetadata;
  terminationReason : option string;
}.

Record ExecutionState := { steps : gmap string JsValue }.
Record ExecutioOutputFile := { executionState : ExecutionState }.

(** [{ ...flowRun, steps }] *)
Record PopulatedFlowRun := {
  flowRun : FlowRun;
  run_steps : gmap string JsValue;
}.

Inductive FileType := FLOW_RUN_LOG.
Inductive FileCompression := GZIP.

Record File := {
  fileId : string;
  file_projectId : string;
  data : list Byte.byte;
  file_type : FileType;
  compression : FileCompression;
}.

Record FlowVersion := {
  fv_id : string;
  fv_flowId : string;
  displayName : string;
  trigger_name : string;
  currentSelectedData : JsValue;
}.

Record Flow := {
  flow_id : string;
  flow_projectId : string;
}.

(** The argument of [flowRunSideEffects.start]. *)
Record Job := {
  job_flowRun : FlowRun;
  job_httpRequestId : option string;
  job_payload : option JsValue;
  job_priority : string;
  job_synchronousHandlerId : option string;
  job_executionType : ExecutionType;
  job_progressUpdateType : ProgressUpdateType;
}.

Record TelemetryEvent := {
  ev_projectId : string;
  ev_flowId : string;
  ev_environment : RunEnvironment;
}.

(** What was written, in the order it was written: a write to the run table
    leaves the table it made, a hand-over to the job queue the job. *)
Inductive Event :=
| Wrote (table : gmap string FlowRun)
| Queued (j : Job).

(** Everything the service reads and writes: the run table, the collaborating
    services' tables, one log per collaborator that is only told things
    (oldest entry first), and the journal of the writes. *)
Record World := {
  flowRuns : gmap string FlowRun;
  files : gmap string File;
  flowVersions : gmap string FlowVersion;
  lockedVersions : gmap string FlowVersion;
  flows : gmap string Flow;
  queue : list Job;
  pauseEffects : list FlowRun;
  finishEffects : list PopulatedFlowRun;
  handledExceptions : list ServiceError;
  telemetry : list TelemetryEvent;
  generatedIds : nat;
  now : string;
  journal : list Event;
}.

(** What the module imports and cannot be read off the tables. *)
Record Imports := {
  apId : nat -> string;
  getServerId : string;
  MAX_LOG_SIZE : nat;
  serialize : ExecutionState -> list Byte.byte;
  parse : list Byte.byte -> option ExecutioOutputFile;
  getJobPriority : string -> option string -> string;
}.

Definition M : Type -> Type := Async World ServiceError.

Definition set_flowRuns (f : gmap string FlowRun -> gmap string FlowRun) (w : World) : World :=
  {| flowRuns := f (flowRuns w); files := files w; flowVersions := flowVersions w;
     lockedVersions := lockedVersions w; flows := flows w; queue := queue w;
     pauseEffects := pauseEffects w; finishEffects := finishEffects w;
     handledExceptions := handledExceptions w; telemetry := telemetry w;
     generatedIds := generatedIds w; now := now w;
     journal := journal w ++ [Wrote (f (flowRuns w))] |}.

Definition set_files (f : gmap string File -> gmap string File) (w : World) : World :=
  {| flowRuns := flowRuns w; files := f (files w); flowVersions := flowVersions w;
     lockedVersions := lockedVersions w; flows := flows w; queue := queue w;
     pauseEffects := pauseEffects w; finishEffects := finishEffects w;
     handledExceptions := handledExceptions w; telemetry := telemetry w;
     generatedIds := generatedIds w; now := now w; journal := journal w |}.

Definition push_queue (j : Job) (w : World) : World :=
  {| flowRuns := flowRuns w; files := files w; flowVersions := flowVersions w;
     lockedVersions := lockedVersions w; flows := flows w; queue := queue w ++ [j];
     pauseEffects := pauseEffects w; finishEffects := finishEffects w;
     handledExceptions := handledExceptions w; telemetry := telemetry w;
     generatedIds := generatedIds w; now := now w;
     journal := journal w ++ [Queued j] |}.

Definition push_pauseEffects (r : FlowRun) (w : World) : World :=
  {| flowRuns := flowRuns w; files := files w; flowVersions := flowVersions w;
     lockedVersions := lockedVersions w; flows := flows w; queue := queue w;
     pauseEffects := pauseEffects w ++ [r]; finishEffects := finishEffects w;
     handledExceptions := handledExceptions w; telemetry := telemetry w;
     generatedIds := generatedIds w; now := now w; journal := journal w |}.

Definition push_finishEffects (r : PopulatedFlowRun) (w : World) : World :=
  {| flowRuns := flowRuns w; files := files w; flowVersions := flowVersions w;
     lockedVersions := lockedVersions w; flows := flows w; queue := queue w;
     pauseEffects := pauseEffects w; finishEffects := finishEffects w ++ [r];
     handledExceptions := handledExceptions w; telemetry := telemetry w;
     generatedIds := generatedIds w; now := now w; journal := journal w |}.

Definition push_handledExceptions (e : ServiceError) (w : World) : World :=
  {| flowRuns := flowRuns w; files := files w; flowVersions := flowVersions w;
     lockedVersions := lockedVersions w; flows := flows w; queue := queue w;
     pauseEffects := pauseEffects w; finishEffects := finishEffects w;
     handledExceptions := handledExceptions w ++ [e]; telemetry := telemetry w;
     generatedIds := generatedIds w; now := now w; journal := journal w |}.

Definition push_telemetry (e : TelemetryEvent) (w : World) : World :=
  {| flowRuns := flowRuns w; files := files w; flowVersions := flowVersions w;
     lockedVersions := lockedVersions w; flows := flows w; queue := queue w;
     pauseEffects := pauseEffects w; finishEffects := finishEffects w;
     handledExceptions := handledExceptions w; telemetry := telemetry w ++ [e];
     generatedIds := generatedIds w; now := now w; journal := journal w |}.

Definition bump_generatedIds (w : World) : World :=
  {| flowRuns := flowRuns w; files := files w; flowVersions := flowVersions w;
     lockedVersions := lockedVersions w; flows := flows w; queue := queue w;
     pauseEffects := pauseEffects w; finishEffects := finishEffects w;
     handledExceptions := handledExceptions w; telemetry := telemetry w;
     generatedIds := S (generatedIds w); now := now w; journal := journal w |}.

(** *** The run repository ([flowRunRepo()]) *)

Module repo.

(** [findOneBy({ id })] *)
Definition findOneBy (runId : string) : M (option FlowRun) :=
  gets (fun w => flowRuns w !! runId).

(** [findOneBy({ projectId, id })]: an [undefined] project is no
    criterion. *)
Definition findOneByProject (project : option string) (runId : string) : M (option FlowRun) :=
  gets (fun w =>
    match flowRuns w !! runId with
    | Some r =>
        match project with
        | Some p => if String.eqb (projectId r) p then Some r else None
        | None => Some r
        end
    | None => None
    end).

(** [findOneByOrFail({ id })] *)
Definition findOneByOrFail (runId : string) : M FlowRun :=
  await found <- findOneBy runId;
  match found with
  | Some r => ret r
  | None => throw (EntityNotFoundError runId)
  end.

(** [update(id, partial)]: rewrites the columns of the row that the partial
    record gives a value for, if there is such a row. *)
Definition update (runId : string) (columns : FlowRun -> FlowRun) : M unit :=
  modify (set_flowRuns (alter columns runId)).

(** [save(flowRun)]: inserts or replaces the row of that id. *)
Definition save (r : FlowRun) : M FlowRun :=
  exec modify (set_flowRuns (insert (id r) r));
  ret r.

End repo.

(** *** Collaborating services

    The flow and flow-version services, the blob store, the side effects,
    the exception sink and telemetry are imported from files outside the two
    embedded here. *)

Module flowVersionService.
(** Modelled from the spec: [flowVersionService.getOneOrThrow] is missing; a
    flow version that is not found is a typed not-found error. *)
Definition getOneOrThrow (versionId : string) : M FlowVersion :=
  await found <- gets (fun w => flowVersions w !! versionId);
  match found with
  | Some v => ret v
  | None => throw (ActivepiecesError FLOW_VERSION_NOT_FOUND versionId)
  end.
(** Modelled from the spec: [getLatestLockedVersionOrThrow] is missing; it
    gives the flow's current locked version. *)
Definition getLatestLockedVersionOrThrow (flow : string) : M FlowVersion :=
  await found <- gets (fun w => lockedVersions w !! flow);
  match found with
  | Some v => ret v
  | None => throw (ActivepiecesError FLOW_VERSION_NOT_FOUND flow)
  end.
End flowVersionService.

Module flowService.
(** Modelled from the spec: [flowService.getOneOrThrow] is missing; the flow
    is looked up by id within the project. *)
Definition getOneOrThrow (flow project : string) : M Flow :=
  await found <- gets (fun w => flows w !! flow);
  match found with
  | Some f =>
      if String.eqb (flow_projectId f) project then ret f
      else throw (ActivepiecesError FLOW_NOT_FOUND flow)
  | None => throw (ActivepiecesError FLOW_NOT_FOUND flow)
  end.
End flowService.

Module fileService.
(** Modelled from the spec: [fileService.save] is missing; the blob store
    saves by id, a later save under the same id overwriting the artifact. *)
Definition save (f : File) : M unit :=
  modify (set_files (insert (fileId f) f)).
(** Modelled from the spec: [fileService.getOneOrThrow] is missing; the blob
    store gets by id within the project. *)
Definition getOneOrThrow (file project : string) : M File :=
  await found <- gets (fun w => files w !! file);
  match found with
  | Some f =>
      if String.eqb (file_projectId f) project then ret f
      else throw (ActivepiecesError FILE_NOT_FOUND file)
  | None => throw (ActivepiecesError FILE_NOT_FOUND file)
  end.
End fileService.

Module flowRunSideEffects.
(** Modelled from the spec: [flowRunSideEffects.start] is missing; it hands
    the run to the job queue together with the handler affinity. *)
Definition start (j : Job) : M unit := modify (push_queue j).
(** Modelled from the spec: [flowRunSideEffects.pause] is missing; it is
    notified of the paused run. *)
Definition pause (r : FlowRun) : M unit := modify (push_pauseEffects r).
(** Modelled from the spec: [flowRunSideEffects.finish] is missing; it is
    notified of the finished run. *)
Definition finish (r : PopulatedFlowRun) : M unit := modify (push_finishEffects r).
End flowRunSideEffects.

Module exceptionHandler.
(** Modelled from the spec: [exceptionHandler.handle] is missing; the
    exception-tracking sink records the error it is handed. *)
Definition handle (e : ServiceError) : M unit := modify (push_handledExceptions e).
End exceptionHandler.

Module telemetry_utils.
(** Modelled from the spec: [telemetry.trackProject] is missing; the event is
    fired and forgotten, a failure is logged and never propagated. *)
Definition trackProject (e : TelemetryEvent) : M unit := modify (push_telemetry e).
End telemetry_utils.

(** [isNil] *)
Definition isNil {A} (v : option A) : bool :=
  match v with
  | None => true
  | Some _ => false
  end.

(** [spreadIfDefined(key, value)] applied to a column: the column is written
    only when the value is not nil. *)
Definition spreadIfDefined {A} (value current : option A) : option A :=
  match value with
  | Some v => Some v
  | None => current
  end.

(** Decimal digits of a number, for the size-limit message. *)
Definition toString (n : nat) : string := pretty n.

Section Service.
Variable im : Imports.

(** [apId()] *)
Definition newId : M string :=
  await n <- gets generatedIds;
  exec modify bump_generatedIds;
  ret (apId im n).

(** [new Date().toISOString()] *)
Definition toISOString : M string := gets now.

(** [flowRunService.getOneOrThrow] *)
Definition getOneOrThrow (runId : string) (project : option string) : M FlowRun :=
  await found <- repo.findOneByProject project runId;
  match found with
  | Some r => ret r
  | None => throw (ActivepiecesError FLOW_RUN_NOT_FOUND runId)
  end.

(** [getFlowRunOrCreate] *)
Definition getFlowRunOrCreate (runId : option string) (project flow version : string)
    (name : string) (env : RunEnvironment) : M FlowRun :=
  if truthy runId then
    getOneOrThrow (default "" runId) (Some project)
  else
    await fresh <- newId;
    await started <- toISOString;
    ret {| id := fresh; projectId := project; flowId := flow; flowVersionId := version;
           environment := env; flowDisplayName := name; startTime := started;
           finishTime := None; status := None; tasks := None; duration := None;
           logsFileId := None; tags := []; pauseMetadata := None;
           terminationReason := None |}.

(** [returnHandlerId] *)
Definition returnHandlerId (pause : option PauseMetadata) (request : option string) : string :=
  let handler := getServerId im in
  match pause with
  | None => handler
  | Some p =>
      if bool_decide (type p = WEBHOOK) && bool_decide (request = requestId p)
         && truthy (handlerId p)
      then default "" (handlerId p)
      else handler
  end.

(** [flowRun.status = FlowRunStatus.RUNNING] *)
Definition set_status (s : FlowRunStatus) (r : FlowRun) : FlowRun :=
  {| id := id r; projectId := projectId r; flowId := flowId r;
     flowVersionId := flowVersionId r; environment := environment r;
     flowDisplayName := flowDisplayName r; startTime := startTime r;
     finishTime := finishTime r; status := Some s; tasks := tasks r;
     duration := duration r; logsFileId := logsFileId r; tags := tags r;
     pauseMetadata := pauseMetadata r; terminationReason := terminationReason r |}.

Record StartParams := {
  sp_projectId : string;
  sp_flowVersionId : string;
  sp_flowRunId : option string;
  sp_environment : RunEnvironment;
  sp_payload : option JsValue;
  sp_synchronousHandlerId : option string;
  sp_httpRequestId : option string;
  sp_progressUpdateType : ProgressUpdateType;
  sp_executionType : ExecutionType;
}.

(** [flowRunService.start].  The repository, the queue manager and the side
    effects take what they are handed: a rejection of theirs, which would
    leave [start] between two of its steps, is not part of this world. *)
Definition start (p : StartParams) : M FlowRun :=
  await version <- flowVersionService.getOneOrThrow (sp_flowVersionId p);
  await flow <- flowService.getOneOrThrow (fv_flowId version) (sp_projectId p);
  await run <-
    getFlowRunOrCreate (sp_flowRunId p) (flow_projectId flow) (fv_flowId version)
      (fv_id version) (displayName version) (sp_environment p);
  let run := set_status RUNNING run in
  await savedFlowRun <- repo.save run;
  exec telemetry_utils.trackProject
    {| ev_projectId := projectId savedFlowRun;
       ev_flowId := flowId savedFlowRun;
       ev_environment := environment savedFlowRun |};
  let priority := getJobPriority im (projectId savedFlowRun) (sp_synchronousHandlerId p) in
  exec flowRunSideEffects.start
    {| job_flowRun := savedFlowRun;
       job_httpRequestId := sp_httpRequestId p;
       job_payload := sp_payload p;
       job_priority := priority;
       job_synchronousHandlerId := sp_synchronousHandlerId p;
       job_executionType := sp_executionType p;
       job_progressUpdateType := sp_progressUpdateType p |};
  ret savedFlowRun.

(** [flowRunService.test] *)
Definition test (project version : string) : M FlowRun :=
  await v <- flowVersionService.getOneOrThrow version;
  start {| sp_projectId := project; sp_flowVersionId := version; sp_flowRunId := None;
           sp_environment := TESTING; sp_payload := Some (currentSelectedData v);
           sp_synchronousHandlerId := Some (getServerId im);
           sp_httpRequestId := None; sp_progressUpdateType := TEST_FLOW;
           sp_executionType := BEGIN |}.

(** [flowRunService.addToQueue] *)
Definition addToQueue (runId : string) (payload : option JsValue) (request : option string)
    (progress : ProgressUpdateType) (execution : ExecutionType) : M unit :=
  await flowRunToResume <- repo.findOneBy runId;
  match flowRunToResume with
  | None => throw (ActivepiecesError FLOW_RUN_NOT_FOUND runId)
  | Some flowRunToResume =>
      let pause := pauseMetadata flowRunToResume in
      let matchRequestId :=
        isNil pause
        || match pause with
           | Some p => bool_decide (type p = WEBHOOK) && bool_decide (request = requestId p)
           | None => false
           end in
      if matchRequestId then
        exec start
          {| sp_payload := payload;
             sp_flowRunId := Some (id flowRunToResume);
             sp_projectId := projectId flowRunToResume;
             sp_flowVersionId := flowVersionId flowRunToResume;
             sp_synchronousHandlerId := Some (returnHandlerId pause request);
             sp_httpRequestId := request;
             sp_progressUpdateType := progress;
             sp_executionType := execution;
             sp_environment := PRODUCTION |};
        ret tt
      else ret tt
  end.

(** [flowRunService.pause] *)
Definition pause (runId : string) (metadata : PauseMetadata) : M unit :=
  exec repo.update runId (fun r =>
    {| id := id r; projectId := projectId r; flowId := flowId r;
       flowVersionId := flowVersionId r; environment := environment r;
       flowDisplayName := flowDisplayName r; startTime := startTime r;
       finishTime := finishTime r; status := Some PAUSED; tasks := tasks r;
       duration := duration r; logsFileId := logsFileId r; tags := tags r;
       pauseMetadata := Some metadata; terminationReason := terminationReason r |});
  await run <- repo.findOneByOrFail runId;
  flowRunSideEffects.pause run.

(** [flowRunService.getOnePopulatedOrThrow] *)
Definition getOnePopulatedOrThrow (runId : string) (project : option string) : M PopulatedFlowRun :=
  await run <- getOneOrThrow runId project;
  match logsFileId run with
  | Some logs =>
      await logFile <- fileService.getOneOrThrow logs (projectId run);
      match parse im (data logFile) with
      | Some executionOutput =>
          ret {| flowRun := run; run_steps := steps (executionState executionOutput) |}
      | None => throw SyntaxError
      end
  | None => ret {| flowRun := run; run_steps := ∅ |}
  end.

(** [updateLogs] *)
Definition updateLogs (runId project : string) (state : option ExecutionState)
    : M (option string) :=
  match state with
  | None => ret None
  | Some state =>
      await run <- repo.findOneByOrFail runId;
      let serializedLogs := serialize im state in
      if (MAX_LOG_SIZE im <? length serializedLogs)%nat then
        let errors :=
          Error ("Execution Output is too large, maximum size is "
                 ++ toString (MAX_LOG_SIZE im)) in
        exec exceptionHandler.handle errors;
        throw errors
      else
        await file <-
          match logsFileId run with
          | Some existing => ret existing
          | None => newId
          end;
        exec fileService.save
          {| fileId := file; file_projectId := project; data := serializedLogs;
             file_type := FLOW_RUN_LOG; compression := GZIP |};
        ret (Some file)
  end.

(** [duration ? Math.floor(Number(duration)) : undefined], on rationals. *)
Definition floorDuration (d : option Q) : option Z :=
  match d with
  | Some q => if Qeq_bool q 0 then None else Some (Qfloor q)
  | None => None
  end.

(** The columns [updateStatus] writes.  [terminationReason: undefined] gives
    the column no value, and the repository's [update] writes the columns it
    is given a value for: the marker stays as it is. *)
Definition finished_columns (newStatus : FlowRunStatus) (newTasks : Z)
    (logFileId : option string) (newTags : list string) (newDuration : option Q)
    (finished : string) (r : FlowRun) : FlowRun :=
  {| id := id r; projectId := projectId r; flowId := flowId r;
     flowVersionId := flowVersionId r; environment := environment r;
     flowDisplayName := flowDisplayName r; startTime := startTime r;
     finishTime := Some finished; status := Some newStatus; tasks := Some newTasks;
     duration := spreadIfDefined (floorDuration newDuration) (duration r);
     logsFileId := spreadIfDefined logFileId (logsFileId r); tags := newTags;
     pauseMetadata := pauseMetadata r; terminationReason := terminationReason r |}.

(** [flowRunService.updateStatus] *)
Definition updateStatus (runId : string) (newStatus : FlowRunStatus) (newTasks : Z)
    (state : option ExecutionState) (project : string) (newTags : list string)
    (newDuration : option Q) : M PopulatedFlowRun :=
  await logFileId <- updateLogs runId project state;
  await finished <- toISOString;
  exec repo.update runId
    (finished_columns newStatus newTasks logFileId newTags newDuration finished);
  await run <- getOnePopulatedOrThrow runId None;
  exec flowRunSideEffects.finish run;
  ret run.

(** [updateFlowRunToLatestFlowVersionIdAndReturnPayload] *)
Definition updateFlowRunToLatestFlowVersionIdAndReturnPayload (runId : string)
    : M (option JsValue) :=
  await run <- getOnePopulatedOrThrow runId None;
  await version <- flowVersionService.getLatestLockedVersionOrThrow (flowId (flowRun run));
  exec repo.update runId (fun r =>
    {| id := id r; projectId := projectId r; flowId := flowId r;
       flowVersionId := fv_id version; environment := environment r;
       flowDisplayName := flowDisplayName r; startTime := startTime r;
       finishTime := finishTime r; status := status r; tasks := tasks r;
       duration := duration r; logsFileId := logsFileId r; tags := tags r;
       pauseMetadata := pauseMetadata r; terminationReason := terminationReason r |});
  ret (match run_steps run !! trigger_name version with
       | Some step => Some (property step "output")
       | None => None
       end).

(** [flowRunService.retry] *)
Definition retry (runId : string) (strategy : FlowRetryStrategy) : M unit :=
  match strategy with
  | FROM_FAILED_STEP => addToQueue runId None None NONE RESUME
  | ON_LATEST_VERSION =>
      await payload <- updateFlowRunToLatestFlowVersionIdAndReturnPayload runId;
      addToQueue runId payload None NONE BEGIN
  end.

(** *** Vocabulary for the statements about the service *)

(** The job [start] hands over when it resumes the stored run [r]. *)
Definition resume_job (r : FlowRun) (payload : option JsValue) (request : option string)
    (progress : ProgressUpdateType) (execution : ExecutionType) : Job :=
  let handler := returnHandlerId (pauseMetadata r) request in
  {| job_flowRun := set_status RUNNING r;
     job_httpRequestId := request;
     job_payload := payload;
     job_priority := getJobPriority im (projectId r) (Some handler);
     job_synchronousHandlerId := Some handler;
     job_executionType := execution;
     job_progressUpdateType := progress |}.

(** The world after [addToQueue] resumed the stored run [r]. *)
Definition resumed (w : World) (r : FlowRun) (payload : option JsValue)
    (request : option string) (progress : ProgressUpdateType)
    (execution : ExecutionType) : World :=
  push_queue (resume_job r payload request progress execution)
    (push_telemetry
       {| ev_projectId := projectId r; ev_flowId := flowId r;
          ev_environment := environment r |}
       (set_flowRuns (insert (id r) (set_status RUNNING r)) w)).

(** The request belongs to the pending pause, or nothing is pending. *)
Definition matches (r : FlowRun) (request : option string) : Prop :=
  pauseMetadata r = None \/
  exists rid h, pauseMetadata r = Some (WebhookPauseMetadata rid h) /\ request = Some rid.

(** A pause is pending and the request is not for it. *)
Definition mismatches (r : FlowRun) (request : option string) : Prop :=
  exists p, pauseMetadata r = Some p /\ (type p = DELAY \/ request <> requestId p).

(** The run can be started again: it is stored under its own, non-empty id,
    and its flow version and its flow, of the same project, are there. *)
Definition startable (w : World) (r : FlowRun) : Prop :=
  flowRuns w !! id r = Some r /\ id r <> "" /\
  exists v f,
    flowVersions w !! flowVersionId r = Some v /\
    flows w !! fv_flowId v = Some f /\
    flow_projectId f = projectId r.

(** The artifact [updateLogs] saves under [file]. *)
Definition log_file (file project : string) (state : ExecutionState) : File :=
  {| fileId := file; file_projectId := project; data := serialize im state;
     file_type := FLOW_RUN_LOG; compression := GZIP |}.

(** The error of an oversized log. *)
Definition too_large : ServiceError :=
  Error ("Execution Output is too large, maximum size is " ++ toString (MAX_LOG_SIZE im)).

(** Every row of the run table sits under its own id. *)
Definition keyed (w : World) : Prop :=
  forall k r, flowRuns w !! k = Some r -> id r = k.

(** The row [getFlowRunOrCreate] makes up when no run id is given. *)
Definition created (w : World) (project flow version name : string)
    (env : RunEnvironment) : FlowRun :=
  {| id := apId im (generatedIds w); projectId := project; flowId := flow;
     flowVersionId := version; environment := env; flowDisplayName := name;
     startTime := now w; finishTime := None; status := None; tasks := None;
     duration := None; logsFileId := None; tags := []; pauseMetadata := None;
     terminationReason := None |}.

(** The columns [pause] writes. *)
Definition paused_columns (metadata : PauseMetadata) (r : FlowRun) : FlowRun :=
  {| id := id r; projectId := projectId r; flowId := flowId r;
     flowVersionId := flowVersionId r; environment := environment r;
     flowDisplayName := flowDisplayName r; startTime := startTime r;
     finishTime := finishTime r; status := Some PAUSED; tasks := tasks r;
     duration := duration r; logsFileId := logsFileId r; tags := tags r;
     pauseMetadata := Some metadata; terminationReason := terminationReason r |}.

(** The column [updateFlowRunToLatestFlowVersionIdAndReturnPayload] writes. *)
Definition rebound (version : string) (r : FlowRun) : FlowRun :=
  {| id := id r; projectId := projectId r; flowId := flowId r;
     flowVersionId := version; environment := environment r;
     flowDisplayName := flowDisplayName r; startTime := startTime r;
     finishTime := finishTime r; status := status r; tasks := tasks r;
     duration := duration r; logsFileId := logsFileId r; tags := tags r;
     pauseMetadata := pauseMetadata r; terminationReason := terminationReason r |}.

End Service.

End FlowRunService.

(** ** Concrete instances

    A cron checker, pieces, triggers and worlds on which the services can be
    run; the theorems below hold for every instance of the imports. *)

Module Cron.

(** A five-field checker after the validator package the engine imports, in
    its default mode: minutes, hours, days of month, months, weekdays, each a
    comma list of [*], a number or a range, with an optional step. *)

Fixpoint split_on (sep : ascii) (s : string) : list string :=
  match s with
  | EmptyString => [""]
  | String c rest =>
      if Ascii.eqb c sep then "" :: split_on sep rest
      else
        match split_on sep rest with
        | w :: ws => String c w :: ws
        | [] => [String c ""]
        end
  end.

Definition is_digit (c : ascii) : bool :=
  let n := nat_of_ascii c in (48 <=? n)%nat && (n <=? 57)%nat.

Fixpoint all_chars (p : ascii -> bool) (s : string) : bool :=
  match s with
  | EmptyString => true
  | String c rest => p c && all_chars p rest
  end.

Fixpoint digits_value (acc : nat) (s : string) : nat :=
  match s with
  | EmptyString => acc
  | String c rest => digits_value (10 * acc + (nat_of_ascii c - 48)) rest
  end.

(** [safeParseInt]: [None] stands for [NaN]. *)
Definition safeParseInt (s : string) : option nat :=
  if negb (String.eqb s "") && all_chars is_digit s then Some (digits_value 0 s)
  else None.

Definition isInRange (v : option nat) (start stop : nat) : bool :=
  match v with
  | Some n => (start <=? n)%nat && (n <=? stop)%nat
  | None => false
  end.

Definition isValidRange (value : string) (start stop : nat) : bool :=
  match split_on "-"%char value with
  | [_] => String.eqb value "*" || isInRange (safeParseInt value) start stop
  | [small; big] =>
      match safeParseInt small, safeParseInt big with
      | Some a, Some b =>
          (a <=? b)%nat && isInRange (Some a) start stop && isInRange (Some b) start stop
      | _, _ => false
      end
  | _ => false
  end.

Definition isValidStep (value : option string) : bool :=
  match value with
  | None => true
  | Some v =>
      match safeParseInt v with
      | Some n => (0 <? n)%nat
      | None => false
      end
  end.

Definition allowed (c : ascii) : bool :=
  is_digit c || Ascii.eqb c "-"%char || Ascii.eqb c ","%char || Ascii.eqb c "/"%char || Ascii.eqb c "*"%char.

Definition validateForRange (value : string) (start stop : nat) : bool :=
  all_chars allowed value
  && forallb
       (fun condition =>
          match split_on "/"%char condition with
          | [range] => isValidRange range start stop
          | [range; step] =>
              negb (String.eqb step "")
              && isValidRange range start stop && isValidStep (Some step)
          | _ => false
          end)
       (split_on ","%char value).

(** The blanks of [\s] among the ASCII characters: space, tab, line feed,
    vertical tab, form feed and carriage return. *)
Definition is_space (c : ascii) : bool :=
  Ascii.eqb c " "%char || Ascii.eqb c "009"%char || Ascii.eqb c "010"%char
  || Ascii.eqb c "011"%char || Ascii.eqb c "012"%char || Ascii.eqb c "013"%char.

(** [cron.trim().split(/\s+/)], without the empty words. *)
Fixpoint words_from (current : string) (s : string) : list string :=
  match s with
  | EmptyString => if String.eqb current "" then [] else [current]
  | String c rest =>
      if is_space c then
        (if String.eqb current "" then words_from "" rest
         else current :: words_from "" rest)
      else words_from (current ++ String c "") rest
  end.

Definition isValidCron (cron : string) : bool :=
  match words_from "" cron with
  | [minutes; hours; days; months; weekdays] =>
      validateForRange minutes 0 59 && validateForRange hours 0 23
      && validateForRange days 1 31 && validateForRange months 1 12
      && validateForRange weekdays 0 6
  | _ => false
  end.

End Cron.

Module Json.
Import Js.

(** A reader of JSON text after [JSON.parse]: objects, arrays, string
    literals with their two-character escapes, integers and the three
    literals.  Fractions, exponents and [\u] escapes are not read. *)

Definition is_blank (c : ascii) : bool :=
  Ascii.eqb c " "%char || Ascii.eqb c "009"%char || Ascii.eqb c "010"%char
  || Ascii.eqb c "013"%char.

Definition is_digit (c : ascii) : bool :=
  let n := nat_of_ascii c in (48 <=? n)%nat && (n <=? 57)%nat.

Fixpoint skip (s : string) : string :=
  match s with
  | String c rest => if is_blank c then skip rest else s
  | EmptyString => s
  end.

Definition unescape (c : ascii) : option ascii :=
  if Ascii.eqb c "034"%char then Some "034"%char
  else if Ascii.eqb c "\"%char then Some "\"%char
  else if Ascii.eqb c "/"%char then Some "/"%char
  else if Ascii.eqb c "b"%char then Some "008"%char
  else if Ascii.eqb c "f"%char then Some "012"%char
  else if Ascii.eqb c "n"%char then Some "010"%char
  else if Ascii.eqb c "r"%char then Some "013"%char
  else if Ascii.eqb c "t"%char then Some "009"%char
  else None.

(** The characters of a string literal, after its opening quote. *)
Fixpoint literal (s : string) : option (string * string) :=
  match s with
  | EmptyString => None
  | String c rest =>
      if Ascii.eqb c "034"%char then Some ("", rest)
      else if Ascii.eqb c "\"%char then
        match rest with
        | String e rest' =>
            match unescape e, literal rest' with
            | Some c', Some (text, after) => Some (String c' text, after)
            | _, _ => None
            end
        | EmptyString => None
        end
      else if (nat_of_ascii c <? 32)%nat then None
      else
        match literal rest with
        | Some (text, after) => Some (String c text, after)
        | None => None
        end
  end.

Fixpoint natural (acc : Z) (s : string) : Z * string :=
  match s with
  | String c rest =>
      if is_digit c then natural (10 * acc + Z.of_nat (nat_of_ascii c - 48)) rest
      else (acc, s)
  | EmptyString => (acc, s)
  end.

(** A numeral: no leading zero before another digit. *)
Definition number (s : string) : option (Z * string) :=
  match s with
  | String c rest =>
      if negb (is_digit c) then None
      else if Ascii.eqb c "0"%char
              && match rest with
                 | String d _ => is_digit d
                 | EmptyString => false
                 end
      then None
      else Some (natural 0 s)
  | EmptyString => None
  end.

Fixpoint strip (word s : string) : option string :=
  match word, s with
  | EmptyString, _ => Some s
  | String a word', String b s' => if Ascii.eqb a b then strip word' s' else None
  | String _ _, EmptyString => None
  end.

Fixpoint value (fuel : nat) (s : string) {struct fuel} : option (JsValue * string) :=
  match fuel with
  | O => None
  | S fuel =>
      match skip s with
      | EmptyString => None
      | String c rest =>
          if Ascii.eqb c "{"%char then
            match skip rest with
            | String "}"%char after => Some (JsObject [], after)
            | _ =>
                match members fuel rest with
                | Some (fields, after) => Some (JsObject fields, after)
                | None => None
                end
            end
          else if Ascii.eqb c "["%char then
            match skip rest with
            | String "]"%char after => Some (JsArray [], after)
            | _ =>
                match elements fuel rest with
                | Some (items, after) => Some (JsArray items, after)
                | None => None
                end
            end
          else if Ascii.eqb c "034"%char then
            match literal rest with
            | Some (text, after) => Some (JsString text, after)
            | None => None
            end
          else if Ascii.eqb c "-"%char then
            match number rest with
            | Some (n, after) => Some (JsNumber (- n), after)
            | None => None
            end
          else if is_digit c then
            match number (String c rest) with
            | Some (n, after) => Some (JsNumber n, after)
            | None => None
            end
          else
            match strip "true" (String c rest), strip "false" (String c rest),
                  strip "null" (String c rest) with
            | Some after, _, _ => Some (JsBool true, after)
            | _, Some after, _ => Some (JsBool false, after)
            | _, _, Some after => Some (JsNull, after)
            | _, _, _ => None
            end
      end
  end
with elements (fuel : nat) (s : string) {struct fuel} : option (list JsValue * string) :=
  match fuel with
  | O => None
  | S fuel =>
      match value fuel s with
      | Some (item, rest) =>
          match skip rest with
          | String c after =>
              if Ascii.eqb c ","%char then
                match elements fuel after with
                | Some (items, after') => Some (item :: items, after')
                | None => None
                end
              else if Ascii.eqb c "]"%char then Some ([item], after)
              else None
          | EmptyString => None
          end
      | None => None
      end
  end
with members (fuel : nat) (s : string) {struct fuel}
    : option (list (string * JsValue) * string) :=
  match fuel with
  | O => None
  | S fuel =>
      match skip s with
      | String "034"%char rest =>
          match literal rest with
          | Some (key, rest) =>
              match skip rest with
              | String ":"%char rest =>
                  match value fuel rest with
                  | Some (v, rest) =>
                      match skip rest with
                      | String c after =>
                          if Ascii.eqb c ","%char then
                            match members fuel after with
                            | Some (fields, after') => Some ((key, v) :: fields, after')
                            | None => None
                            end
                          else if Ascii.eqb c "}"%char then Some ([(key, v)], after)
                          else None
                      | EmptyString => None
                      end
                  | None => None
                  end
              | _ => None
              end
          | None => None
          end
      | _ => None
      end
  end.

(** [JSON.parse(text)]: [None] stands for the [SyntaxError]. *)
Definition parse (text : string) : option JsValue :=
  match value (S (String.length text)) text with
  | Some (v, after) => if String.eqb (skip after) "" then Some v else None
  | None => None
  end.

End Json.

Module TriggerFixtures.
Import Js TriggerHelper.

Definition hourly : ScheduleRequest :=
  {| req_cronExpression := "0 * * * *"; req_timezone := None; req_failureCount := None |}.

Definition malformed : ScheduleRequest :=
  {| req_cronExpression := "not-a-cron"; req_timezone := None; req_failureCount := None |}.

Definition listener : Listener :=
  {| events := ["message"]; identifierValue := "T01"; identifierKey := "team_id" |}.

(** A trigger whose enable routine registers a listener and an hourly
    schedule, and whose run routine yields [items]. *)
Definition trigger_of (strategy : TriggerStrategy) (items : JsValue) : Trigger :=
  {| type := strategy;
     props := JsObject [];
     onEnable := fun _ =>
       HCreateListeners listener (HSetSchedule hourly (HReturn tt) HThrow);
     onDisable := fun _ => HReturn tt;
     onRenew := fun _ => HReturn tt;
     onHandshake := fun _ => HReturn (JsString "ok");
     test := fun _ => HReturn (JsArray []);
     run := fun _ => HReturn items |}.

(** A polling trigger whose enable routine asks for a schedule with an
    expression that does not parse, and catches the error. *)
Definition swallowing_trigger : Trigger :=
  {| type := POLLING;
     props := JsObject [];
     onEnable := fun _ => HSetSchedule malformed (HReturn tt) (fun _ => HReturn tt);
     onDisable := fun _ => HReturn tt;
     onRenew := fun _ => HReturn tt;
     onHandshake := fun _ => HReturn (JsString "ok");
     test := fun _ => HReturn (JsArray []);
     run := fun _ => HReturn (JsArray []) |}.

Definition piece_of (t : Trigger) (verify : option (VerifyParams -> Result Exn bool)) : Piece :=
  {| getTrigger := fun name => if String.eqb name "new_event" then Some t else None;
     piece_auth := JsUndefined;
     piece_events := verify |}.

Definition imports_of (p : Piece) : Imports :=
  {| isValidCron := Cron.isValidCron;
     loadPieceOrThrow := fun name _ _ =>
       if String.eqb name "sample-piece" then Ok p
       else Threw (JsError "piece not found");
     resolve := fun unresolved => unresolved;
     applyProcessorsAndValidators := fun resolved _ _ => (resolved, []) |}.

Definition operation (hook : TriggerHookType) : ExecuteTriggerOperation :=
  {| hookType := hook;
     flowVersion :=
       {| fv_id := "version-1"; fv_flowId := "flow-1";
          fv_trigger_settings :=
            {| pieceName := "sample-piece"; pieceVersion := "0.1.0";
               triggerName := Some "new_event"; input := JsObject [] |} |};
     projectId := "project-1";
     engineToken := "token";
     op_test := false;
     op_webhookUrl := Some "https://host/webhooks/flow-1";
     appWebhookUrl := Some "https://host/app-events/sample-piece";
     webhookSecret := Some "s3cret";
     triggerPayload := Some (JsObject [("body", JsString "ping")]) |}.

Definition constants : EngineConstants :=
  {| internalApiUrl := "http://127.0.0.1:3000/";
     externalProjectId := None;
     piecesSource := "FILE" |}.

Definition context : Context :=
  buildContext (operation RUN) constants (JsObject []).

Definition rejects : VerifyParams -> Result Exn bool := fun _ => Ok false.
Definition accepts : VerifyParams -> Result Exn bool := fun _ => Ok true.
Definition crashes : VerifyParams -> Result Exn bool :=
  fun _ => Threw (JsError "bad signature header").

End TriggerFixtures.

Module ServiceFixtures.
Import Js FlowRunService.

(** A serializer that spends four bytes per recorded step, under a limit of
    eight bytes; reading a log back gives no steps. *)
Definition imports : Imports :=
  {| apId := fun n => "id-" ++ pretty n;
     getServerId := "worker-1";
     MAX_LOG_SIZE := 8;
     serialize := fun state => replicate (4 * size (steps state)) Byte.x7b;
     parse := fun _ => Some {| executionState := {| steps := ∅ |} |};
     getJobPriority := fun _ handler =>
       match handler with
       | Some _ => "high"
       | None => "medium"
       end |}.

(** A production run parked on a webhook callback with request id [abc],
    paused by worker [worker-7], with a log already stored. *)
Definition paused_run (pause : PauseMetadata) : FlowRun :=
  {| id := "run-1"; projectId := "project-1"; flowId := "flow-1";
     flowVersionId := "version-1"; environment := PRODUCTION;
     flowDisplayName := "Orders"; startTime := "2024-05-01T10:00:00.000Z";
     finishTime := None; status := Some PAUSED; tasks := Some 3%Z; duration := None;
     logsFileId := Some "file-1"; tags := []; pauseMetadata := Some pause;
     terminationReason := None |}.

Definition awaiting_webhook : PauseMetadata := WebhookPauseMetadata "abc" (Some "worker-7").
Definition awaiting_timer : PauseMetadata := DelayPauseMetadata "2024-05-01T11:00:00.000Z".

Definition version : FlowVersion :=
  {| fv_id := "version-1"; fv_flowId := "flow-1"; displayName := "Orders";
     trigger_name := "trigger"; currentSelectedData := JsObject [] |}.

Definition world_with (r : FlowRun) : World :=
  {| flowRuns := {[ "run-1" := r ]};
     files :=
       {[ "file-1" :=
            {| fileId := "file-1"; file_projectId := "project-1"; data := [];
               file_type := FLOW_RUN_LOG; compression := GZIP |} ]};
     flowVersions := {[ "version-1" := version ]};
     lockedVersions := {[ "flow-1" := version ]};
     flows := {[ "flow-1" := {| flow_id := "flow-1"; flow_projectId := "project-1" |} ]};
     queue := [];
     pauseEffects := [];
     finishEffects := [];
     handledExceptions := [];
     telemetry := [];
     generatedIds := 0;
     now := "2024-05-01T10:30:00.000Z";
     journal := [] |}.

Definition world : World := world_with (paused_run awaiting_webhook).

Definition one_step : ExecutionState :=
  {| steps := {[ "trigger" := JsObject [("output", JsString "order")] ]} |}.

Definition three_steps : ExecutionState :=
  {| steps := {[ "trigger" := JsNull; "step_1" := JsNull; "step_2" := JsNull ]} |}.

End ServiceFixtures.
(** ** The file-system piece metadata service *)

Module FilePieceMetadataService.
Import Js.

(** Modelled from the spec: the edition, package-type and piece-type
    enumerations are declared in the shared package, which is missing. *)
Inductive ApEdition := COMMUNITY | ENTERPRISE | CLOUD.
Inductive PackageType := ARCHIVE | REGISTRY.
Inductive PieceType := CUSTOM | OFFICIAL.

Global Instance ApEdition_eq_dec : EqDecision ApEdition.
Proof. solve_decision. Defined.

Record PieceMetadata := {
  name : string;
  displayName : string;
  description : string;
  logoUrl : string;
  version : string;
  auth : JsValue;
  minimumSupportedRelease : option string;
  maximumSupportedRelease : option string;
  actions : JsValue;
  authors : list string;
  categories : list string;
  triggers : JsValue;
  directoryPath : option string;
}.

(** What [toPieceMetadataModel] builds: the metadata columns and four
    more. *)
Record PieceMetadataModel := {
  columns : PieceMetadata;
  projectUsage : Z;
  projectId : option string;
  packageType : PackageType;
  pieceType : PieceType;
}.

(** A piece as extracted from its module. *)
Record Piece := {
  metadata : PieceMetadata;
  piece_authors : list string;
}.

(** What escapes the service, and what its loaders catch. *)
Inductive Failure :=
| Thrown (e : Exn)
| PIECE_NOT_FOUND (pieceName : string) (pieceVersion : option string) (message : string).

(** What the module imports: the folder scan, the two fresh imports of a
    piece folder, the edition, the two folders resolved from the working
    directory, [Array.prototype.sort] under the comparison of upper-cased
    display names, and the test of the exact-version pattern. *)
Record Imports := {
  findAllPiecesFolder : string -> Result Exn (list string);
  importPackageJson : string -> Result Exn (string * string);
  extractPieceFromModule : string -> string -> string -> Result Exn Piece;
  getEdition : ApEdition;
  piecesFolder : string;
  enterprisePiecesFolder : string;
  sortByDisplayName : list PieceMetadata -> list PieceMetadata;
  isExactVersion : string -> bool;
}.

(** The state is the list of exceptions handed to the exception handler,
    oldest first. *)
Definition L : Type -> Type := Async (list Exn) Failure.

Definition handle (ex : Exn) : L unit := modify (fun handled : list Exn => (handled ++ [ex])%list).

Definition attempt {A} (r : Result Exn A) : L A :=
  match r with
  | Ok a => ret a
  | Threw e => throw (Thrown e)
  end.

Fixpoint all {A B} (f : A -> L B) (l : list A) : L (list B) :=
  match l with
  | [] => ret []
  | a :: rest =>
      await b <- f a;
      await bs <- all f rest;
      ret (b :: bs)
  end.

Section Service.
Variable im : Imports.

(** [loadPieceFromFolder] *)
Definition loadPieceFromFolder (folderPath : string) : L (option PieceMetadata) :=
  try_catch
    (await packageJson <- attempt (importPackageJson im folderPath);
     let pieceName := fst packageJson in
     let pieceVersion := snd packageJson in
     await piece <- attempt (extractPieceFromModule im folderPath pieceName pieceVersion);
     let m := metadata piece in
     ret (Some {| name := pieceName; displayName := displayName m;
                  description := description m; logoUrl := logoUrl m;
                  version := pieceVersion; auth := auth m;
                  minimumSupportedRelease := minimumSupportedRelease m;
                  maximumSupportedRelease := maximumSupportedRelease m;
                  actions := actions m; authors := piece_authors piece;
                  categories := categories m; triggers := triggers m;
                  directoryPath := Some folderPath |}))
    (fun ex =>
       match ex with
       | Thrown e => exec handle e; ret None
       | _ => ret None
       end).

(** [loadPiecesFromFolder] *)
Definition loadPiecesFromFolder (folderPath : string) : L (list PieceMetadata) :=
  try_catch
    (await paths <- attempt (findAllPiecesFolder im folderPath);
     await pieces <- all loadPieceFromFolder paths;
     ret (omap (fun p => p) pieces))
    (fun _ => ret []).

(** [findAllPieces] *)
Definition findAllPieces : L (list PieceMetadata) :=
  await pieces <- loadPiecesFromFolder (piecesFolder im);
  await enterprisePieces <-
    (if decide (getEdition im = ENTERPRISE)
     then loadPiecesFromFolder (enterprisePiecesFolder im)
     else ret []);
  ret (pieces ++ enterprisePieces)%list.

(** [loadPiecesMetadata] *)
Definition loadPiecesMetadata : L (list PieceMetadata) :=
  await pieces <- findAllPieces;
  ret (sortByDisplayName im pieces).

(** [toPieceMetadataModel] *)
Definition toPieceMetadataModel (pieceMetadata : PieceMetadata) (project : option string)
    : PieceMetadataModel :=
  {| columns :=
       {| name := name pieceMetadata; displayName := displayName pieceMetadata;
          description := description pieceMetadata; logoUrl := logoUrl pieceMetadata;
          version := version pieceMetadata; auth := auth pieceMetadata;
          minimumSupportedRelease := minimumSupportedRelease pieceMetadata;
          maximumSupportedRelease := maximumSupportedRelease pieceMetadata;
          actions := actions pieceMetadata; authors := authors pieceMetadata;
          categories := categories pieceMetadata; triggers := triggers pieceMetadata;
          directoryPath := directoryPath pieceMetadata |};
     projectUsage := 0;
     projectId := project;
     packageType := REGISTRY;
     pieceType := OFFICIAL |}.

(** [piecesMetadata.find((p) => p.name === name)] *)
Definition findByName (pieceName : string) (pieces : list PieceMetadata)
    : option PieceMetadata :=
  List.find (fun p => String.eqb (name p) pieceName) pieces.

(** [get] *)
Definition get (pieceName : string) (project : option string)
    : L (option PieceMetadataModel) :=
  await piecesMetadata <- loadPiecesMetadata;
  match findByName pieceName piecesMetadata with
  | None => ret None
  | Some pieceMetadata => ret (Some (toPieceMetadataModel pieceMetadata project))
  end.

(** [getOrThrow] *)
Definition getOrThrow (pieceName : string) (pieceVersion : option string)
    (project : option string) : L PieceMetadataModel :=
  await pieceMetadata <- get pieceName project;
  match pieceMetadata with
  | None =>
      throw (PIECE_NOT_FOUND pieceName pieceVersion "Pieces is not found in file system")
  | Some model => ret (toPieceMetadataModel (columns model) project)
  end.

(** [getVersions]: the keys of the answer. *)
Definition getVersions (pieceName : string) : L (list string) :=
  await piecesMetadata <- loadPiecesMetadata;
  match findByName pieceName piecesMetadata with
  | Some pieceMetadata =>
      if truthy (Some (version pieceMetadata)) then ret [version pieceMetadata]
      else ret []
  | None => ret []
  end.

(** [getExactPieceVersion] *)
Definition getExactPieceVersion (project : option string) (pieceName pieceVersion : string)
    : L string :=
  if isExactVersion im pieceVersion then ret pieceVersion
  else
    await pieceMetadata <- getOrThrow pieceName (Some pieceVersion) project;
    ret (version (columns pieceMetadata)).

(** [updateUsage], [delete] and [create] *)
Definition updateUsage : L unit :=
  throw (Thrown (JsError "Updating pieces is not supported in development mode")).
Definition delete : L unit :=
  throw (Thrown (JsError "Deleting pieces is not supported in development mode")).
Definition create : L PieceMetadataModel :=
  throw (Thrown (JsError "Creating pieces is not supported in development mode")).

(** The folders of a scan that load, with what they load. *)
Definition loads (folderPath : string) : option PieceMetadata :=
  match importPackageJson im folderPath with
  | Ok packageJson =>
      match extractPieceFromModule im folderPath (fst packageJson) (snd packageJson) with
      | Ok piece =>
          let m := metadata piece in
          Some {| name := fst packageJson; displayName := displayName m;
                  description := description m; logoUrl := logoUrl m;
                  version := snd packageJson; auth := auth m;
                  minimumSupportedRelease := minimumSupportedRelease m;
                  maximumSupportedRelease := maximumSupportedRelease m;
                  actions := actions m; authors := piece_authors piece;
                  categories := categories m; triggers := triggers m;
                  directoryPath := Some folderPath |}
      | Threw _ => None
      end
  | Threw _ => None
  end.

(** The exception a folder that does not load throws. *)
Definition fails (folderPath : string) : option Exn :=
  match importPackageJson im folderPath with
  | Ok packageJson =>
      match extractPieceFromModule im folderPath (fst packageJson) (snd packageJson) with
      | Ok _ => None
      | Threw e => Some e
      end
  | Threw e => Some e
  end.

End Service.

End FilePieceMetadataService.

(** ** The SMTP email sender *)

Module SmtpEmailSender.
Import Js.

Inductive AppSystemProp :=
  SMTP_HOST | SMTP_PORT | SMTP_USERNAME | SMTP_PASSWORD | SMTP_USE_SSL
| SMTP_SENDER_NAME | SMTP_SENDER_EMAIL.

(** The columns of a platform the sender reads. *)
Record Platform := {
  name : string;
  primaryColor : string;
  fullLogoUrl : string;
  smtpHost : option string;
  smtpPort : option Z;
  smtpUser : option string;
  smtpPassword : option string;
  smtpUseSSL : option bool;
  smtpSenderEmail : option string;
}.

Inductive TemplateName :=
  invitation_email | quota_50 | quota_90 | quota_100 | verify_email
| reset_password | issue_created | issues_reminder | trigger_failure.

Global Instance TemplateName_eq_dec : EqDecision TemplateName.
Proof. solve_decision. Defined.

(** The name as it is spelled in the source. *)
Definition spelled (t : TemplateName) : string :=
  match t with
  | invitation_email => "invitation-email"
  | quota_50 => "quota-50"
  | quota_90 => "quota-90"
  | quota_100 => "quota-100"
  | verify_email => "verify-email"
  | reset_password => "reset-password"
  | issue_created => "issue-created"
  | issues_reminder => "issues-reminder"
  | trigger_failure => "trigger-failure"
  end.

Record EmailTemplateData := {
  template : TemplateName;
  vars : gmap string string;
}.

(** The view handed to the template engine; [renderIssues] is what the
    function of that name returns when the engine calls it. *)
Record View := {
  view_vars : gmap string string;
  view_primaryColor : string;
  view_fullLogoUrl : string;
  view_platformName : string;
  checkIssuesEnabled : bool;
  renderIssues : option (Result Exn JsValue);
}.

Record Transport := {
  host : string;
  port : option Z;
  secure : option bool;
  user : string;
  pass : string;
}.

Record Mail := {
  from : string;
  to : string;
  subject : string;
  html : string;
}.

(** What was sent, through which transport, and what the logger was told
    at error level; oldest first. *)
Record World := {
  outbox : list (Transport * Mail);
  errors : list string;
}.

(** What the module imports: the system properties ([get], [getOrThrow],
    [getBoolean]), the platform table, the template files, the template
    engine, [Number.parseInt], [JSON.parse] and the default theme. *)
Record Imports := {
  get : AppSystemProp -> option string;
  getOrThrow : AppSystemProp -> Result Exn string;
  getBoolean : AppSystemProp -> option bool;
  getOne : string -> option Platform;
  readFile : string -> Result Exn string;
  render : string -> View -> Result Exn string;
  parseInt : string -> option Z;
  parse : option string -> Result Exn JsValue;
  default_primary : string;
  default_fullLogoUrl : string;
  websiteName : string;
}.

Definition S : Type -> Type := Async World Exn.

(** [`${v}`] of a string that may be [undefined]. *)
Definition interpolate (v : option string) : string := default "undefined" v.

(** [x ?? y] *)
Definition nullish {A} (x y : option A) : option A :=
  match x with
  | Some v => Some v
  | None => y
  end.

Definition isNil {A} (v : option A) : bool :=
  match v with
  | None => true
  | Some _ => false
  end.

Section Sender.
Variable im : Imports.

(** [isSmtpConfigured] *)
Definition isConfigured (h p u pw : option string) : bool :=
  negb (isNil h) && negb (isNil p) && negb (isNil u) && negb (isNil pw).

Definition isSmtpConfigured (platform : option Platform) : bool :=
  let isPlatformSmtpConfigured :=
    match platform with
    | Some p =>
        isConfigured (smtpHost p) (option_map pretty (smtpPort p)) (smtpUser p)
          (smtpPassword p)
    | None => false
    end in
  let isSmtpSystemConfigured :=
    isConfigured (get im SMTP_HOST) (get im SMTP_PORT) (get im SMTP_USERNAME)
      (get im SMTP_PASSWORD) in
  isPlatformSmtpConfigured || isSmtpSystemConfigured.

(** [getPlatform] *)
Definition getPlatform (platformId : option string) : option Platform :=
  if truthy platformId then getOne im (default "" platformId) else None.

(** [getEmailSubject] *)
Definition getEmailSubject (templateName : TemplateName) (v : gmap string string) : string :=
  match templateName with
  | invitation_email => "You have been invited to a team"
  | quota_50 => "[ACTION REQUIRED] 50% of your Activepieces tasks are consumed"
  | quota_90 => "[URGENT] 90% of your Activepieces tasks are consumed"
  | quota_100 => "[URGENT] 100% of your Activepieces tasks are consumed"
  | verify_email => "Verify your email address"
  | reset_password => "Reset your password"
  | issue_created => "[ACTION REQUIRED] New issue in " ++ interpolate (v !! "flowName")
  | issues_reminder =>
      "You have unresolved issues for " ++ interpolate (v !! "projectName")
  | trigger_failure =>
      "[ACTION REQUIRED] " ++ interpolate (v !! "flowName") ++ " trigger is failing"
  end.

(** The view [renderEmailBody] hands to the template engine. *)
Definition view_of (platform : option Platform) (templateData : EmailTemplateData) : View :=
  {| view_vars := vars templateData;
     view_primaryColor :=
       match platform with Some p => primaryColor p | None => default_primary im end;
     view_fullLogoUrl :=
       match platform with Some p => fullLogoUrl p | None => default_fullLogoUrl im end;
     view_platformName :=
       match platform with Some p => name p | None => websiteName im end;
     checkIssuesEnabled :=
       bool_decide (template templateData = issue_created)
       && bool_decide (vars templateData !! "isIssue" = Some "true");
     renderIssues :=
       if decide (template templateData = issues_reminder)
       then Some (parse im (vars templateData !! "issues"))
       else None |}.

(** [renderEmailBody] *)
Definition renderEmailBody (platform : option Platform) (templateData : EmailTemplateData)
    : S string :=
  let templatePath :=
    "packages/server/api/src/assets/emails/" ++ spelled (template templateData) ++ ".html" in
  await text <- lift (readFile im templatePath);
  lift (render im text (view_of platform templateData)).

(** [platform?.field ?? system.getOrThrow(prop)] *)
Definition orThrow (x : option string) (prop : AppSystemProp) : Result Exn string :=
  match x with
  | Some v => Ok v
  | None => getOrThrow im prop
  end.

(** [initSmtpClient]: the options given to [createTransport]. *)
Definition initSmtpClient (platform : option Platform) : Result Exn Transport :=
  match orThrow (platform ≫= smtpHost) SMTP_HOST with
  | Threw e => Threw e
  | Ok h =>
      match
        match platform ≫= smtpPort with
        | Some n => Ok (Some n)
        | None =>
            match getOrThrow im SMTP_PORT with
            | Ok s => Ok (parseInt im s)
            | Threw e => Threw e
            end
        end
      with
      | Threw e => Threw e
      | Ok p =>
          let s := nullish (platform ≫= smtpUseSSL) (getBoolean im SMTP_USE_SSL) in
          match orThrow (platform ≫= smtpUser) SMTP_USERNAME with
          | Threw e => Threw e
          | Ok u =>
              match orThrow (platform ≫= smtpPassword) SMTP_PASSWORD with
              | Threw e => Threw e
              | Ok pw =>
                  Ok {| host := h; port := p; secure := s; user := u; pass := pw |}
              end
          end
      end
  end.

(** [smtpClient.sendMail] *)
Definition sendMail (t : Transport) (m : Mail) : S unit :=
  modify (fun w => {| outbox := (outbox w ++ [(t, m)])%list; errors := errors w |}).

(** [logger.error] *)
Definition logError (message : string) : S unit :=
  modify (fun w => {| outbox := outbox w; errors := (errors w ++ [message])%list |}).

(** [emails.join(',')] *)
Definition join (emails : list string) : string := String.concat "," emails.

(** [smtpEmailSender.send] *)
Definition send (emails : list string) (platformId : option string)
    (templateData : EmailTemplateData) : S unit :=
  let platform := getPlatform platformId in
  let emailSubject := getEmailSubject (template templateData) (vars templateData) in
  let senderName :=
    match platform with
    | Some p => Some (name p)
    | None => get im SMTP_SENDER_NAME
    end in
  let senderEmail := nullish (platform ≫= smtpSenderEmail) (get im SMTP_SENDER_EMAIL) in
  if negb (isSmtpConfigured platform) then
    logError ("SMTP isn't configured for sending the email " ++ emailSubject)
  else
    await emailBody <- renderEmailBody platform templateData;
    await smtpClient <- lift (initSmtpClient platform);
    sendMail smtpClient
      {| from := interpolate senderName ++ " <" ++ interpolate senderEmail ++ ">";
         to := join emails;
         subject := emailSubject;
         html := emailBody |}.

End Sender.

End SmtpEmailSender.

(** ** The SQLite data source *)

Module SqliteConnection.
Import Js.

Inductive ApEnvironment := PRODUCTION | DEVELOPMENT | TESTING.
Inductive ApEdition := COMMUNITY | ENTERPRISE | CLOUD.

Global Instance ApEnvironment_eq_dec : EqDecision ApEnvironment.
Proof. solve_decision. Defined.
Global Instance ApEdition_eq_dec : EqDecision ApEdition.
Proof. solve_decision. Defined.

Inductive TransactionMode := all | none | each.

Record MigrationConfig := {
  migrationsRun : option bool;
  migrationsTransactionMode : option TransactionMode;
  migrations : option (list string);
}.

(** The options given to [new DataSource]; [common] stands for the spread
    of [commonProperties]. *)
Record DataSourceOptions (C : Type) := {
  ds_type : string;
  database : string;
  config : MigrationConfig;
  common : C;
}.
Arguments ds_type {C} _.
Arguments database {C} _.
Arguments config {C} _.
Arguments common {C} _.

(** What the module imports: the system properties, the edition with its
    spelling, path resolution and the common data source properties. *)
Record Imports (C : Type) := {
  environment : Result Exn ApEnvironment;
  configPath : Result Exn string;
  getEdition : ApEdition;
  editionName : ApEdition -> string;
  resolveJoin : string -> string -> string;
  commonProperties : C;
}.
Arguments environment {C} _.
Arguments configPath {C} _.
Arguments getEdition {C} _.
Arguments editionName {C} _.
Arguments resolveJoin {C} _ _ _.
Arguments commonProperties {C} _.

(** The state is the list of directories [mkdirSync] was asked to make. *)
Definition D : Type -> Type := Async (list string) Exn.

Definition mkdirSync (path : string) : D unit :=
  modify (fun made : list string => (made ++ [path])%list).

(** The migrations of the community edition, by class name. *)
Definition communityMigrations : list string := [
  "InitialSql3Migration1690195839899";
  "AddAppConnectionTypeToTopLevel1691706020626";
  "AddTagsToRunSqlite1692056190942";
  "AddStepFileSqlite1692958076906";
  "AddStatusToConnectionsSqlite1693402376520";
  "AddImageUrlAndTitleToUser1693774053027";
  "AddChatBotSqlite1696029443045";
  "FileTypeCompression1694695212159";
  "AddPieceTypeAndPackageTypeToPieceMetadata1696016228398";
  "AddPieceTypeAndPackageTypeToFlowVersion1696245170061";
  "AddArchiveIdToPieceMetadata1696956123632";
  "StoreCodeInsideFlow1697969398200";
  "AddPlatformToProject1698078715730";
  "AddTerminationReasonSqlite1698323327318";
  "AddExternalIdSqlite1698857968495";
  "UpdateUserStatusRenameShadowToInvited1699818680567";
  "AddPlatformIdToUserSqlite1700147448410";
  "AddPlatformIdToPieceMetadataSqlite1700524446967";
  "AddPartialUniqueIndexForEmailAndPlatformIdIsNull1701096458822";
  "AddPlatformIdToFileSqlite1701808264444";
  "RemoveFlowInstanceSqlite1702412280963";
  "UpdateStatusInUserSqlite1703713027818";
  "RenameAppNameToPieceNameSqlite1703713475755";
  "AddVerifiedAndChangeStatusSqlite1703768553820";
  "AddTriggerTestStrategy1707087022764";
  "AddCategoriesToPieceMetadata1707229986819";
  "AddUniqueStoreConstraint1708527446535";
  "CreateDefaultPlaformSqlite1709051625110";
  "MigrateWebhook1709581196563";
  "AddPlatformForeignKeyToProjectSqlite1709566629593";
  "AddAuthorsToPieces1710098009544";
  "AddDeletedToProjectSqlite1710248182409";
  "AddMissingInputUiInfoSqlite1711412511624";
  "AddProjectUsageColumnToPieceSqlite1711768479150";
  "AddTagsToPiecesSqlite1712180673961";
  "RemoveUniqueEmailOnUser1713222892743";
  "AddPlatformRole1713271221154";
  "AddUniqueNameToFolderSqlite1713645171373";
  "AddFeatureFlagsToPlatform1714137103728";
  "AddIssueEntitySqlite1714900626443";
  "RemoveShowActivityLog1716105958530";
  "AddDurationForRuns1716725027424";
  "AddAlertsEntitySqlite1717239613259";
  "AddUserInvitationSqlite1717943564437";
  "AddPremiumPiecesColumnSqlite1717443603235";
  "AddWorkerMachineSqlite1720100928449";
  "ChangeEventRoutingConstraint1723549873495"
].

Section Connection.
Context {C : Type}.
Variable im : Imports C.

(** [getSqliteDatabaseFilePath] *)
Definition getSqliteDatabaseFilePath : D string :=
  await apConfigDirectoryPath <- lift (configPath im);
  exec mkdirSync apConfigDirectoryPath;
  ret (resolveJoin im apConfigDirectoryPath "database.sqlite").

(** [getSqliteDatabaseInMemory] *)
Definition getSqliteDatabaseInMemory : string := ":memory:".

(** [getSqliteDatabase] *)
Definition getSqliteDatabase : D string :=
  await env <- lift (environment im);
  if decide (env = TESTING) then ret getSqliteDatabaseInMemory
  else getSqliteDatabaseFilePath.

(** [getMigrations] *)
Definition getMigrations : D (list string) :=
  let edition := getEdition im in
  if decide (edition <> COMMUNITY) then
    throw (JsError ("Edition " ++ editionName im edition
                    ++ " not supported in sqlite3 mode"))
  else ret communityMigrations.

(** [getMigrationConfig] *)
Definition getMigrationConfig : D MigrationConfig :=
  await env <- lift (environment im);
  if decide (env = TESTING) then
    ret {| migrationsRun := None; migrationsTransactionMode := None; migrations := None |}
  else
    await list <- getMigrations;
    ret {| migrationsRun := Some true; migrationsTransactionMode := Some each;
           migrations := Some list |}.

(** [createSqlLiteDataSource] *)
Definition createSqlLiteDataSource : D (DataSourceOptions C) :=
  await migrationConfig <- getMigrationConfig;
  await file <- getSqliteDatabase;
  ret {| ds_type := "sqlite"; database := file; config := migrationConfig;
         common := commonProperties im |}.

End Connection.

End SqliteConnection.

(** ** The full-screen code editor dialog *)

Module CodeArtifactControlFullscreen.
Import Js.

Inductive SelectedFileInFullscreenCodeEditor := CONTENT | PACKAGE.
Inductive SelectedTabInFullscreenCodeEditor := OUTPUT | CONSOLE.

(** The fields of the component its methods read and write; the package
    control is [codeFilesForm.controls.packageJson]. *)
Record Component := {
  readOnly : bool;
  selectedFile : SelectedFileInFullscreenCodeEditor;
  selectedTab : SelectedTabInFullscreenCodeEditor;
  codeEditorReadOnly : bool;
  packageDotJsonReadOnly : bool;
  packageJson : string;
}.

Record StepRunResponse := {
  output : JsValue;
  standardError : string;
  standardOutput : string;
}.

(** What the methods use of the platform and of the code service:
    [JSON.parse], the conversion of a value inside a template literal, and
    [codeService.beautifyJson]. *)
Record Imports := {
  parse : string -> Result Exn JsValue;
  toString : JsValue -> string;
  beautifyJson : JsValue -> string;
}.

(** Truthiness of a value. *)
Definition truthy_value (v : JsValue) : bool :=
  match v with
  | JsUndefined => false
  | JsNull => false
  | JsBool b => b
  | JsNumber n => negb (n =? 0)%Z
  | JsBigInt n => negb (n =? 0)%Z
  | JsString s => negb (String.eqb s "")
  | _ => true
  end.

(** The own enumerable entries of a value, as a spread copies them. *)
Definition entries (v : JsValue) : list (string * JsValue) :=
  match v with
  | JsObject fields => fields
  | JsArray items => imap (fun i x => (pretty i, x)) items
  | JsString s =>
      imap (fun i c => (pretty i, JsString (String c ""))) (String.list_ascii_of_string s)
  | _ => []
  end.

(** [o[k] = v] on the entries of an object.  An existing key keeps its
    place; a new key that is an array index goes among the indices, in
    ascending order; any other new key goes last. *)
Definition has (k : string) (o : list (string * JsValue)) : bool :=
  existsb (fun entry => String.eqb (fst entry) k) o.

Fixpoint replace (o : list (string * JsValue)) (kv : string * JsValue)
    : list (string * JsValue) :=
  match o with
  | [] => []
  | (k, v) :: rest =>
      if String.eqb k (fst kv) then (k, snd kv) :: rest
      else (k, v) :: replace rest kv
  end.

Fixpoint place (o : list (string * JsValue)) (n : N) (kv : string * JsValue)
    : list (string * JsValue) :=
  match o with
  | [] => [kv]
  | (k, v) :: rest =>
      match array_index k with
      | Some m => if (m <? n)%N then (k, v) :: place rest n kv else kv :: o
      | None => kv :: o
      end
  end.

Definition assign (o : list (string * JsValue)) (kv : string * JsValue)
    : list (string * JsValue) :=
  if has (fst kv) o then replace o kv
  else
    match array_index (fst kv) with
    | Some n => place o n kv
    | None => (o ++ [kv])%list
    end.

(** [{ ...a, ...b }] *)
Definition spread (a b : list (string * JsValue)) : list (string * JsValue) :=
  fold_left assign (a ++ b) [].

(** The line feed, and the separator of the console view. *)
Definition LF : string := String (ascii_of_nat 10) "".
Definition separator : string := LF ++ "---------error-------" ++ LF.

Section Methods.
Variable im : Imports.

(** [ngOnInit] *)
Definition ngOnInit (c : Component) : Component :=
  if readOnly c then
    {| readOnly := readOnly c; selectedFile := selectedFile c;
       selectedTab := selectedTab c; codeEditorReadOnly := readOnly c;
       packageDotJsonReadOnly := readOnly c; packageJson := packageJson c |}
  else c.

(** [selectFile] *)
Definition selectFile (fileToSelect : SelectedFileInFullscreenCodeEditor) (c : Component)
    : Component :=
  {| readOnly := readOnly c; selectedFile := fileToSelect;
     selectedTab := selectedTab c; codeEditorReadOnly := codeEditorReadOnly c;
     packageDotJsonReadOnly := packageDotJsonReadOnly c; packageJson := packageJson c |}.

(** [selectTab] *)
Definition selectTab (tabToSelect : SelectedTabInFullscreenCodeEditor) (c : Component)
    : Component :=
  {| readOnly := readOnly c; selectedFile := selectedFile c;
     selectedTab := tabToSelect; codeEditorReadOnly := codeEditorReadOnly c;
     packageDotJsonReadOnly := packageDotJsonReadOnly c; packageJson := packageJson c |}.

(** [getPackageDotJsonObject] *)
Definition getPackageDotJsonObject (c : Component) : JsValue :=
  match parse im (packageJson c) with
  | Ok packageDotJson =>
      if negb (truthy_value (property packageDotJson "dependencies"))
      then JsObject [("dependencies", JsObject [])]
      else packageDotJson
  | Threw _ => JsObject [("dependencies", JsObject [])]
  end.

(** [addNewPackage] *)
Definition addNewPackage (pkg : list (string * JsValue)) (c : Component) : Component :=
  let packageDotJson := getPackageDotJsonObject c in
  let dependencies :=
    JsObject (spread (entries (property packageDotJson "dependencies")) pkg) in
  let packageDotJson := JsObject (assign (entries packageDotJson) ("dependencies", dependencies)) in
  {| readOnly := readOnly c; selectedFile := PACKAGE;
     selectedTab := selectedTab c; codeEditorReadOnly := codeEditorReadOnly c;
     packageDotJsonReadOnly := packageDotJsonReadOnly c;
     packageJson := beautifyJson im packageDotJson |}.

(** [tryParsingError] *)
Definition tryParsingError (errorText : string) : string :=
  match parse im errorText with
  | Ok errorObj =>
      match errorObj with
      | JsNull => errorText
      | JsUndefined => errorText
      | _ =>
          toString im (property errorObj "message") ++ LF ++ LF ++ "Stack:" ++ LF ++ " "
          ++ toString im (property errorObj "stack") ++ LF ++ "      "
      end
  | Threw _ => errorText
  end.

(** [getConsoleResult] *)
Definition getConsoleResult (r : StepRunResponse) : string :=
  if negb (String.eqb (standardError r) "") then
    standardOutput r ++ separator ++ tryParsingError (standardError r)
  else standardOutput r.

(** The value of an entry: the first of that key. *)
Definition value_of (k : string) (o : list (string * JsValue)) : option JsValue :=
  snd <$> List.find (fun kv => String.eqb (fst kv) k) o.

(** The value the last entry of that key gives, [d] when there is none. *)
Definition last_of (k : string) (o : list (string * JsValue)) (d : option JsValue)
    : option JsValue :=
  fold_left (fun acc kv => if String.eqb (fst kv) k then Some (snd kv) else acc) o d.

End Methods.

End CodeArtifactControlFullscreen.

(** ** More concrete instances *)

Module DispatcherFixtures.
Import Js TriggerHelper TriggerFixtures.

(** A trigger all of whose routines throw, the enable routine after it
    registered a listener. *)
Definition boom : Exn := JsThrown (JsString "boom").

Definition failing_trigger (strategy : TriggerStrategy) : Trigger :=
  {| type := strategy;
     props := JsObject [];
     onEnable := fun _ => HCreateListeners listener (HThrow boom);
     onDisable := fun _ => HThrow boom;
     onRenew := fun _ => HThrow boom;
     onHandshake := fun _ => HThrow boom;
     test := fun _ => HThrow boom;
     run := fun _ => HThrow boom |}.



(** A trigger that registers two listeners around a schedule. *)
Definition second_listener : Listener :=
  {| events := ["reaction"]; identifierValue := "T02"; identifierKey := "team_id" |}.

Definition listening_trigger (strategy : TriggerStrategy) : Trigger :=
  {| type := strategy;
     props := JsObject [];
     onEnable := fun _ =>
       HCreateListeners listener
         (HSetSchedule hourly (HCreateListeners second_listener (HReturn tt)) HThrow);
     onDisable := fun _ => HReturn tt;
     onRenew := fun _ => HReturn tt;
     onHandshake := fun _ => HReturn (JsString "ok");
     test := fun _ => HReturn (JsArray []);
     run := fun _ => HReturn (JsArray []) |}.

(** Imports whose validators reject the input. *)
Definition input_errors : list (string * JsValue) :=
  [("channel", JsArray [JsString "Expected string, received number"])].

(** Their JSON text. *)
Definition input_errors_text : string :=
  "{" ++ DQUOTE ++ "channel" ++ DQUOTE ++ ":[" ++ DQUOTE
  ++ "Expected string, received number" ++ DQUOTE ++ "]}".

Definition rejecting_imports (p : Piece) : Imports :=
  {| isValidCron := Cron.isValidCron;
     loadPieceOrThrow := fun _ _ _ => Ok p;
     resolve := fun unresolved => unresolved;
     applyProcessorsAndValidators := fun resolved _ _ => (resolved, input_errors) |}.

(** An operation on a given piece and trigger name, with given app webhook
    url and secret. *)
Definition operation_on (hook : TriggerHookType) (piece : string) (trigger : option string)
    (url secret : option string) : ExecuteTriggerOperation :=
  {| hookType := hook;
     flowVersion :=
       {| fv_id := "version-1"; fv_flowId := "flow-1";
          fv_trigger_settings :=
            {| pieceName := piece; pieceVersion := "0.1.0";
               triggerName := trigger; input := JsObject [] |} |};
     projectId := "project-1";
     engineToken := "token";
     op_test := false;
     op_webhookUrl := Some "https://host/webhooks/flow-1";
     appWebhookUrl := url;
     webhookSecret := secret;
     triggerPayload := Some (JsObject [("body", JsString "ping")]) |}.

End DispatcherFixtures.

Module LifecycleFixtures.
Import Js FlowRunService ServiceFixtures.

(** A production run that failed without ever pausing, with no log yet. *)
Definition failed_run : FlowRun :=
  {| id := "run-1"; projectId := "project-1"; flowId := "flow-1";
     flowVersionId := "version-0"; environment := PRODUCTION;
     flowDisplayName := "Orders"; startTime := "2024-05-01T10:00:00.000Z";
     finishTime := Some "2024-05-01T10:00:05.000Z"; status := Some FAILED;
     tasks := Some 2%Z; duration := Some 5000%Z; logsFileId := None; tags := [];
     pauseMetadata := None; terminationReason := None |}.

(** The sample world with an older version of the flow as well. *)
Definition old_version : FlowVersion :=
  {| fv_id := "version-0"; fv_flowId := "flow-1"; displayName := "Orders (old)";
     trigger_name := "trigger"; currentSelectedData := JsObject [] |}.

Definition failed_world : World :=
  {| flowRuns := {[ "run-1" := failed_run ]};
     files := ∅;
     flowVersions := {[ "version-0" := old_version; "version-1" := version ]};
     lockedVersions := {[ "flow-1" := version ]};
     flows := {[ "flow-1" := {| flow_id := "flow-1"; flow_projectId := "project-1" |} ]};
     queue := [];
     pauseEffects := [];
     finishEffects := [];
     handledExceptions := [];
     telemetry := [];
     generatedIds := 0;
     now := "2024-05-01T10:30:00.000Z";
     journal := [] |}.

(** A start request on the sample flow version. *)
Definition request (project version : string) (run : option string) : StartParams :=
  {| sp_projectId := project; sp_flowVersionId := version; sp_flowRunId := run;
     sp_environment := PRODUCTION; sp_payload := Some (JsObject []);
     sp_synchronousHandlerId := Some "worker-1"; sp_httpRequestId := None;
     sp_progressUpdateType := NONE; sp_executionType := BEGIN |}.

(** A run of the sample flow that belongs to another project. *)
Definition foreign_run : FlowRun :=
  {| id := "run-1"; projectId := "project-2"; flowId := "flow-1";
     flowVersionId := "version-1"; environment := PRODUCTION;
     flowDisplayName := "Orders"; startTime := "2024-05-01T10:00:00.000Z";
     finishTime := None; status := Some FAILED; tasks := None; duration := None;
     logsFileId := None; tags := []; pauseMetadata := None;
     terminationReason := None |}.

(** The log as JSON text, written with [JSON.stringify] and read back with
    the JSON reader, under a limit of 4096 bytes. *)
Definition log_text (state : ExecutionState) : option string :=
  match
    JSON_stringify
      (JsObject
         [("executionState", JsObject [("steps", JsObject (map_to_list (steps state)))])])
  with
  | Ok text => text
  | Threw _ => None
  end.

Definition serialize_json (state : ExecutionState) : list Byte.byte :=
  String.list_byte_of_string (default "" (log_text state)).

Definition parse_json (bytes : list Byte.byte) : option ExecutioOutputFile :=
  match Json.parse (String.string_of_list_byte bytes) with
  | Some file =>
      match property (property file "executionState") "steps" with
      | JsObject fields =>
          Some {| executionState := {| steps := list_to_map (reverse fields) |} |}
      | _ => None
      end
  | None => None
  end.

Definition json_imports : Imports :=
  {| apId := fun n => "id-" ++ pretty n;
     getServerId := "worker-1";
     MAX_LOG_SIZE := 4096;
     serialize := serialize_json;
     parse := parse_json;
     getJobPriority := fun _ _ => "medium" |}.

(** The trace of a run of two steps. *)
Definition two_steps : ExecutionState :=
  {| steps :=
       {[ "trigger" :=
            JsObject [("output", JsObject [("order", JsNumber 42); ("paid", JsBool true)])];
          "send_mail" :=
            JsObject [("output", JsArray [JsString "sent"; JsNull]);
                      ("duration", JsNumber 12)] ]} |}.

End LifecycleFixtures.

Module PieceFixtures.
Import Js FilePieceMetadataService.

(** ASCII upper-casing, and display order by code points of the upper-cased
    display names: an instance of the sort, not the locale's. *)
Definition upper_char (c : ascii) : ascii :=
  let n := nat_of_ascii c in
  if (97 <=? n)%nat && (n <=? 122)%nat then ascii_of_nat (n - 32) else c.

Fixpoint upper (s : string) : string :=
  match s with
  | EmptyString => EmptyString
  | String c rest => String (upper_char c) (upper rest)
  end.

Definition before (a b : PieceMetadata) : Prop :=
  String.leb (upper (displayName a)) (upper (displayName b)) = true.

Global Instance before_dec a b : Decision (before a b).
Proof. unfold before. apply _. Defined.

(** [major.minor.patch], digits only. *)
Definition exact (v : string) : bool :=
  match Cron.split_on "."%char v with
  | [major; minor; patch] =>
      forallb (fun part => negb (String.eqb part "") && Cron.all_chars Cron.is_digit part)
        [major; minor; patch]
  | _ => false
  end.

Definition described (display : string) : PieceMetadata :=
  {| name := "as-described"; displayName := display; description := "";
     logoUrl := "https://cdn/logo.png"; version := "0.0.0"; auth := JsUndefined;
     minimumSupportedRelease := None; maximumSupportedRelease := None;
     actions := JsObject []; authors := []; categories := [];
     triggers := JsObject []; directoryPath := None |}.

(** Three folders under the pieces folder; the second has no usable
    module. *)
Definition imports : Imports :=
  {| findAllPiecesFolder := fun folder =>
       if String.eqb folder "dist/packages/pieces"
       then Ok ["pieces/slack"; "pieces/broken"; "pieces/gmail"]
       else Threw (JsError "ENOENT");
     importPackageJson := fun folder =>
       if String.eqb folder "pieces/slack" then Ok ("@activepieces/piece-slack", "0.5.1")
       else if String.eqb folder "pieces/gmail" then Ok ("@activepieces/piece-gmail", "0.7.0")
       else if String.eqb folder "pieces/broken" then Ok ("@activepieces/piece-broken", "0.0.1")
       else Threw (JsError "Cannot find module");
     extractPieceFromModule := fun folder _ _ =>
       if String.eqb folder "pieces/slack"
       then Ok {| metadata := described "Slack"; piece_authors := ["abuaboud"] |}
       else if String.eqb folder "pieces/gmail"
       then Ok {| metadata := described "Gmail"; piece_authors := ["kanarelo"] |}
       else Threw (JsError "Failed to extract piece from module");
     getEdition := COMMUNITY;
     piecesFolder := "dist/packages/pieces";
     enterprisePiecesFolder := "dist/packages/ee/pieces";
     sortByDisplayName := merge_sort before;
     isExactVersion := exact |}.

End PieceFixtures.

Module MailFixtures.
Import Js SmtpEmailSender.

Definition acme : Platform :=
  {| name := "Acme"; primaryColor := "#123456"; fullLogoUrl := "https://acme/logo.png";
     smtpHost := Some "smtp.acme.test"; smtpPort := Some 587%Z;
     smtpUser := Some "mailer"; smtpPassword := Some "hunter2";
     smtpUseSSL := None; smtpSenderEmail := Some "noreply@acme.test" |}.

(** A platform without SMTP settings of its own. *)
Definition bare : Platform :=
  {| name := "Bare"; primaryColor := "#000000"; fullLogoUrl := "https://bare/logo.png";
     smtpHost := None; smtpPort := None; smtpUser := None; smtpPassword := None;
     smtpUseSSL := None; smtpSenderEmail := None |}.

(** Imports over a table of system properties. *)
Definition imports_over (system : AppSystemProp -> option string) : Imports :=
  {| get := system;
     getOrThrow := fun prop =>
       match system prop with
       | Some v => Ok v
       | None => Threw (JsError "System property is not defined")
       end;
     getBoolean := fun prop => option_map (fun v => String.eqb v "true") (system prop);
     getOne := fun platformId =>
       if String.eqb platformId "acme" then Some acme
       else if String.eqb platformId "bare" then Some bare
       else None;
     readFile := fun path => Ok path;
     render := fun text view => Ok (text ++ " for " ++ view_platformName view);
     parseInt := fun s => if String.eqb s "25" then Some 25%Z else None;
     parse := fun _ => Threw (JsError "Unexpected token");
     default_primary := "#6e41e2";
     default_fullLogoUrl := "https://cdn/logo.png";
     websiteName := "Activepieces" |}.

Definition unset : AppSystemProp -> option string := fun _ => None.

Definition system_smtp (prop : AppSystemProp) : option string :=
  match prop with
  | SMTP_HOST => Some "smtp.system.test"
  | SMTP_PORT => Some "25"
  | SMTP_USERNAME => Some "system"
  | SMTP_PASSWORD => Some "secret"
  | SMTP_USE_SSL => Some "true"
  | SMTP_SENDER_NAME => Some "Activepieces"
  | SMTP_SENDER_EMAIL => Some "hello@system.test"
  end.

Definition reminder : EmailTemplateData :=
  {| template := issue_created; vars := {[ "flowName" := "Orders" ]} |}.

Definition empty : World := {| outbox := []; errors := [] |}.

End MailFixtures.

Module SqliteFixtures.
Import Js SqliteConnection.

Definition imports_in (env : ApEnvironment) (edition : ApEdition) : Imports unit :=
  {| environment := Ok env;
     configPath := Ok "/root/.activepieces";
     getEdition := edition;
     editionName := fun e =>
       match e with COMMUNITY => "ce" | ENTERPRISE => "ee" | CLOUD => "cloud" end;
     resolveJoin := fun directory file => directory ++ "/" ++ file;
     commonProperties := tt |}.

End SqliteFixtures.

Module DialogFixtures.
Import Js CodeArtifactControlFullscreen.

(** A stand-in for the platform: it parses two texts, one to a package.json
    with a name and one dependency, the other to one without
    dependencies. *)
Definition imports : Imports :=
  {| parse := fun text =>
       if String.eqb text "with-dependencies" then
         Ok (JsObject [("name", JsString "code-step");
                       ("dependencies", JsObject [("lodash", JsString "4.17.21")])])
       else if String.eqb text "without-dependencies" then
         Ok (JsObject [("name", JsString "code-step")])
       else Threw (JsError "Unexpected token");
     toString := fun v => match v with JsString s => s | _ => typeof v end;
     beautifyJson := fun v => typeof v |}.

Definition dialog (text : string) : Component :=
  {| readOnly := false; selectedFile := CONTENT; selectedTab := OUTPUT;
     codeEditorReadOnly := false; packageDotJsonReadOnly := false;
     packageJson := text |}.

End DialogFixtures.

(** ** Properties of the trigger hook engine *)

Module TriggerHelperFacts.
Import Js TriggerHelper TriggerFixtures.

Section Facts.
Variable im : Imports.

(** [await] of a value that is already there. *)
Lemma bind_ret {A B} (a : A) (k : A -> E B) : bind (ret a) k = k a.
Proof. reflexivity. Qed.

Lemma bind_lift_Ok {A B} (a : A) (k : A -> E B) : bind (lift (Ok a)) k = k a.
Proof. reflexivity. Qed.

(** Past the prelude, [executeTrigger] is its [switch]. *)
Lemma executeTrigger_loaded params constants piece trigger context :
  Loaded im params constants piece trigger context ->
  executeTrigger im params constants =
  dispatch im params piece trigger
    (pieceName (fv_trigger_settings (flowVersion params))) context.
Proof.
  intros (name & Hname & Hload & Htrigger & Herrors & ->).
  unfold executeTrigger. rewrite Hname, Hload. cbn.
  rewrite bind_ret, bind_lift_Ok, Htrigger.
  destruct (applyProcessorsAndValidators im _ _ _) as [processed errors].
  simpl in Herrors. subst errors. reflexivity.
Qed.

(** Hook bodies do not touch the record of calls. *)
Lemma runHook_invoked {R} (h : Hook R) st :
  invoked (snd (runHook im h st)) = invoked st.
Proof.
  revert st. induction h as [r|e|l k IH|request k IHk handler IHh]; intros st; simpl.
  - done.
  - done.
  - unfold bind, createListeners. simpl. by rewrite IH.
  - unfold setSchedule. destruct (isValidCron im _); simpl.
    + by rewrite IHk.
    + by rewrite IHh.
Qed.

(** Nor do they read it. *)
Lemma runHook_frame {R} (h : Hook R) st log :
  runHook im h
    {| appListeners := appListeners st; scheduleOptions := scheduleOptions st;
       invoked := log |} =
  (fst (runHook im h st),
   {| appListeners := appListeners (snd (runHook im h st));
      scheduleOptions := scheduleOptions (snd (runHook im h st));
      invoked := log |}).
Proof.
  revert st. induction h as [r|e|l k IH|request k IHk handler IHh]; intros st; simpl.
  - done.
  - done.
  - unfold bind, createListeners. simpl.
    exact (IH {| appListeners := _; scheduleOptions := _; invoked := invoked st |}).
  - unfold setSchedule. destruct (isValidCron im _); simpl.
    + exact (IHk {| appListeners := _; scheduleOptions := _; invoked := invoked st |}).
    + exact (IHh _ st).
Qed.

Lemma accepted_set_schedule {R} request (k : Hook R) handler :
  accepted im (HSetSchedule request k handler) =
  if isValidCron im (req_cronExpression request)
  then request :: accepted im k
  else accepted im
         (handler (JsError ("Invalid cron expression: " ++ req_cronExpression request))).
Proof.
  unfold accepted. simpl. rewrite filter_cons.
  destruct (isValidCron im (req_cronExpression request)) eqn:Hvalid.
  - rewrite decide_True by done. done.
  - rewrite decide_False by done. done.
Qed.

(** The schedule a hook body leaves behind is the one of its last accepted
    [setSchedule] call. *)
Lemma runHook_scheduleOptions {R} (h : Hook R) st :
  scheduleOptions (snd (runHook im h st)) =
  match last (accepted im h) with
  | Some request => Some (recorded request)
  | None => scheduleOptions st
  end.
Proof.
  revert st. induction h as [r|e|l k IH|request k IHk handler IHh]; intros st.
  - done.
  - done.
  - simpl. unfold bind, createListeners. simpl. by rewrite IH.
  - rewrite accepted_set_schedule. simpl. unfold setSchedule.
    destruct (isValidCron im _); simpl.
    + rewrite IHk, last_cons. simpl. by destruct (last (accepted im k)).
    + by rewrite IHh.
Qed.


Lemma accepted_nonempty {R} (h : Hook R) :
  accepted im h <> [] <->
  exists request,
    request ∈ called im h /\ isValidCron im (req_cronExpression request) = true.
Proof.
  unfold accepted. split.
  - intros Hne. destruct (filter _ (called im h)) as [|request rest] eqn:Hf; [done|].
    exists request.
    assert (Hin : request ∈ filter
              (fun request => isValidCron im (req_cronExpression request) = true)
              (called im h)) by (rewrite Hf; left).
    apply list_elem_of_filter in Hin. tauto.
  - intros (request & Hin & Hvalid).
    apply (elem_of_not_nil request), list_elem_of_filter. done.
Qed.

(** C4, as the code has it.  [ON_ENABLE] of a trigger whose enable routine
    returns: the response carries the listeners and, for a [POLLING] trigger
    only, the schedule of the routine's last accepted [setSchedule] call.  So
    a schedule is present exactly when the strategy is [POLLING] and the
    routine made a [setSchedule] call that was accepted; a call rejected for
    its cron expression sets nothing, whether or not the routine catches the
    error, and only when no call was rejected is "called" enough.  For
    [WEBHOOK] and [APP_WEBHOOK] the schedule is absent whatever was called. *)
Theorem enable_schedule_polling_only params constants piece trigger context st' :
  Loaded im params constants piece trigger context ->
  hookType params = ON_ENABLE ->
  call im OnEnable (onEnable trigger context) initial = (Ok tt, st') ->
  let asked := called im (onEnable trigger context) in
  exists schedule,
    executeTrigger im params constants initial =
      (Ok (EnableResponse (appListeners st') schedule), st') /\
    schedule =
      (if decide (type trigger = POLLING)
       then recorded <$> last (accepted im (onEnable trigger context))
       else None) /\
    (type trigger = WEBHOOK \/ type trigger = APP_WEBHOOK -> schedule = None) /\
    (is_Some schedule <->
     type trigger = POLLING /\
     exists request,
       request ∈ asked /\ isValidCron im (req_cronExpression request) = true) /\
    (Forall (fun request => isValidCron im (req_cronExpression request) = true) asked ->
     (is_Some schedule <-> type trigger = POLLING /\ asked <> [])).
Proof.
  intros Hloaded Hhook Hcall asked.
  assert (Hschedule :
    scheduleOptions st' = recorded <$> last (accepted im (onEnable trigger context))).
  { unfold call, bind, note in Hcall. simpl in Hcall.
    pose proof (runHook_scheduleOptions (onEnable trigger context)
                  {| appListeners := []; scheduleOptions := None;
                     invoked := [OnEnable] |}) as Hs.
    unfold initial in Hcall. simpl in Hcall. rewrite Hcall in Hs. simpl in Hs.
    rewrite Hs. by destruct (last _). }
  exists (if decide (type trigger = POLLING) then scheduleOptions st' else None).
  split; [|split; [|split; [|split]]].
  - rewrite (executeTrigger_loaded _ _ _ _ _ Hloaded).
    unfold dispatch. rewrite Hhook. unfold bind at 1. rewrite Hcall. reflexivity.
  - by rewrite Hschedule.
  - intros [Ht|Ht]; rewrite Ht; by case_decide.
  - rewrite Hschedule. case_decide as Ht.
    + rewrite fmap_is_Some, last_is_Some, accepted_nonempty. tauto.
    + split; [by intros [? ?]|tauto].
  - intros Hall. rewrite Hschedule. case_decide as Ht.
    + rewrite fmap_is_Some, last_is_Some, accepted_nonempty. split.
      * intros (request & Hin & _). split; [done|]. by apply (elem_of_not_nil request).
      * intros [_ Hne]. fold asked. destruct asked as [|request rest]; [done|].
        exists request. split; [left|]. by inversion Hall.
    + split; [by intros [? ?]|tauto].
Qed.

(** C5. [setSchedule] with a cron expression that does not parse throws and
    leaves the engine state as it was; with one that parses it returns and
    records the schedule, the timezone defaulting to ["UTC"] and the failure
    count to [0]. *)
Theorem setSchedule_validates (request : ScheduleRequest) (st : EngineState) :
  (isValidCron im (req_cronExpression request) = false ->
   setSchedule im request st =
     (Threw (JsError ("Invalid cron expression: " ++ req_cronExpression request)), st)) /\
  (isValidCron im (req_cronExpression request) = true ->
   exists st',
     setSchedule im request st = (Ok tt, st') /\
     appListeners st' = appListeners st /\
     scheduleOptions st' =
       Some {| cronExpression := req_cronExpression request;
               timezone := default "UTC" (req_timezone request);
               failureCount := default 0%Z (req_failureCount request) |} /\
     (req_timezone request = None -> timezone <$> scheduleOptions st' = Some "UTC") /\
     (req_failureCount request = None ->
      failureCount <$> scheduleOptions st' = Some 0%Z)).
Proof.
  unfold setSchedule. split; intros Hvalid; rewrite Hvalid; simpl.
  - reflexivity.
  - eexists. split; [reflexivity|]. simpl.
    repeat split; intros ->; reflexivity.
Qed.

(** C6. [RUN] of an [APP_WEBHOOK] trigger, url and secret supplied, on a
    piece that can verify events: a [false] verdict is answered with
    [{success: false, message: "Webhook is not verified", output: []}], a
    throwing verification with the same shape under its own message; either
    way the call returns, and the run routine has not been called. *)
Theorem run_unverified params constants piece trigger context verify :
  Loaded im params constants piece trigger context ->
  hookType params = RUN ->
  type trigger = APP_WEBHOOK ->
  truthy (appWebhookUrl params) = true ->
  truthy (webhookSecret params) = true ->
  piece_events piece = Some verify ->
  (verify (verifyParams params) = Ok false ->
   exists st',
     executeTrigger im params constants initial =
       (Ok (RunResponse false (Some "Webhook is not verified") []), st') /\
     OnRun ∉ invoked st') /\
  (forall e, verify (verifyParams params) = Threw e ->
   exists st',
     executeTrigger im params constants initial =
       (Ok (RunResponse false (Some "Error while verifying webhook") []), st') /\
     OnRun ∉ invoked st').
Proof.
  intros Hloaded Hhook Htype Hurl Hsecret Hevents.
  rewrite (executeTrigger_loaded _ _ _ _ _ Hloaded).
  unfold dispatch, guard, verifyAppWebhook, verifyEvent.
  rewrite Hhook, Htype, Hurl, Hsecret, Hevents. simpl.
  split.
  - intros Hverdict.
    exists {| appListeners := []; scheduleOptions := None; invoked := [Verify] |}.
    unfold bind, try_catch, lift, note. simpl. rewrite Hverdict. simpl.
    split; [reflexivity|]. by intros ?%list_elem_of_singleton.
  - intros e Hverdict.
    exists {| appListeners := []; scheduleOptions := None; invoked := [Verify] |}.
    unfold bind, try_catch, lift, note. simpl. rewrite Hverdict. simpl.
    split; [reflexivity|]. by intros ?%list_elem_of_singleton.
Qed.

(** C7. [RUN] past the verification guard, with a run routine that returns
    [items]: a value that is not an array makes [executeTrigger] throw an
    error naming its [typeof]; an array, empty or not, comes back as
    [{success: true, output: items}]. *)
Theorem run_output_shape params constants piece trigger context st1 st2 items :
  Loaded im params constants piece trigger context ->
  hookType params = RUN ->
  guard params piece trigger
    (pieceName (fv_trigger_settings (flowVersion params))) initial = (Ok None, st1) ->
  call im OnRun (run trigger (withFiles context "memory")) st1 = (Ok items, st2) ->
  (isArray items = false ->
   executeTrigger im params constants initial =
     (Threw (JsError ("Trigger run should return an array of items, but returned "
                      ++ typeof items)), st2)) /\
  (forall l, items = JsArray l ->
   executeTrigger im params constants initial = (Ok (RunResponse true None l), st2)).
Proof.
  intros Hloaded Hhook Hguard Hrun.
  assert (Hexec :
    executeTrigger im params constants initial =
    (match items with
     | JsArray l => Ok (RunResponse true None l)
     | _ => Threw (JsError ("Trigger run should return an array of items, but returned "
                            ++ typeof items))
     end, st2)).
  { rewrite (executeTrigger_loaded _ _ _ _ _ Hloaded).
    unfold dispatch. rewrite Hhook. unfold bind at 1. rewrite Hguard.
    unfold runTrigger, bind at 1. rewrite Hrun. by destruct items. }
  rewrite Hexec. split.
  - intros Hshape. by destruct items.
  - intros l ->. reflexivity.
Qed.

(** C10. [RUN] of an [APP_WEBHOOK] trigger, url and secret supplied, on a
    piece without [events]: nothing is verified, and [executeTrigger] is the
    call of the run routine with its shape check, run exactly once.  A piece
    whose verification accepts the event gets the same response from the
    same engine state. *)
Theorem run_without_events params constants piece trigger context :
  Loaded im params constants piece trigger context ->
  hookType params = RUN ->
  type trigger = APP_WEBHOOK ->
  truthy (appWebhookUrl params) = true ->
  truthy (webhookSecret params) = true ->
  piece_events piece = None ->
  executeTrigger im params constants initial = runTrigger im trigger context initial /\
  invoked (snd (executeTrigger im params constants initial)) = [OnRun] /\
  (forall verify,
     verify (verifyParams params) = Ok true ->
     let verifying :=
       {| getTrigger := getTrigger piece; piece_auth := piece_auth piece;
          piece_events := Some verify |} in
     let name := pieceName (fv_trigger_settings (flowVersion params)) in
     fst (dispatch im params verifying trigger name context initial) =
       fst (executeTrigger im params constants initial) /\
     appListeners (snd (dispatch im params verifying trigger name context initial)) =
       appListeners (snd (executeTrigger im params constants initial)) /\
     scheduleOptions (snd (dispatch im params verifying trigger name context initial)) =
       scheduleOptions (snd (executeTrigger im params constants initial)) /\
     invoked (snd (dispatch im params verifying trigger name context initial)) =
       [OnRun; Verify]).
Proof.
  intros Hloaded Hhook Htype Hurl Hsecret Hevents.
  assert (Hexec :
    executeTrigger im params constants initial = runTrigger im trigger context initial).
  { rewrite (executeTrigger_loaded _ _ _ _ _ Hloaded).
    unfold dispatch, guard, verifyAppWebhook, verifyEvent.
    rewrite Hhook, Htype, Hurl, Hsecret, Hevents. reflexivity. }
  assert (Hshape : forall st,
    runTrigger im trigger context st =
    (match fst (runHook im (run trigger (withFiles context "memory"))
                  {| appListeners := appListeners st;
                     scheduleOptions := scheduleOptions st;
                     invoked := OnRun :: invoked st |}) with
     | Ok (JsArray l) => Ok (RunResponse true None l)
     | Ok items =>
         Threw (JsError ("Trigger run should return an array of items, but returned "
                         ++ typeof items))
     | Threw e => Threw e
     end,
     snd (runHook im (run trigger (withFiles context "memory"))
            {| appListeners := appListeners st;
               scheduleOptions := scheduleOptions st;
               invoked := OnRun :: invoked st |}))).
  { intros st. unfold runTrigger, call, bind, note. simpl.
    destruct (runHook im _ _) as [[items|e] st2]; [|done]. by destruct items. }
  split; [exact Hexec|]. split.
  - rewrite Hexec, Hshape. simpl. by rewrite runHook_invoked.
  - intros verify Hverdict verifying name. rewrite Hexec.
    assert (Hdispatch :
      dispatch im params verifying trigger name context initial =
      runTrigger im trigger context
        {| appListeners := []; scheduleOptions := None; invoked := [Verify] |}).
    { unfold dispatch, guard, verifyAppWebhook, verifyEvent.
      rewrite Hhook, Htype, Hurl, Hsecret. simpl.
      unfold bind, try_catch, lift, note. simpl. rewrite Hverdict. reflexivity. }
    rewrite Hdispatch, !Hshape. simpl.
    pose proof (runHook_frame (run trigger (withFiles context "memory"))
                  {| appListeners := []; scheduleOptions := None; invoked := [OnRun] |}
                  [OnRun; Verify]) as Hframe.
    simpl in Hframe. rewrite Hframe. simpl. done.
Qed.

End Facts.

(** *** The theorems at work on the sample pieces *)

Lemma sample_loaded hook t verify :
  Loaded (imports_of (piece_of t verify)) (operation hook) constants
    (piece_of t verify) t context.
Proof. exists "new_event". repeat split; reflexivity. Qed.

Lemma enable_schedule_polling_only_witness :
  let t := trigger_of POLLING (JsArray []) in
  let im := imports_of (piece_of t None) in
  hookType (operation ON_ENABLE) = ON_ENABLE /\
  exists st' schedule,
    call im OnEnable (onEnable t context) initial = (Ok tt, st') /\
    executeTrigger im (operation ON_ENABLE) constants initial =
      (Ok (EnableResponse [listener] schedule), st') /\
    schedule = Some (recorded hourly).
Proof.
  intros t im. split; [reflexivity|].
  eexists. 
  destruct (enable_schedule_polling_only im (operation ON_ENABLE) constants
              (piece_of t None) t context _
              (sample_loaded ON_ENABLE t None) eq_refl eq_refl)
    as (schedule & Hexec & Hschedule & _).
  exists schedule. split; [reflexivity|]. split; [exact Hexec|exact Hschedule].
Defined.

(** C4 fails as stated: the enable routine of this polling trigger calls
    [setSchedule] with an expression that does not parse and catches the
    error; the routine called [setSchedule] and returned, and the response
    carries no schedule. *)
Lemma enable_called_without_schedule_counterexample :
  let t := swallowing_trigger in
  let im := imports_of (piece_of t None) in
  type t = POLLING /\
  called im (onEnable t context) = [malformed] /\
  call im OnEnable (onEnable t context) initial =
    (Ok tt, {| appListeners := []; scheduleOptions := None; invoked := [OnEnable] |}) /\
  executeTrigger im (operation ON_ENABLE) constants initial =
    (Ok (EnableResponse [] None),
     {| appListeners := []; scheduleOptions := None; invoked := [OnEnable] |}).
Proof. repeat split; reflexivity. Qed.

Lemma setSchedule_validates_witness :
  let im := imports_of (piece_of (trigger_of POLLING (JsArray [])) None) in
  (isValidCron im (req_cronExpression malformed) = false /\
   setSchedule im malformed initial =
     (Threw (JsError "Invalid cron expression: not-a-cron"), initial)) /\
  (isValidCron im (req_cronExpression hourly) = true /\
   exists st',
     setSchedule im hourly initial = (Ok tt, st') /\
     scheduleOptions st' =
       Some {| cronExpression := "0 * * * *"; timezone := "UTC"; failureCount := 0 |}).
Proof.
  intros im. split.
  - split; [reflexivity|].
    exact (proj1 (setSchedule_validates im malformed initial) eq_refl).
  - split; [reflexivity|].
    destruct (proj2 (setSchedule_validates im hourly initial) eq_refl)
      as (st' & Hset & _ & Hschedule & _).
    exists st'. split; [exact Hset|exact Hschedule].
Defined.

Lemma run_unverified_witness :
  let t := trigger_of APP_WEBHOOK (JsArray [JsString "event"]) in
  (exists st',
     executeTrigger (imports_of (piece_of t (Some rejects))) (operation RUN) constants
       initial =
       (Ok (RunResponse false (Some "Webhook is not verified") []), st') /\
     OnRun ∉ invoked st') /\
  (exists st',
     executeTrigger (imports_of (piece_of t (Some crashes))) (operation RUN) constants
       initial =
       (Ok (RunResponse false (Some "Error while verifying webhook") []), st') /\
     OnRun ∉ invoked st').
Proof.
  intros t. split.
  - exact (proj1 (run_unverified (imports_of (piece_of t (Some rejects)))
                    (operation RUN) constants (piece_of t (Some rejects)) t context
                    rejects (sample_loaded RUN t (Some rejects))
                    eq_refl eq_refl eq_refl eq_refl eq_refl) eq_refl).
  - exact (proj2 (run_unverified (imports_of (piece_of t (Some crashes)))
                    (operation RUN) constants (piece_of t (Some crashes)) t context
                    crashes (sample_loaded RUN t (Some crashes))
                    eq_refl eq_refl eq_refl eq_refl eq_refl)
             (JsError "bad signature header") eq_refl).
Defined.

Lemma run_output_shape_witness :
  (let t := trigger_of WEBHOOK (JsObject [("id", JsNumber 7)]) in
   exists st,
     executeTrigger (imports_of (piece_of t None)) (operation RUN) constants initial =
       (Threw (JsError "Trigger run should return an array of items, but returned object"),
        st)) /\
  (let t := trigger_of WEBHOOK (JsArray []) in
   exists st,
     executeTrigger (imports_of (piece_of t None)) (operation RUN) constants initial =
       (Ok (RunResponse true None []), st)).
Proof.
  split; intros t; eexists.
  - exact (proj1 (run_output_shape (imports_of (piece_of t None)) (operation RUN)
                    constants (piece_of t None) t context _ _ _
                    (sample_loaded RUN t None) eq_refl eq_refl eq_refl) eq_refl).
  - exact (proj2 (run_output_shape (imports_of (piece_of t None)) (operation RUN)
                    constants (piece_of t None) t context _ _ _
                    (sample_loaded RUN t None) eq_refl eq_refl eq_refl) [] eq_refl).
Defined.

Lemma run_without_events_witness :
  let t := trigger_of APP_WEBHOOK (JsArray [JsString "event"]) in
  let im := imports_of (piece_of t None) in
  executeTrigger im (operation RUN) constants initial =
    (Ok (RunResponse true None [JsString "event"]),
     {| appListeners := []; scheduleOptions := None; invoked := [OnRun] |}) /\
  fst (executeTrigger (imports_of (piece_of t (Some accepts))) (operation RUN) constants
         initial) =
    fst (executeTrigger im (operation RUN) constants initial).
Proof.
  intros t im.
  destruct (run_without_events im (operation RUN) constants (piece_of t None) t context
              (sample_loaded RUN t None) eq_refl eq_refl eq_refl eq_refl eq_refl)
    as (Hexec & _ & Hsame).
  split.
  - rewrite Hexec. reflexivity.
  - destruct (Hsame accepts eq_refl) as (Hfst & _). rewrite <- Hfst. reflexivity.
Defined.

(** *** More of the dispatcher *)

Section Dispatcher.
Variable im : Imports.

(** X1. Whatever the hook type, a prelude that fails stops [executeTrigger]
    before any routine of the piece runs: a missing trigger name, a piece
    that does not load, a trigger the piece does not have and an input the
    validators reject each throw, and the engine state is untouched.  The
    error for rejected input carries the JSON text of the validators'
    findings. *)
Theorem prelude_failures params constants st :
  let settings := fv_trigger_settings (flowVersion params) in
  (triggerName settings = None ->
   executeTrigger im params constants st =
     (Threw (JsError "triggerName is required is null or undefined"), st)) /\
  (forall name e,
     triggerName settings = Some name ->
     loadPieceOrThrow im (pieceName settings) (pieceVersion settings)
       (piecesSource constants) = Threw e ->
     executeTrigger im params constants st = (Threw e, st)) /\
  (forall name piece,
     triggerName settings = Some name ->
     loadPieceOrThrow im (pieceName settings) (pieceVersion settings)
       (piecesSource constants) = Ok piece ->
     getTrigger piece name = None ->
     executeTrigger im params constants st =
       (Threw (JsError ("trigger not found, pieceName=" ++ pieceName settings
                        ++ ", triggerName=" ++ name)), st)) /\
  (forall name piece trigger,
     triggerName settings = Some name ->
     loadPieceOrThrow im (pieceName settings) (pieceVersion settings)
       (piecesSource constants) = Ok piece ->
     getTrigger piece name = Some trigger ->
     let errors :=
       snd (applyProcessorsAndValidators im (resolve im (input settings))
              (props trigger) (piece_auth piece)) in
     errors <> [] ->
     exists e,
       executeTrigger im params constants st = (Threw e, st) /\
       forall text, JSON_stringify (JsObject errors) = Ok (Some text) -> e = JsError text).
Proof.
  intros settings. unfold executeTrigger. fold settings.
  split; [|split; [|split]].
  - intros ->. reflexivity.
  - intros name e -> ->. reflexivity.
  - intros name piece -> -> Hnone. cbn. rewrite Hnone. reflexivity.
  - intros name piece trigger -> -> Hsome Herrors.
    unfold assertNotNullOrUndefined, bind, ret, lift, throw. rewrite Hsome.
    destruct (applyProcessorsAndValidators im _ _ _) as [processed errors].
    cbn [snd] in *. destruct errors as [|finding rest]; [done|].
    change (0 <? length (finding :: rest))%nat with true. cbv iota.
    destruct (JSON_stringify (JsObject (finding :: rest))) as [text|e].
    + eexists. split; [reflexivity|]. by intros ? [= ->].
    + eexists. split; [reflexivity|]. done.
Qed.

(** Running a hook body appends the listeners it registers, in call
    order. *)
Lemma runHook_appListeners {R} (h : Hook R) st :
  appListeners (snd (runHook im h st)) = (appListeners st ++ listened im h)%list.
Proof.
  revert st. induction h as [r|e|l k IH|request k IHk handler IHh]; intros st; simpl.
  - by rewrite app_nil_r.
  - by rewrite app_nil_r.
  - unfold bind, createListeners. simpl. rewrite IH. simpl.
    rewrite <- app_assoc. by destruct l.
  - unfold setSchedule. destruct (isValidCron im _); simpl.
    + by rewrite IHk.
    + by rewrite IHh.
Qed.

(** X2. [ON_ENABLE] of a trigger whose enable routine returns: the response
    lists the listeners the routine registered through
    [app.createListeners], one per call and in call order, whatever the
    trigger's strategy. *)
Theorem enable_listeners_in_call_order params constants piece trigger context st'
    listeners schedule :
  Loaded im params constants piece trigger context ->
  hookType params = ON_ENABLE ->
  executeTrigger im params constants initial =
    (Ok (EnableResponse listeners schedule), st') ->
  listeners = listened im (onEnable trigger context) /\
  length listeners = length (listened im (onEnable trigger context)).
Proof.
  intros Hloaded Hhook.
  rewrite (executeTrigger_loaded _ _ _ _ _ _ Hloaded).
  unfold dispatch. rewrite Hhook. unfold bind at 1.
  destruct (call im OnEnable (onEnable trigger context) initial) as [[[]|e] st1] eqn:Hcall;
    [|discriminate].
  intros [= <- _ _].
  unfold call, bind, note in Hcall. simpl in Hcall.
  pose proof (runHook_appListeners (onEnable trigger context)
                {| appListeners := []; scheduleOptions := None;
                   invoked := [OnEnable] |}) as Hls.
  rewrite Hcall in Hls. simpl in Hls. by rewrite Hls.
Qed.


(** X4. The other hooks let a failure of the routine through:
    [ON_ENABLE], [ON_DISABLE], [RENEW] of a [WEBHOOK] trigger and [RUN] past
    the verification guard throw what the routine threw, and return no
    response. *)
Theorem routine_failures_propagate params constants piece trigger context e st' :
  Loaded im params constants piece trigger context ->
  (hookType params = ON_ENABLE ->
   call im OnEnable (onEnable trigger context) initial = (Threw e, st') ->
   executeTrigger im params constants initial = (Threw e, st')) /\
  (hookType params = ON_DISABLE ->
   call im OnDisable (onDisable trigger context) initial = (Threw e, st') ->
   executeTrigger im params constants initial = (Threw e, st')) /\
  (hookType params = RENEW ->
   type trigger = WEBHOOK ->
   call im OnRenew (onRenew trigger context) initial = (Threw e, st') ->
   executeTrigger im params constants initial = (Threw e, st')) /\
  (forall st1,
     hookType params = RUN ->
     guard params piece trigger
       (pieceName (fv_trigger_settings (flowVersion params))) initial = (Ok None, st1) ->
     call im OnRun (run trigger (withFiles context "memory")) st1 = (Threw e, st') ->
     executeTrigger im params constants initial = (Threw e, st')).
Proof.
  intros Hloaded. rewrite (executeTrigger_loaded _ _ _ _ _ _ Hloaded).
  unfold dispatch. split; [|split; [|split]].
  - intros -> Hcall. unfold bind at 1. by rewrite Hcall.
  - intros -> Hcall. unfold bind at 1. by rewrite Hcall.
  - intros -> Htype Hcall. rewrite Htype. unfold bind, assertEqual. simpl.
    unfold bind in Hcall. by rewrite Hcall.
  - intros st1 -> Hguard Hcall. unfold bind at 1. rewrite Hguard.
    unfold runTrigger, bind at 1. by rewrite Hcall.
Qed.

(** X5. [RENEW] is for [WEBHOOK] triggers only: on any other strategy
    [executeTrigger] throws before the renew routine is called; on a
    [WEBHOOK] trigger whose routine returns it answers [success: true]. *)
Theorem renew_only_for_webhook params constants piece trigger context :
  Loaded im params constants piece trigger context ->
  hookType params = RENEW ->
  (type trigger <> WEBHOOK ->
   exists message,
     executeTrigger im params constants initial = (Threw (JsError message), initial)) /\
  (forall st',
     type trigger = WEBHOOK ->
     call im OnRenew (onRenew trigger context) initial = (Ok tt, st') ->
     executeTrigger im params constants initial = (Ok (RenewResponse true), st')).
Proof.
  intros Hloaded Hhook. rewrite (executeTrigger_loaded _ _ _ _ _ _ Hloaded).
  unfold dispatch. rewrite Hhook. split.
  - intros Hother. eexists. unfold bind at 1. unfold assertEqual.
    rewrite decide_False by done. reflexivity.
  - intros st' Htype Hcall. rewrite Htype. unfold bind, assertEqual. simpl.
    unfold bind in Hcall. by rewrite Hcall.
Qed.

(** X6. [RUN] of an [APP_WEBHOOK] trigger needs the app webhook url and the
    webhook secret: without the url (absent or empty) it throws the url
    error, whatever the secret; with the url but without the secret it
    throws the secret error; in both cases before the event is verified and
    before the run routine is called. *)
Theorem app_webhook_needs_url_and_secret params constants piece trigger context :
  Loaded im params constants piece trigger context ->
  hookType params = RUN ->
  type trigger = APP_WEBHOOK ->
  let name := pieceName (fv_trigger_settings (flowVersion params)) in
  (truthy (appWebhookUrl params) = false ->
   executeTrigger im params constants initial =
     (Threw (JsError ("App webhook url is not available for piece name " ++ name)),
      initial)) /\
  (truthy (appWebhookUrl params) = true ->
   truthy (webhookSecret params) = false ->
   executeTrigger im params constants initial =
     (Threw (JsError ("Webhook secret is not available for piece name " ++ name)),
      initial)).
Proof.
  intros Hloaded Hhook Htype name.
  rewrite (executeTrigger_loaded _ _ _ _ _ _ Hloaded).
  unfold dispatch, guard, verifyAppWebhook. rewrite Hhook, Htype. simpl.
  split.
  - intros ->. reflexivity.
  - intros -> ->. reflexivity.
Qed.

(** X7. [RUN] of a trigger that is not [APP_WEBHOOK] goes straight to the
    run routine: the event is not verified even when the piece can verify,
    and neither the app webhook url nor the secret is looked at. *)
Theorem run_skips_verification params constants piece trigger context :
  Loaded im params constants piece trigger context ->
  hookType params = RUN ->
  type trigger <> APP_WEBHOOK ->
  executeTrigger im params constants initial = runTrigger im trigger context initial /\
  invoked (snd (executeTrigger im params constants initial)) = [OnRun].
Proof.
  intros Hloaded Hhook Htype.
  assert (Hexec :
    executeTrigger im params constants initial = runTrigger im trigger context initial).
  { rewrite (executeTrigger_loaded _ _ _ _ _ _ Hloaded).
    unfold dispatch, guard. rewrite Hhook. by rewrite decide_False. }
  split; [exact Hexec|]. rewrite Hexec.
  unfold runTrigger, call, bind, note. simpl.
  pose proof (runHook_invoked im (run trigger (withFiles context "memory"))
                {| appListeners := []; scheduleOptions := None; invoked := [OnRun] |})
    as Hinvoked.
  destruct (runHook im _ _) as [[items|e] st2]; simpl in *; [|done].
  by destruct items.
Qed.

End Dispatcher.

(** *** The dispatcher on the sample pieces *)

Import DispatcherFixtures.

Lemma operation_on_loaded hook url secret t verify :
  Loaded (imports_of (piece_of t verify))
    (operation_on hook "sample-piece" (Some "new_event") url secret) constants
    (piece_of t verify) t context.
Proof. exists "new_event". repeat split; reflexivity. Qed.

Lemma prelude_failures_witness :
  let p := piece_of (trigger_of POLLING (JsArray [])) None in
  executeTrigger (imports_of p)
    (operation_on ON_ENABLE "sample-piece" None None None) constants initial
    = (Threw (JsError "triggerName is required is null or undefined"), initial) /\
  executeTrigger (imports_of p)
    (operation_on RUN "other-piece" (Some "new_event") None None) constants initial
    = (Threw (JsError "piece not found"), initial) /\
  executeTrigger (imports_of p)
    (operation_on TEST "sample-piece" (Some "old_event") None None) constants initial
    = (Threw (JsError "trigger not found, pieceName=sample-piece, triggerName=old_event"),
       initial) /\
  executeTrigger (rejecting_imports p) (operation HANDSHAKE) constants initial
    = (Threw (JsError input_errors_text), initial).
Proof.
  intros p. split; [|split; [|split]].
  - exact (proj1 (prelude_failures (imports_of p)
                    (operation_on ON_ENABLE "sample-piece" None None None) constants
                    initial) eq_refl).
  - exact (proj1 (proj2 (prelude_failures (imports_of p)
                    (operation_on RUN "other-piece" (Some "new_event") None None)
                    constants initial)) "new_event" _ eq_refl eq_refl).
  - exact (proj1 (proj2 (proj2 (prelude_failures (imports_of p)
                    (operation_on TEST "sample-piece" (Some "old_event") None None)
                    constants initial))) "old_event" p eq_refl eq_refl eq_refl).
  - destruct (proj2 (proj2 (proj2 (prelude_failures (rejecting_imports p)
                  (operation HANDSHAKE) constants initial))) "new_event" p
                  (trigger_of POLLING (JsArray [])) eq_refl eq_refl eq_refl)
      as (e & Hexec & Htext); [discriminate|].
    rewrite Hexec. by rewrite (Htext input_errors_text eq_refl).
Defined.

Lemma enable_listeners_in_call_order_witness :
  let t := listening_trigger APP_WEBHOOK in
  exists st' schedule,
    executeTrigger (imports_of (piece_of t None)) (operation ON_ENABLE) constants initial
      = (Ok (EnableResponse [listener; second_listener] schedule), st').
Proof.
  intros t.
  destruct (executeTrigger (imports_of (piece_of t None)) (operation ON_ENABLE)
              constants initial) as [[[| listeners schedule | | | |]|e] st'] eqn:Hexec;
    try discriminate Hexec.
  destruct (enable_listeners_in_call_order (imports_of (piece_of t None))
              (operation ON_ENABLE) constants (piece_of t None) t context st'
              listeners schedule (sample_loaded ON_ENABLE t None) eq_refl Hexec)
    as [Hlisteners _].
  exists st', schedule. by rewrite Hlisteners.
Defined.


Lemma routine_failures_propagate_witness :
  let t := failing_trigger WEBHOOK in
  let im := imports_of (piece_of t None) in
  fst (executeTrigger im (operation ON_ENABLE) constants initial) = Threw boom /\
  fst (executeTrigger im (operation ON_DISABLE) constants initial) = Threw boom /\
  fst (executeTrigger im (operation RENEW) constants initial) = Threw boom /\
  fst (executeTrigger im (operation RUN) constants initial) = Threw boom.
Proof.
  intros t im.
  assert (Hall := fun hook st' =>
    routine_failures_propagate im (operation hook) constants (piece_of t None) t
      context boom st' (sample_loaded hook t None)).
  split; [|split; [|split]].
  - by rewrite (proj1 (Hall ON_ENABLE _) eq_refl eq_refl).
  - by rewrite (proj1 (proj2 (Hall ON_DISABLE _)) eq_refl eq_refl).
  - by rewrite (proj1 (proj2 (proj2 (Hall RENEW _))) eq_refl eq_refl eq_refl).
  - by rewrite (proj2 (proj2 (proj2 (Hall RUN _))) _ eq_refl eq_refl eq_refl).
Defined.

Lemma renew_only_for_webhook_witness :
  (exists message,
     executeTrigger (imports_of (piece_of (trigger_of POLLING (JsArray [])) None))
       (operation RENEW) constants initial = (Threw (JsError message), initial)) /\
  (exists st',
     executeTrigger (imports_of (piece_of (trigger_of WEBHOOK (JsArray [])) None))
       (operation RENEW) constants initial = (Ok (RenewResponse true), st')).
Proof.
  split.
  - apply (proj1 (renew_only_for_webhook _ (operation RENEW) constants _ _ context
                    (sample_loaded RENEW (trigger_of POLLING (JsArray [])) None) eq_refl)).
    discriminate.
  - eexists.
    exact (proj2 (renew_only_for_webhook _ (operation RENEW) constants _ _ context
                    (sample_loaded RENEW (trigger_of WEBHOOK (JsArray [])) None) eq_refl)
             _ eq_refl eq_refl).
Defined.

Lemma app_webhook_needs_url_and_secret_witness :
  let t := trigger_of APP_WEBHOOK (JsArray []) in
  let im := imports_of (piece_of t (Some accepts)) in
  executeTrigger im
    (operation_on RUN "sample-piece" (Some "new_event") (Some "") None) constants initial
    = (Threw (JsError "App webhook url is not available for piece name sample-piece"),
       initial) /\
  executeTrigger im
    (operation_on RUN "sample-piece" (Some "new_event") (Some "https://host/app") None)
    constants initial
    = (Threw (JsError "Webhook secret is not available for piece name sample-piece"),
       initial).
Proof.
  intros t im. split.
  - exact (proj1 (app_webhook_needs_url_and_secret im _ constants _ t context
                    (operation_on_loaded RUN (Some "") None t (Some accepts))
                    eq_refl eq_refl) eq_refl).
  - exact (proj2 (app_webhook_needs_url_and_secret im _ constants _ t context
                    (operation_on_loaded RUN (Some "https://host/app") None t
                       (Some accepts))
                    eq_refl eq_refl) eq_refl eq_refl).
Defined.

Lemma run_skips_verification_witness :
  let t := trigger_of WEBHOOK (JsArray [JsString "event"]) in
  executeTrigger (imports_of (piece_of t (Some rejects)))
    (operation_on RUN "sample-piece" (Some "new_event") None None) constants initial
  = (Ok (RunResponse true None [JsString "event"]),
     {| appListeners := []; scheduleOptions := None; invoked := [OnRun] |}).
Proof.
  intros t.
  destruct (run_skips_verification (imports_of (piece_of t (Some rejects)))
              (operation_on RUN "sample-piece" (Some "new_event") None None) constants
              (piece_of t (Some rejects)) t context
              (operation_on_loaded RUN None None t (Some rejects)) eq_refl)
    as [Hexec _].
  - discriminate.
  - rewrite Hexec. reflexivity.
Defined.

(** The sample checker on the two expressions of the schedule examples, and
    on a few more. *)
Example cron_hourly : Cron.isValidCron "0 * * * *" = true.
Proof. reflexivity. Qed.

Example cron_not_a_cron : Cron.isValidCron "not-a-cron" = false.
Proof. reflexivity. Qed.

Example cron_steps_and_ranges : Cron.isValidCron "*/5 0-3 1,15 * 6" = true.
Proof. reflexivity. Qed.

Example cron_out_of_range : Cron.isValidCron "60 * * * *" = false.
Proof. reflexivity. Qed.

End TriggerHelperFacts.

(** ** Properties of the run lifecycle manager *)

Module FlowRunServiceFacts.
Import Js FlowRunService ServiceFixtures.

Section Facts.
Variable im : Imports.

(** [start] on a stored run whose flow and version are still there. *)
Lemma start_existing p w r v f rid :
  sp_flowRunId p = Some rid ->
  rid <> "" ->
  flowRuns w !! rid = Some r ->
  id r = rid ->
  projectId r = sp_projectId p ->
  flowVersions w !! sp_flowVersionId p = Some v ->
  flows w !! fv_flowId v = Some f ->
  flow_projectId f = sp_projectId p ->
  start im p w =
  (Ok (set_status RUNNING r),
   push_queue
     {| job_flowRun := set_status RUNNING r;
        job_httpRequestId := sp_httpRequestId p;
        job_payload := sp_payload p;
        job_priority := getJobPriority im (projectId r) (sp_synchronousHandlerId p);
        job_synchronousHandlerId := sp_synchronousHandlerId p;
        job_executionType := sp_executionType p;
        job_progressUpdateType := sp_progressUpdateType p |}
     (push_telemetry
        {| ev_projectId := projectId r; ev_flowId := flowId r;
           ev_environment := environment r |}
        (set_flowRuns (insert rid (set_status RUNNING r)) w))).
Proof.
  intros Hid Hne Hrun Hkey Hproject Hversion Hflow Howner.
  unfold start, flowVersionService.getOneOrThrow, flowService.getOneOrThrow.
  unfold bind, gets. rewrite Hversion. simpl. rewrite Hflow. simpl.
  rewrite Howner, String.eqb_refl. simpl.
  unfold getFlowRunOrCreate. rewrite Hid. simpl.
  apply String.eqb_neq in Hne. rewrite Hne. simpl.
  unfold getOneOrThrow, repo.findOneByProject, bind, gets. rewrite Hrun.
  rewrite Hproject, Howner, String.eqb_refl. simpl.
  rewrite Hkey, <- Hproject. reflexivity.
Qed.


Lemma addToQueue_resumes w r payload request progress execution :
  startable w r ->
  matches r request ->
  addToQueue im (id r) payload request progress execution w =
  (Ok tt, resumed im w r payload request progress execution).
Proof.
  intros (Hrun & Hne & v & f & Hversion & Hflow & Howner) Hmatch.
  unfold addToQueue. unfold bind at 1. unfold repo.findOneBy, gets. rewrite Hrun.
  assert (Hgate :
    isNil (pauseMetadata r)
    || match pauseMetadata r with
       | Some p => bool_decide (type p = WEBHOOK) && bool_decide (request = requestId p)
       | None => false
       end = true).
  { destruct Hmatch as [Hnone|(rid & h & Hsome & ->)].
    - by rewrite Hnone.
    - rewrite Hsome. simpl. by rewrite bool_decide_eq_true_2. }
  simpl. rewrite Hgate. unfold bind.
  erewrite start_existing; [reflexivity|reflexivity|exact Hne|exact Hrun|done..].
Qed.

Lemma addToQueue_skips w runId r payload request progress execution :
  flowRuns w !! runId = Some r ->
  mismatches r request ->
  addToQueue im runId payload request progress execution w = (Ok tt, w).
Proof.
  intros Hrun (p & Hpause & Hother).
  unfold addToQueue. unfold bind at 1. unfold repo.findOneBy, gets. rewrite Hrun.
  simpl. rewrite Hpause. simpl.
  destruct Hother as [Hdelay|Hrequest].
  - rewrite Hdelay. reflexivity.
  - rewrite (bool_decide_eq_false_2 (request = requestId p)) by done.
    by rewrite andb_false_r.
Qed.


Lemma matches_or_mismatches (r : FlowRun) (request : option string) :
  (matches r request \/ mismatches r request) /\
  ~ (matches r request /\ mismatches r request).
Proof.
  unfold matches, mismatches. split.
  - destruct (pauseMetadata r) as [[resumeAt|rid h]|] eqn:Hpause.
    + right. exists (DelayPauseMetadata resumeAt). split; [done|]. by left.
    + destruct (decide (request = Some rid)) as [->|Hne].
      * left. right. by exists rid, h.
      * right. exists (WebhookPauseMetadata rid h). split; [done|]. by right.
    + left. by left.
  - intros [[Hnone|(rid & h & Hsome & ->)] (p & Hpause & Hother)].
    + congruence.
    + rewrite Hsome in Hpause. injection Hpause as <-. simpl in Hother.
      by destruct Hother.
Qed.

(** C1. [addToQueue] on a stored run.  When the run has no pause metadata, or
    a [WEBHOOK] pause whose request id is the one supplied, the run goes to
    [start]: it is stored with status [RUNNING] and exactly one job joins the
    queue.  In every other case, a [WEBHOOK] pause with another request id or
    a [DELAY] pause, the call returns without writing anything: a [PAUSED]
    run stays [PAUSED] and the queue is as it was. *)
Theorem addToQueue_gate w runId r payload request progress execution :
  flowRuns w !! runId = Some r ->
  (matches r request \/ mismatches r request) /\
  (matches r request ->
   id r = runId ->
   startable w r ->
   exists w',
     addToQueue im runId payload request progress execution w = (Ok tt, w') /\
     status <$> (flowRuns w' !! runId) = Some (Some RUNNING) /\
     queue w' = (queue w ++ [resume_job im r payload request progress execution])%list /\
     length (queue w') = S (length (queue w))) /\
  (mismatches r request ->
   exists w',
     addToQueue im runId payload request progress execution w = (Ok tt, w') /\
     w' = w /\
     queue w' = queue w /\
     flowRuns w' !! runId = Some r /\
     (status r = Some PAUSED -> status <$> (flowRuns w' !! runId) = Some (Some PAUSED))).
Proof.
  intros Hrun. split; [apply matches_or_mismatches|]. split.
  - intros Hmatch <- Hstart. eexists. split.
    + by apply addToQueue_resumes.
    + unfold resumed, resume_job. simpl. rewrite lookup_insert_eq. simpl.
      split; [done|]. split; [done|].
      rewrite length_app. simpl. lia.
  - intros Hother. exists w. split; [by eapply addToQueue_skips|].
    split; [done|]. split; [done|]. split; [done|].
    intros Hpaused. by rewrite Hrun, <- Hpaused.
Qed.

(** C2, as the code has it.  When [addToQueue] resumes a run, the record is
    stored with status [RUNNING] and that stored record is what joins the
    queue; its pause metadata is the one it had, nothing clears it.  The
    record is stored first: the call makes one write to the run table, which
    leaves the run [RUNNING] in it, and hands the job over after it. *)
Theorem resume_sets_running_keeps_pause w r payload request progress execution :
  startable w r ->
  matches r request ->
  exists w' job saved,
    addToQueue im (id r) payload request progress execution w = (Ok tt, w') /\
    queue w' = (queue w ++ [job])%list /\
    flowRuns w' !! id r = Some (job_flowRun job) /\
    status (job_flowRun job) = Some RUNNING /\
    pauseMetadata (job_flowRun job) = pauseMetadata r /\
    journal w' = (journal w ++ [Wrote saved; Queued job])%list /\
    saved !! id r = Some (job_flowRun job) /\
    saved = flowRuns w'.
Proof.
  intros Hstart Hmatch.
  exists (resumed im w r payload request progress execution),
         (resume_job im r payload request progress execution),
         (<[id r := set_status RUNNING r]> (flowRuns w)).
  split; [by apply addToQueue_resumes|].
  unfold resumed, resume_job. simpl. rewrite lookup_insert_eq, <- app_assoc. done.
Qed.

(** C3. [returnHandlerId] answers with this server's id when there is no
    pause, when the pause is a [DELAY], and when the request id is not the
    recorded one; the stored handler id comes back only for a [WEBHOOK]
    pause with the recorded request id, and then whenever one is stored. *)
Theorem returnHandlerId_spec (pause : option PauseMetadata) (request : option string) :
  ((pause = None \/
    exists p, pause = Some p /\ (type p = DELAY \/ request <> requestId p)) ->
   returnHandlerId im pause request = getServerId im) /\
  (forall rid h,
     pause = Some (WebhookPauseMetadata rid (Some h)) ->
     request = Some rid ->
     h <> "" ->
     returnHandlerId im pause request = h) /\
  (forall rid h,
     pause = Some (WebhookPauseMetadata rid h) ->
     truthy h = false ->
     returnHandlerId im pause request = getServerId im) /\
  (returnHandlerId im pause request <> getServerId im ->
   exists rid h,
     pause = Some (WebhookPauseMetadata rid (Some h)) /\
     request = Some rid /\
     returnHandlerId im pause request = h).
Proof.
  unfold returnHandlerId. repeat split.
  - intros [->|(p & -> & [Hdelay|Hrequest])]; [done| |].
    + by rewrite Hdelay.
    + rewrite (bool_decide_eq_false_2 (request = requestId p)) by done.
      by rewrite andb_false_r.
  - intros rid h -> -> Hne. simpl.
    rewrite bool_decide_eq_true_2 by done.
    apply String.eqb_neq in Hne. by rewrite Hne.
  - intros rid h -> Hfalsy. simpl. rewrite Hfalsy. by rewrite andb_false_r.
  - intros Hother. destruct pause as [[resumeAt|rid h]|]; [done| |done].
    simpl in *. destruct (decide (request = Some rid)) as [->|Hne].
    + destruct h as [h|]; [|by rewrite andb_false_r in Hother].
      exists rid, h. split; [done|]. split; [done|].
      rewrite bool_decide_eq_true_2 by done. simpl.
      destruct (negb (h =? "")) eqn:Htruthy; [done|].
      simpl in Hother. rewrite Htruthy in Hother.
      by rewrite bool_decide_eq_true_2 in Hother.
    + by rewrite (bool_decide_eq_false_2 (request = Some rid)) in Hother.
Qed.

(** Reading a run back does not write. *)
Lemma getOnePopulatedOrThrow_reads runId project w :
  snd (getOnePopulatedOrThrow im runId project w) = w.
Proof.
  unfold getOnePopulatedOrThrow, getOneOrThrow, repo.findOneByProject,
    fileService.getOneOrThrow, bind, gets.
  destruct (flowRuns w !! runId) as [r|]; [|done].
  destruct project as [p|].
  - destruct (projectId r =? p); [|done]. simpl.
    destruct (logsFileId r) as [logs|]; [|done]. simpl.
    destruct (files w !! logs) as [f|]; [|done].
    destruct (file_projectId f =? projectId r); [|done]. simpl.
    by destruct (parse im (data f)).
  - simpl. destruct (logsFileId r) as [logs|]; [|done]. simpl.
    destruct (files w !! logs) as [f|]; [|done].
    destruct (file_projectId f =? projectId r); [|done]. simpl.
    by destruct (parse im (data f)).
Qed.

(** [updateStatus] past [updateLogs]: write the row, read it back, tell the
    finish side effects. *)
Lemma updateStatus_unfold w w1 runId newStatus newTasks state project newTags
    newDuration logFileId :
  updateLogs im runId project state w = (Ok logFileId, w1) ->
  updateStatus im runId newStatus newTasks state project newTags newDuration w =
  match
    getOnePopulatedOrThrow im runId None
      (set_flowRuns
         (alter (finished_columns newStatus newTasks logFileId newTags newDuration (now w1))
            runId) w1)
  with
  | (Ok run, w3) => (Ok run, push_finishEffects run w3)
  | (Threw e, w3) => (Threw e, w3)
  end.
Proof.
  intros Hlogs. unfold updateStatus. unfold bind at 1. rewrite Hlogs.
  unfold toISOString, repo.update, flowRunSideEffects.finish, bind, gets, modify.
  reflexivity.
Qed.

(** Once the log is persisted, [updateStatus] rewrites the run's row and
    touches neither the files nor the id supply, whether or not the run can
    be read back afterwards. *)
Lemma updateStatus_after_logs w w1 runId newStatus newTasks state project newTags
    newDuration logFileId :
  updateLogs im runId project state w = (Ok logFileId, w1) ->
  let w' :=
    snd (updateStatus im runId newStatus newTasks state project newTags newDuration w) in
  flowRuns w' =
    alter (finished_columns newStatus newTasks logFileId newTags newDuration (now w1))
      runId (flowRuns w1) /\
  files w' = files w1 /\
  generatedIds w' = generatedIds w1.
Proof.
  intros Hlogs.
  rewrite (updateStatus_unfold _ _ _ newStatus newTasks _ _ newTags newDuration _ Hlogs).
  set (w2 := set_flowRuns _ w1).
  pose proof (getOnePopulatedOrThrow_reads runId None w2) as Hreads.
  destruct (getOnePopulatedOrThrow im runId None w2) as [[run|e] w3];
    simpl in Hreads; subst w3; done.
Qed.

Lemma updateLogs_too_large w runId r project state :
  flowRuns w !! runId = Some r ->
  (MAX_LOG_SIZE im < length (serialize im state))%nat ->
  updateLogs im runId project (Some state) w =
  (Threw (too_large im), push_handledExceptions (too_large im) w).
Proof.
  intros Hrun Hsize. unfold updateLogs, repo.findOneByOrFail, repo.findOneBy.
  unfold bind at 1. unfold bind at 1. unfold gets. rewrite Hrun. simpl.
  apply Nat.ltb_lt in Hsize. rewrite Hsize. reflexivity.
Qed.

Lemma updateLogs_persists w runId r project state :
  flowRuns w !! runId = Some r ->
  (length (serialize im state) <= MAX_LOG_SIZE im)%nat ->
  updateLogs im runId project (Some state) w =
  match logsFileId r with
  | Some existing =>
      (Ok (Some existing), set_files (insert existing (log_file im existing project state)) w)
  | None =>
      let fresh := apId im (generatedIds w) in
      (Ok (Some fresh),
       set_files (insert fresh (log_file im fresh project state)) (bump_generatedIds w))
  end.
Proof.
  intros Hrun Hsize. unfold updateLogs, repo.findOneByOrFail, repo.findOneBy.
  unfold bind at 1. unfold bind at 1. unfold gets. rewrite Hrun. simpl.
  apply Nat.ltb_ge in Hsize. rewrite Hsize.
  by destruct (logsFileId r).
Qed.

(** C8. [updateStatus] with a trace that serializes to more bytes than
    [MAX_LOG_SIZE]: the call throws the size-limit error after handing it to
    the exception handler, and nothing else happened; the run's row, its
    [logsFileId] with it, and the stored files are as before. *)
Theorem updateStatus_log_too_large w runId r newStatus newTasks state project newTags
    newDuration :
  flowRuns w !! runId = Some r ->
  (MAX_LOG_SIZE im < length (serialize im state))%nat ->
  exists w',
    updateStatus im runId newStatus newTasks (Some state) project newTags newDuration w
      = (Threw (too_large im), w') /\
    handledExceptions w' = (handledExceptions w ++ [too_large im])%list /\
    flowRuns w' = flowRuns w /\
    flowRuns w' !! runId = Some r /\
    logsFileId <$> (flowRuns w' !! runId) = Some (logsFileId r) /\
    files w' = files w /\
    generatedIds w' = generatedIds w /\
    finishEffects w' = finishEffects w.
Proof.
  intros Hrun Hsize. exists (push_handledExceptions (too_large im) w).
  split.
  - unfold updateStatus. unfold bind at 1.
    by rewrite (updateLogs_too_large _ _ _ _ _ Hrun Hsize).
  - simpl. rewrite Hrun. done.
Qed.

(** C9. [updateStatus] with a trace within the size limit, on a run that
    already has a [logsFileId]: the log is saved under that id, the row keeps
    it and no id is generated.  A run without one gets the next generated id;
    and an update without a trace leaves the column alone. *)
Theorem logsFileId_stable w runId r newStatus newTasks state project newTags
    newDuration :
  flowRuns w !! runId = Some r ->
  (length (serialize im state) <= MAX_LOG_SIZE im)%nat ->
  let after trace :=
    snd (updateStatus im runId newStatus newTasks trace project newTags newDuration w) in
  (forall existing,
     logsFileId r = Some existing ->
     updateLogs im runId project (Some state) w =
       (Ok (Some existing),
        set_files (insert existing (log_file im existing project state)) w) /\
     files (after (Some state)) =
       <[existing := log_file im existing project state]> (files w) /\
     logsFileId <$> (flowRuns (after (Some state)) !! runId) = Some (Some existing) /\
     generatedIds (after (Some state)) = generatedIds w) /\
  (logsFileId r = None ->
   let fresh := apId im (generatedIds w) in
   updateLogs im runId project (Some state) w =
     (Ok (Some fresh),
      set_files (insert fresh (log_file im fresh project state)) (bump_generatedIds w)) /\
   logsFileId <$> (flowRuns (after (Some state)) !! runId) = Some (Some fresh) /\
   generatedIds (after (Some state)) = S (generatedIds w)) /\
  (files (after None) = files w /\
   logsFileId <$> (flowRuns (after None) !! runId) = Some (logsFileId r) /\
   generatedIds (after None) = generatedIds w).
Proof.
  intros Hrun Hsize after.
  pose proof (updateLogs_persists w runId r project state Hrun Hsize) as Hlogs.
  split; [|split].
  - intros existing Hexisting. rewrite Hexisting in Hlogs.
    split; [exact Hlogs|].
    destruct (updateStatus_after_logs _ _ _ newStatus newTasks _ _ newTags newDuration
                _ Hlogs) as (Hruns & Hfiles & Hids).
    unfold after. rewrite Hruns, Hfiles, Hids. simpl.
    rewrite lookup_alter_eq, Hrun. done.
  - intros Hnone fresh. rewrite Hnone in Hlogs.
    split; [exact Hlogs|].
    destruct (updateStatus_after_logs _ _ _ newStatus newTasks _ _ newTags newDuration
                _ Hlogs) as (Hruns & Hfiles & Hids).
    unfold after. rewrite Hruns, Hids. simpl.
    rewrite lookup_alter_eq, Hrun. done.
  - assert (Hnull : updateLogs im runId project None w = (Ok None, w)) by done.
    destruct (updateStatus_after_logs _ _ _ newStatus newTasks _ _ newTags newDuration
                _ Hnull) as (Hruns & Hfiles & Hids).
    unfold after. rewrite Hruns, Hfiles, Hids.
    rewrite lookup_alter_eq, Hrun. done.
Qed.

End Facts.

(** *** The theorems at work on the sample world *)

Lemma sample_startable pause : startable (world_with (paused_run pause)) (paused_run pause).
Proof.
  split; [reflexivity|]. split; [done|].
  exists version, {| flow_id := "flow-1"; flow_projectId := "project-1" |}.
  repeat split; reflexivity.
Qed.

Lemma addToQueue_gate_witness :
  (exists w',
     addToQueue imports "run-1" None (Some "abc") NONE RESUME world = (Ok tt, w') /\
     status <$> (flowRuns w' !! "run-1") = Some (Some RUNNING) /\
     length (queue w') = 1) /\
  (exists w',
     addToQueue imports "run-1" None (Some "xyz") NONE RESUME world = (Ok tt, w') /\
     status <$> (flowRuns w' !! "run-1") = Some (Some PAUSED) /\
     queue w' = []).
Proof.
  pose proof (addToQueue_gate imports world "run-1" (paused_run awaiting_webhook)
                None (Some "abc") NONE RESUME eq_refl) as (_ & Hresume & _).
  pose proof (addToQueue_gate imports world "run-1" (paused_run awaiting_webhook)
                None (Some "xyz") NONE RESUME eq_refl) as (_ & _ & Hskip).
  split.
  - destruct Hresume as (w' & Hcall & Hstatus & _ & Hlength).
    + right. by exists "abc", (Some "worker-7").
    + reflexivity.
    + apply sample_startable.
    + exists w'. split; [exact Hcall|]. split; [exact Hstatus|exact Hlength].
  - destruct Hskip as (w' & Hcall & _ & Hqueue & _ & Hstatus).
    + exists awaiting_webhook. split; [reflexivity|]. right. discriminate.
    + exists w'. split; [exact Hcall|]. split; [by apply Hstatus|exact Hqueue].
Defined.

(** C2 fails as stated: after the matching callback resumed the sample run,
    the stored record still carries the webhook pause. *)
Lemma resume_clears_pause_counterexample :
  exists w',
    addToQueue imports "run-1" None (Some "abc") NONE RESUME world = (Ok tt, w') /\
    status <$> (flowRuns w' !! "run-1") = Some (Some RUNNING) /\
    pauseMetadata <$> (flowRuns w' !! "run-1") = Some (Some awaiting_webhook) /\
    pauseMetadata <$> (flowRuns w' !! "run-1") <> Some None.
Proof.
  exists (resumed imports world (paused_run awaiting_webhook) None (Some "abc") NONE RESUME).
  split.
  - apply (addToQueue_resumes imports world (paused_run awaiting_webhook)).
    + apply sample_startable.
    + right. by exists "abc", (Some "worker-7").
  - unfold resumed, resume_job. simpl. rewrite lookup_insert_eq. done.
Qed.

Lemma resume_sets_running_keeps_pause_witness :
  exists w' job saved,
    addToQueue imports "run-1" None (Some "abc") NONE RESUME world = (Ok tt, w') /\
    queue w' = [job] /\
    status (job_flowRun job) = Some RUNNING /\
    pauseMetadata (job_flowRun job) = Some awaiting_webhook /\
    journal w' = [Wrote saved; Queued job] /\
    status <$> (saved !! "run-1") = Some (Some RUNNING).
Proof.
  destruct (resume_sets_running_keeps_pause imports world (paused_run awaiting_webhook)
              None (Some "abc") NONE RESUME (sample_startable awaiting_webhook))
    as (w' & job & saved & Hcall & Hqueue & _ & Hstatus & Hpause & Hjournal & Hsaved & _).
  - right. by exists "abc", (Some "worker-7").
  - exists w', job, saved. split; [exact Hcall|]. split; [exact Hqueue|].
    split; [exact Hstatus|]. split; [exact Hpause|]. split; [exact Hjournal|].
    change (id (paused_run awaiting_webhook)) with "run-1" in Hsaved.
    by rewrite Hsaved, <- Hstatus.
Defined.

Lemma returnHandlerId_spec_witness :
  returnHandlerId imports (Some awaiting_webhook) (Some "abc") = "worker-7" /\
  returnHandlerId imports (Some awaiting_webhook) (Some "xyz") = "worker-1" /\
  returnHandlerId imports (Some awaiting_timer) (Some "abc") = "worker-1" /\
  returnHandlerId imports None (Some "abc") = "worker-1".
Proof.
  split; [|split; [|split]].
  - apply (proj1 (proj2 (returnHandlerId_spec imports (Some awaiting_webhook)
                           (Some "abc"))) "abc" "worker-7"); [reflexivity..|discriminate].
  - apply (proj1 (returnHandlerId_spec imports (Some awaiting_webhook) (Some "xyz"))).
    right. exists awaiting_webhook. split; [reflexivity|]. right. discriminate.
  - apply (proj1 (returnHandlerId_spec imports (Some awaiting_timer) (Some "abc"))).
    right. exists awaiting_timer. split; [reflexivity|]. by left.
  - apply (proj1 (returnHandlerId_spec imports None (Some "abc"))). by left.
Defined.

Lemma updateStatus_log_too_large_witness :
  exists w',
    updateStatus imports "run-1" SUCCEEDED 3 (Some three_steps) "project-1" [] None world
      = (Threw (Error "Execution Output is too large, maximum size is 8"), w') /\
    logsFileId <$> (flowRuns w' !! "run-1") = Some (Some "file-1") /\
    files w' = files world.
Proof.
  destruct (updateStatus_log_too_large imports world "run-1" (paused_run awaiting_webhook)
              SUCCEEDED 3 three_steps "project-1" [] None eq_refl)
    as (w' & Hcall & _ & _ & _ & Hlogs & Hfiles & _).
  - vm_compute. lia.
  - exists w'. split; [exact Hcall|]. split; [exact Hlogs|exact Hfiles].
Defined.

Lemma logsFileId_stable_witness :
  let w' :=
    snd (updateStatus imports "run-1" SUCCEEDED 3 (Some one_step) "project-1" [] None
           world) in
  logsFileId <$> (flowRuns w' !! "run-1") = Some (Some "file-1") /\
  generatedIds w' = 0.
Proof.
  destruct (logsFileId_stable imports world "run-1" (paused_run awaiting_webhook)
              SUCCEEDED 3 one_step "project-1" [] None eq_refl)
    as (Hexisting & _ & _).
  - vm_compute. lia.
  - destruct (Hexisting "file-1" eq_refl) as (_ & _ & Hlogs & Hids).
    split; [exact Hlogs|exact Hids].
Defined.

(** *** More of the run lifecycle *)

Section Lifecycle.
Variable im : Imports.

(** [start] without a usable run id, on a flow version and a flow that are
    there. *)
Lemma start_creates p w v f :
  truthy (sp_flowRunId p) = false ->
  flowVersions w !! sp_flowVersionId p = Some v ->
  flows w !! fv_flowId v = Some f ->
  flow_projectId f = sp_projectId p ->
  let r :=
    set_status RUNNING
      (created im w (flow_projectId f) (fv_flowId v) (fv_id v) (displayName v)
         (sp_environment p)) in
  start im p w =
  (Ok r,
   push_queue
     {| job_flowRun := r;
        job_httpRequestId := sp_httpRequestId p;
        job_payload := sp_payload p;
        job_priority := getJobPriority im (projectId r) (sp_synchronousHandlerId p);
        job_synchronousHandlerId := sp_synchronousHandlerId p;
        job_executionType := sp_executionType p;
        job_progressUpdateType := sp_progressUpdateType p |}
     (push_telemetry
        {| ev_projectId := projectId r; ev_flowId := flowId r;
           ev_environment := environment r |}
        (set_flowRuns (insert (id r) r) (bump_generatedIds w)))).
Proof.
  intros Hfalsy Hversion Hflow Howner r.
  unfold start, flowVersionService.getOneOrThrow, flowService.getOneOrThrow.
  unfold bind, gets. rewrite Hversion. simpl. rewrite Hflow. simpl.
  rewrite Howner, String.eqb_refl. simpl.
  unfold getFlowRunOrCreate. rewrite Hfalsy.
  subst r. rewrite Howner. reflexivity.
Qed.

(** X8. [start] looks the flow version and its flow up before it writes:
    when the flow version is not there, or its flow is not there under the
    project asked for, [start] throws, whether or not a run id is given, and
    no run was made up, saved or queued: the world is the one it was called
    in. *)
Theorem start_looks_up_first p w :
  (flowVersions w !! sp_flowVersionId p = None ->
   exists e, start im p w = (Threw e, w)) /\
  (forall v,
     flowVersions w !! sp_flowVersionId p = Some v ->
     (flows w !! fv_flowId v = None \/
      exists f, flows w !! fv_flowId v = Some f /\ flow_projectId f <> sp_projectId p) ->
     exists e, start im p w = (Threw e, w)).
Proof.
  unfold start, flowVersionService.getOneOrThrow, flowService.getOneOrThrow.
  unfold bind, gets. split.
  - intros ->. by eexists.
  - intros v -> Hflow. simpl. destruct Hflow as [->|(f & -> & Hother)]; simpl.
    + by eexists.
    + apply String.eqb_neq in Hother. rewrite Hother. by eexists.
Qed.

(** X9. [start] without a run id stores a new run under the next generated
    id, bound to the flow version's flow and to the flow's project, started
    now and [RUNNING]; it queues exactly one job for it and leaves every
    other row alone. *)
Theorem start_creates_run p w v f :
  truthy (sp_flowRunId p) = false ->
  flowVersions w !! sp_flowVersionId p = Some v ->
  flows w !! fv_flowId v = Some f ->
  flow_projectId f = sp_projectId p ->
  exists r w',
    start im p w = (Ok r, w') /\
    id r = apId im (generatedIds w) /\
    projectId r = sp_projectId p /\
    flowId r = fv_flowId v /\
    flowVersionId r = fv_id v /\
    environment r = sp_environment p /\
    startTime r = now w /\
    status r = Some RUNNING /\
    pauseMetadata r = None /\
    logsFileId r = None /\
    flowRuns w' !! id r = Some r /\
    (forall k, k <> id r -> flowRuns w' !! k = flowRuns w !! k) /\
    generatedIds w' = S (generatedIds w) /\
    exists job,
      queue w' = (queue w ++ [job])%list /\
      job_flowRun job = r /\
      job_executionType job = sp_executionType p /\
      job_synchronousHandlerId job = sp_synchronousHandlerId p.
Proof.
  intros Hfalsy Hversion Hflow Howner.
  eexists _, _. split; [by apply start_creates|].
  simpl. rewrite lookup_insert_eq. repeat split; try done.
  - intros k Hk. by rewrite lookup_insert_ne.
  - eexists. repeat split; reflexivity.
Qed.

(** X10. A run can only be started again under its own project: given the
    id of a run that is not there, or that belongs to another project than
    the one asked for, [start] throws a run-not-found error and writes
    nothing. *)
Theorem start_rejects_foreign_run p w v f rid :
  sp_flowRunId p = Some rid ->
  rid <> "" ->
  flowVersions w !! sp_flowVersionId p = Some v ->
  flows w !! fv_flowId v = Some f ->
  flow_projectId f = sp_projectId p ->
  (flowRuns w !! rid = None \/
   exists r, flowRuns w !! rid = Some r /\ projectId r <> sp_projectId p) ->
  start im p w = (Threw (ActivepiecesError FLOW_RUN_NOT_FOUND rid), w).
Proof.
  intros Hid Hne Hversion Hflow Howner Hforeign.
  unfold start, flowVersionService.getOneOrThrow, flowService.getOneOrThrow.
  unfold bind, gets. rewrite Hversion. simpl. rewrite Hflow. simpl.
  rewrite Howner, String.eqb_refl. simpl.
  unfold getFlowRunOrCreate. rewrite Hid. simpl.
  apply String.eqb_neq in Hne. rewrite Hne. simpl.
  unfold getOneOrThrow, repo.findOneByProject, bind, gets.
  destruct Hforeign as [->|(r & -> & Hother)]; [done|].
  rewrite Howner. apply String.eqb_neq in Hother. by rewrite Hother.
Qed.

(** X11. [test] starts a fresh [TESTING] run of the flow version: the job
    begins the flow with the trigger's selected sample data as payload,
    reports progress as a flow test, and answers to this server. *)
Theorem test_starts_testing_run project version w v f :
  flowVersions w !! version = Some v ->
  flows w !! fv_flowId v = Some f ->
  flow_projectId f = project ->
  exists r w' job,
    test im project version w = (Ok r, w') /\
    environment r = TESTING /\
    status r = Some RUNNING /\
    id r = apId im (generatedIds w) /\
    flowRuns w' !! id r = Some r /\
    queue w' = (queue w ++ [job])%list /\
    job_flowRun job = r /\
    job_executionType job = BEGIN /\
    job_payload job = Some (currentSelectedData v) /\
    job_progressUpdateType job = TEST_FLOW /\
    job_synchronousHandlerId job = Some (getServerId im) /\
    job_httpRequestId job = None.
Proof.
  intros Hversion Hflow Howner.
  assert (Hfound : flowVersionService.getOneOrThrow version w = (Ok v, w)).
  { unfold flowVersionService.getOneOrThrow, bind, gets. by rewrite Hversion. }
  unfold test. unfold bind at 1. rewrite Hfound.
  eexists _, _, _. split.
  - by eapply start_creates.
  - simpl. rewrite lookup_insert_eq. repeat split; reflexivity.
Qed.

(** [pause] on a stored run, and on a run that is not there. *)
Lemma pause_unfold runId metadata w :
  pause runId metadata w =
  match flowRuns w !! runId with
  | Some r =>
      (Ok tt,
       push_pauseEffects (paused_columns metadata r)
         (set_flowRuns (alter (paused_columns metadata) runId) w))
  | None =>
      (Threw (EntityNotFoundError runId),
       set_flowRuns (alter (paused_columns metadata) runId) w)
  end.
Proof.
  unfold pause, repo.update, repo.findOneByOrFail, repo.findOneBy,
    flowRunSideEffects.pause, bind, modify, gets. simpl.
  rewrite lookup_alter_eq.
  by destruct (flowRuns w !! runId) as [r|] eqn:Hrun.
Qed.

(** An update of a row that is not there leaves the table as it is. *)
Lemma alter_missing (f : FlowRun -> FlowRun) runId (table : gmap string FlowRun) :
  table !! runId = None -> alter f runId table = table.
Proof.
  intros Hnone. apply map_eq. intros k. rewrite lookup_alter.
  case_decide; [subst; by rewrite Hnone|done].
Qed.

(** X12. [pause] on a stored run writes status [PAUSED] and the pause
    metadata as given and keeps every other column of the row and every
    other row; the pause side effect is told once, the row as it is stored
    now.  On a run that is not there [pause] throws, the run table is as it
    was and the side effect is told nothing. *)
Theorem pause_records_metadata runId metadata w :
  (forall r,
     flowRuns w !! runId = Some r ->
     exists w' r',
       pause runId metadata w = (Ok tt, w') /\
       flowRuns w' !! runId = Some r' /\
       status r' = Some PAUSED /\
       pauseMetadata r' = Some metadata /\
       (id r', projectId r', flowId r', flowVersionId r', environment r',
        flowDisplayName r', startTime r', finishTime r', tasks r', duration r',
        logsFileId r', tags r', terminationReason r') =
       (id r, projectId r, flowId r, flowVersionId r, environment r,
        flowDisplayName r, startTime r, finishTime r, tasks r, duration r,
        logsFileId r, tags r, terminationReason r) /\
       (forall k, k <> runId -> flowRuns w' !! k = flowRuns w !! k) /\
       pauseEffects w' = (pauseEffects w ++ [r'])%list) /\
  (flowRuns w !! runId = None ->
   exists w',
     pause runId metadata w = (Threw (EntityNotFoundError runId), w') /\
     flowRuns w' = flowRuns w /\
     pauseEffects w' = pauseEffects w).
Proof.
  rewrite pause_unfold. split.
  - intros r Hrun. rewrite Hrun. eexists _, (paused_columns metadata r).
    split; [reflexivity|]. simpl. rewrite lookup_alter_eq, Hrun.
    repeat split; try done.
    intros k Hk. by rewrite lookup_alter_ne.
  - intros Hnone. rewrite Hnone. eexists. split; [reflexivity|]. simpl.
    split; [by apply alter_missing|done].
Qed.


(** A paused row is as startable as it was. *)
Lemma startable_alter w r f :
  startable w r ->
  id (f r) = id r ->
  flowVersionId (f r) = flowVersionId r ->
  projectId (f r) = projectId r ->
  startable (set_flowRuns (alter f (id r)) w) (f r).
Proof.
  intros (Hrun & Hne & v & fl & Hversion & Hflow & Howner) Hid Hv Hp.
  split; [|split].
  - simpl. by rewrite Hid, lookup_alter_eq, Hrun.
  - by rewrite Hid.
  - exists v, fl. simpl. by rewrite Hv, Hp.
Qed.

(** X13. Pause and resume compose: after [pause] stored a [WEBHOOK] pause
    with a request id and the id of the worker that paused, [addToQueue]
    with that request id queues one job that answers to that worker, and
    [addToQueue] with any other request id changes nothing. *)
Theorem pause_then_resume w r rid h payload progress execution :
  startable w r ->
  h <> "" ->
  let w1 := snd (pause (id r) (WebhookPauseMetadata rid (Some h)) w) in
  (exists w2 job,
     addToQueue im (id r) payload (Some rid) progress execution w1 = (Ok tt, w2) /\
     queue w2 = (queue w ++ [job])%list /\
     job_synchronousHandlerId job = Some h /\
     job_httpRequestId job = Some rid /\
     job_executionType job = execution /\
     status (job_flowRun job) = Some RUNNING /\
     flowRuns w2 !! id r = Some (job_flowRun job)) /\
  (forall other,
     other <> Some rid ->
     addToQueue im (id r) payload other progress execution w1 = (Ok tt, w1)).
Proof.
  intros Hstart Hh w1. subst w1. rewrite pause_unfold.
  pose proof Hstart as (Hrun & _). rewrite Hrun. simpl.
  set (metadata := WebhookPauseMetadata rid (Some h)).
  set (w1 := push_pauseEffects _ _).
  assert (Hstart1 : startable w1 (paused_columns metadata r)).
  { by apply (startable_alter w r (paused_columns metadata)). }
  split.
  - exists (resumed im w1 (paused_columns metadata r) payload (Some rid) progress execution),
           (resume_job im (paused_columns metadata r) payload (Some rid) progress execution).
    split.
    + apply (addToQueue_resumes im w1 (paused_columns metadata r)); [done|].
      right. by exists rid, (Some h).
    + unfold resumed, resume_job, returnHandlerId. simpl.
      rewrite lookup_insert_eq, bool_decide_eq_true_2 by done.
      apply String.eqb_neq in Hh. rewrite Hh. done.
  - intros other Hother.
    apply (addToQueue_skips im w1 (id r) (paused_columns metadata r)).
    + destruct Hstart1 as (Hrun1 & _). exact Hrun1.
    + exists metadata. split; [done|]. by right.
Qed.

(** X14. Resuming does not use the pause up: [start] leaves the pause
    metadata in the row, so a second [addToQueue] with the same request id
    goes to [start] again and a second job joins the queue. *)
Theorem resume_twice_queues_twice w r payload request progress execution :
  startable w r ->
  matches r request ->
  exists w1 w2 job1 job2,
    addToQueue im (id r) payload request progress execution w = (Ok tt, w1) /\
    addToQueue im (id r) payload request progress execution w1 = (Ok tt, w2) /\
    queue w2 = (queue w ++ [job1; job2])%list /\
    job_httpRequestId job1 = request /\
    job_httpRequestId job2 = request /\
    job_synchronousHandlerId job2 = job_synchronousHandlerId job1.
Proof.
  intros Hstart Hmatch.
  set (w1 := resumed im w r payload request progress execution).
  assert (Hstart1 : startable w1 (set_status RUNNING r)).
  { destruct Hstart as (Hrun & Hne & v & f & Hversion & Hflow & Howner).
    split; [|split; [done|by exists v, f]].
    unfold w1, resumed. simpl. by rewrite lookup_insert_eq. }
  exists w1, (resumed im w1 (set_status RUNNING r) payload request progress execution),
    (resume_job im r payload request progress execution),
    (resume_job im (set_status RUNNING r) payload request progress execution).
  split; [by apply addToQueue_resumes|].
  split; [by apply (addToQueue_resumes im w1 (set_status RUNNING r))|].
  unfold resumed, w1, resumed. simpl. by rewrite <- app_assoc.
Qed.

(** X15. [retry] from the failed step is [addToQueue] without payload and
    without request id: a run that was never paused is queued once to
    resume, bound to the same flow version and answering to this server; a
    run that still carries pause metadata, of either type, is left as it is
    and nothing is queued. *)
Theorem retry_from_failed_step w r :
  flowRuns w !! id r = Some r ->
  (pauseMetadata r = None ->
   startable w r ->
   exists w' job,
     retry im (id r) FROM_FAILED_STEP w = (Ok tt, w') /\
     queue w' = (queue w ++ [job])%list /\
     job_executionType job = RESUME /\
     job_payload job = None /\
     job_httpRequestId job = None /\
     job_synchronousHandlerId job = Some (getServerId im) /\
     flowVersionId (job_flowRun job) = flowVersionId r /\
     status (job_flowRun job) = Some RUNNING) /\
  (is_Some (pauseMetadata r) ->
   retry im (id r) FROM_FAILED_STEP w = (Ok tt, w)).
Proof.
  intros Hrun. unfold retry. split.
  - intros Hnone Hstart.
    exists (resumed im w r None None NONE RESUME), (resume_job im r None None NONE RESUME).
    split; [apply addToQueue_resumes; [done|by left]|].
    unfold resumed, resume_job, returnHandlerId. rewrite Hnone. simpl.
    repeat split; reflexivity.
  - intros [p Hp]. apply (addToQueue_skips im w (id r) r); [done|].
    exists p. split; [done|]. destruct p as [resumeAt|rid h]; [by left|by right].
Qed.

(** What a successful read of a populated run returns is the stored row. *)
Lemma getOnePopulatedOrThrow_row runId w populated w' :
  getOnePopulatedOrThrow im runId None w = (Ok populated, w') ->
  flowRuns w !! runId = Some (flowRun populated) /\ w' = w.
Proof.
  intros Hread.
  pose proof (getOnePopulatedOrThrow_reads im runId None w) as Hw.
  rewrite Hread in Hw. simpl in Hw. split; [|done].
  revert Hread.
  unfold getOnePopulatedOrThrow, getOneOrThrow, repo.findOneByProject,
    fileService.getOneOrThrow, bind, gets.
  destruct (flowRuns w !! runId) as [r|]; [|discriminate]. simpl.
  destruct (logsFileId r) as [logs|]; simpl; [|by intros [= <- _]].
  destruct (files w !! logs) as [f|]; [|discriminate].
  destruct (file_projectId f =? projectId r); [|discriminate]. simpl.
  destruct (parse im (data f)); [|discriminate]. by intros [= <- _].
Qed.

(** X16. [retry] on the latest version binds the run to the flow's latest
    locked version before it queues it: the stored row and the queued job
    carry the new version id, the job begins the flow, and its payload is
    the output the trigger step recorded, if there is one.  The row is
    rebound even when the run still carries pause metadata and nothing is
    queued. *)
Theorem retry_on_latest_version w r populated latest :
  getOnePopulatedOrThrow im (id r) None w = (Ok populated, w) ->
  flowRun populated = r ->
  lockedVersions w !! flowId r = Some latest ->
  let r1 := rebound (fv_id latest) r in
  let w1 := set_flowRuns (alter (rebound (fv_id latest)) (id r)) w in
  let payload :=
    match run_steps populated !! trigger_name latest with
    | Some step => Some (property step "output")
    | None => None
    end in
  (pauseMetadata r = None ->
   startable w1 r1 ->
   exists w' job,
     retry im (id r) ON_LATEST_VERSION w = (Ok tt, w') /\
     flowVersionId <$> (flowRuns w' !! id r) = Some (fv_id latest) /\
     queue w' = (queue w ++ [job])%list /\
     flowVersionId (job_flowRun job) = fv_id latest /\
     job_executionType job = BEGIN /\
     job_payload job = payload) /\
  (is_Some (pauseMetadata r) ->
   retry im (id r) ON_LATEST_VERSION w = (Ok tt, w1) /\
   flowVersionId <$> (flowRuns w1 !! id r) = Some (fv_id latest) /\
   queue w1 = queue w).
Proof.
  intros Hread Hrow Hlatest r1 w1 payload.
  destruct (getOnePopulatedOrThrow_row _ _ _ _ Hread) as [Hrun _].
  rewrite Hrow in Hrun.
  assert (Hrebind :
    updateFlowRunToLatestFlowVersionIdAndReturnPayload im (id r) w = (Ok payload, w1)).
  { unfold updateFlowRunToLatestFlowVersionIdAndReturnPayload.
    unfold bind at 1. rewrite Hread.
    unfold flowVersionService.getLatestLockedVersionOrThrow, repo.update.
    unfold bind, gets, modify. rewrite Hrow, Hlatest. reflexivity. }
  assert (Hrun1 : flowRuns w1 !! id r = Some r1).
  { unfold w1. simpl. by rewrite lookup_alter_eq, Hrun. }
  assert (Hretry :
    retry im (id r) ON_LATEST_VERSION w = addToQueue im (id r) payload None NONE BEGIN w1).
  { unfold retry. unfold bind at 1. by rewrite Hrebind. }
  rewrite Hretry. split.
  - intros Hnone Hstart.
    exists (resumed im w1 r1 payload None NONE BEGIN),
           (resume_job im r1 payload None NONE BEGIN).
    split; [apply (addToQueue_resumes im w1 r1); [done|by left]|].
    unfold resumed. simpl. by rewrite lookup_insert_eq.
  - intros [p Hp]. split; [|split].
    + apply (addToQueue_skips im w1 (id r) r1); [done|].
      exists p. split; [done|]. destruct p as [resumeAt|rid h]; [by left|by right].
    + by rewrite Hrun1.
    + done.
Qed.

(** X17. Round trip through the log store: when [updateStatus] persists a
    trace within the size limit for a run of the project it is called for,
    and the stored bytes parse back, it returns the updated row together
    with the steps that were parsed back, and hands the same to the finish
    side effect. *)
Theorem updateStatus_returns_persisted_steps w runId r newStatus newTasks state
    newTags newDuration out :
  flowRuns w !! runId = Some r ->
  (length (serialize im state) <= MAX_LOG_SIZE im)%nat ->
  parse im (serialize im state) = Some out ->
  exists populated w',
    updateStatus im runId newStatus newTasks (Some state) (projectId r) newTags
      newDuration w = (Ok populated, w') /\
    run_steps populated = steps (executionState out) /\
    status (flowRun populated) = Some newStatus /\
    tasks (flowRun populated) = Some newTasks /\
    tags (flowRun populated) = newTags /\
    finishTime (flowRun populated) = Some (now w) /\
    is_Some (logsFileId (flowRun populated)) /\
    flowRuns w' !! runId = Some (flowRun populated) /\
    finishEffects w' = (finishEffects w ++ [populated])%list.
Proof.
  intros Hrun Hsize Hparse.
  pose proof (updateLogs_persists im w runId r (projectId r) state Hrun Hsize) as Hlogs.
  set (file := default (apId im (generatedIds w)) (logsFileId r)).
  assert (Hlogs' : exists w1,
    updateLogs im runId (projectId r) (Some state) w = (Ok (Some file), w1) /\
    flowRuns w1 = flowRuns w /\ now w1 = now w /\ finishEffects w1 = finishEffects w /\
    files w1 !! file = Some (log_file im file (projectId r) state)).
  { unfold file. destruct (logsFileId r) as [existing|]; simpl in *;
      eexists; (split; [exact Hlogs|]); simpl; by rewrite lookup_insert_eq. }
  destruct Hlogs' as (w1 & Hlogs1 & Hrows & Hnow & Hfin & Hfile).
  rewrite (updateStatus_unfold im _ _ _ newStatus newTasks _ _ newTags newDuration _ Hlogs1).
  set (columns := finished_columns newStatus newTasks (Some file) newTags newDuration (now w1)).
  assert (Hread :
    getOnePopulatedOrThrow im runId None (set_flowRuns (alter columns runId) w1) =
    (Ok {| flowRun := columns r; run_steps := steps (executionState out) |},
     set_flowRuns (alter columns runId) w1)).
  { unfold getOnePopulatedOrThrow, getOneOrThrow, repo.findOneByProject,
      fileService.getOneOrThrow, bind, gets. simpl.
    rewrite lookup_alter_eq, Hrows, Hrun. simpl. rewrite Hfile. simpl.
    rewrite String.eqb_refl. simpl. by rewrite Hparse. }
  rewrite Hread. eexists _, _. split; [reflexivity|]. simpl.
  rewrite lookup_alter_eq, Hrows, Hrun, Hnow, Hfin. repeat split; eauto.
Qed.


(** [updateLogs] writes files, ids and handled exceptions only. *)
Lemma updateLogs_frame runId project state w :
  let w1 := snd (updateLogs im runId project state w) in
  flowRuns w1 = flowRuns w /\ queue w1 = queue w /\ pauseEffects w1 = pauseEffects w /\
  telemetry w1 = telemetry w /\ now w1 = now w.
Proof.
  unfold updateLogs, repo.findOneByOrFail, repo.findOneBy, exceptionHandler.handle,
    fileService.save, newId, bind, gets, modify.
  destruct state as [state|]; [|done].
  destruct (flowRuns w !! runId) as [r|]; [|done]. simpl.
  destruct (MAX_LOG_SIZE im <? length (serialize im state))%nat; [done|].
  by destruct (logsFileId r).
Qed.

(** What [updateStatus] leaves of the world, whatever its outcome. *)
Lemma updateStatus_frame runId newStatus newTasks state project newTags newDuration w :
  let w' :=
    snd (updateStatus im runId newStatus newTasks state project newTags newDuration w) in
  queue w' = queue w /\ pauseEffects w' = pauseEffects w /\ telemetry w' = telemetry w /\
  (flowRuns w' = flowRuns w \/
   exists logFileId,
     flowRuns w' =
     alter (finished_columns newStatus newTasks logFileId newTags newDuration (now w))
       runId (flowRuns w)).
Proof.
  pose proof (updateLogs_frame runId project state w) as Hframe.
  destruct (updateLogs im runId project state w) as [[logFileId|e] w1] eqn:Hlogs;
    simpl in Hframe; destruct Hframe as (Hrows & Hqueue & Hpause & Htel & Hnow).
  - rewrite (updateStatus_unfold im _ _ _ newStatus newTasks _ _ newTags newDuration
               _ Hlogs).
    set (w2 := set_flowRuns _ w1).
    pose proof (getOnePopulatedOrThrow_reads im runId None w2) as Hreads.
    destruct (getOnePopulatedOrThrow im runId None w2) as [[run|e] w3];
      simpl in Hreads; subst w3; simpl;
      (repeat split; [done..|right; exists logFileId; by rewrite Hrows, Hnow]).
  - assert (Hthrows :
      updateStatus im runId newStatus newTasks state project newTags newDuration w
        = (Threw e, w1)).
    { unfold updateStatus. unfold bind at 1. by rewrite Hlogs. }
    rewrite Hthrows. simpl. repeat split; [done..|by left].
Qed.

(** X18. Whatever its outcome, [updateStatus] writes to the row of the run
    only: every other row is as it was and no row is made; and in the row of
    the run it keeps the identity, the bindings to project, flow and flow
    version, the environment, the display name, the start time and the
    pause metadata. *)
Theorem updateStatus_keeps_the_rest runId newStatus newTasks state project newTags
    newDuration w :
  let w' :=
    snd (updateStatus im runId newStatus newTasks state project newTags newDuration w) in
  (forall k, k <> runId -> flowRuns w' !! k = flowRuns w !! k) /\
  (flowRuns w !! runId = None -> flowRuns w' !! runId = None) /\
  (forall r,
     flowRuns w !! runId = Some r ->
     exists r',
       flowRuns w' !! runId = Some r' /\
       (id r', projectId r', flowId r', flowVersionId r', environment r',
        flowDisplayName r', startTime r', pauseMetadata r') =
       (id r, projectId r, flowId r, flowVersionId r, environment r,
        flowDisplayName r, startTime r, pauseMetadata r)).
Proof.
  intros w'.
  destruct (updateStatus_frame runId newStatus newTasks state project newTags
              newDuration w) as (_ & _ & _ & Hrows).
  fold w' in Hrows.
  split; [|split].
  - intros k Hk. destruct Hrows as [->|[l ->]]; [done|by rewrite lookup_alter_ne].
  - intros Hnone. destruct Hrows as [->|[l ->]]; [done|].
    by rewrite lookup_alter_eq, Hnone.
  - intros r Hrun. destruct Hrows as [->|[l ->]].
    + by exists r.
    + eexists. rewrite lookup_alter_eq, Hrun. split; reflexivity.
Qed.

Lemma keyed_rows w w' : flowRuns w' = flowRuns w -> keyed w -> keyed w'.
Proof. unfold keyed. by intros ->. Qed.

Lemma keyed_insert w w' r :
  flowRuns w' = <[id r := r]> (flowRuns w) -> keyed w -> keyed w'.
Proof.
  unfold keyed. intros -> Hkeyed k r'. rewrite lookup_insert.
  case_decide; [by intros [= <-]|apply Hkeyed].
Qed.

Lemma keyed_alter w w' f k :
  (forall r, id (f r) = id r) ->
  flowRuns w' = alter f k (flowRuns w) -> keyed w -> keyed w'.
Proof.
  unfold keyed. intros Hid -> Hkeyed k' r'. rewrite lookup_alter.
  case_decide; [|apply Hkeyed]. subst k'.
  destruct (flowRuns w !! k) as [r|] eqn:Hrun; [|done].
  intros [= <-]. rewrite Hid. by apply Hkeyed.
Qed.

(** The rows [start] leaves: the ones it found, or those with one row
    saved. *)
Lemma start_rows p w :
  flowRuns (snd (start im p w)) = flowRuns w \/
  exists r, flowRuns (snd (start im p w)) = <[id r := r]> (flowRuns w).
Proof.
  unfold start, flowVersionService.getOneOrThrow, flowService.getOneOrThrow.
  unfold bind, gets.
  destruct (flowVersions w !! sp_flowVersionId p) as [v|]; simpl; [|by left].
  destruct (flows w !! fv_flowId v) as [f|]; simpl; [|by left].
  destruct (flow_projectId f =? sp_projectId p); simpl; [|by left].
  unfold getFlowRunOrCreate.
  destruct (truthy (sp_flowRunId p)).
  - unfold getOneOrThrow, repo.findOneByProject, bind, gets.
    destruct (flowRuns w !! default "" (sp_flowRunId p)) as [r|]; simpl; [|by left].
    destruct (projectId r =? flow_projectId f); simpl; [|by left].
    right. by exists (set_status RUNNING r).
  - unfold newId, toISOString, bind, gets, modify. simpl. right.
    by eexists (set_status RUNNING (created im w _ _ _ _ _)).
Qed.

Lemma addToQueue_rows runId payload request progress execution w res w' :
  addToQueue im runId payload request progress execution w = (res, w') ->
  flowRuns w' = flowRuns w \/ exists r, flowRuns w' = <[id r := r]> (flowRuns w).
Proof.
  unfold addToQueue. unfold bind at 1. unfold repo.findOneBy, gets.
  destruct (flowRuns w !! runId) as [r|]; simpl; [|intros [= _ <-]; by left].
  destruct (isNil (pauseMetadata r) || _); [|intros [= _ <-]; by left].
  unfold bind.
  match goal with |- context [start im ?p w] =>
    pose proof (start_rows p w) as Hrows; destruct (start im p w) as [[r'|e] w2]
  end; simpl in Hrows; intros [= _ <-]; exact Hrows.
Qed.

Lemma keyed_addToQueue runId payload request progress execution w :
  keyed w -> keyed (snd (addToQueue im runId payload request progress execution w)).
Proof.
  intros Hkeyed.
  destruct (addToQueue im runId payload request progress execution w) as [res w'] eqn:Hcall.
  destruct (addToQueue_rows _ _ _ _ _ _ _ _ Hcall) as [Hrows|[r Hrows]]; simpl.
  - by eapply keyed_rows.
  - by eapply keyed_insert.
Qed.

(** X19. The run table stays keyed by run id: if every row sits under its
    own id, it still does after [start], [pause], [addToQueue],
    [updateStatus] and [retry], whatever their arguments and outcome. *)
Theorem run_table_stays_keyed w :
  keyed w ->
  (forall p, keyed (snd (start im p w))) /\
  (forall runId metadata, keyed (snd (pause runId metadata w))) /\
  (forall runId payload request progress execution,
     keyed (snd (addToQueue im runId payload request progress execution w))) /\
  (forall runId newStatus newTasks state project newTags newDuration,
     keyed (snd (updateStatus im runId newStatus newTasks state project newTags
                   newDuration w))) /\
  (forall runId strategy, keyed (snd (retry im runId strategy w))).
Proof.
  intros Hkeyed. split; [|split; [|split; [|split]]].
  - intros p. destruct (start_rows p w) as [Hrows|[r Hrows]].
    + by eapply keyed_rows.
    + by eapply keyed_insert.
  - intros runId metadata. rewrite pause_unfold.
    destruct (flowRuns w !! runId) as [r|]; simpl;
      by eapply (keyed_alter w _ (paused_columns metadata) runId).
  - intros. by apply keyed_addToQueue.
  - intros runId newStatus newTasks state project newTags newDuration.
    destruct (updateStatus_frame runId newStatus newTasks state project newTags
                newDuration w) as (_ & _ & _ & [Hrows|[l Hrows]]).
    + by eapply keyed_rows.
    + by eapply (keyed_alter w _ _ runId); [|exact Hrows|].
  - intros runId [|]; unfold retry.
    + by apply keyed_addToQueue.
    + unfold bind at 1.
      destruct (updateFlowRunToLatestFlowVersionIdAndReturnPayload im runId w)
        as [[payload|e] w1] eqn:Hrebind; simpl.
      * apply keyed_addToQueue. revert Hrebind.
        unfold updateFlowRunToLatestFlowVersionIdAndReturnPayload.
        unfold bind at 1.
        pose proof (getOnePopulatedOrThrow_reads im runId None w) as Hreads.
        destruct (getOnePopulatedOrThrow im runId None w) as [[run|e] w2];
          simpl in Hreads; subst w2; [|discriminate].
        unfold flowVersionService.getLatestLockedVersionOrThrow, repo.update,
          bind, gets, modify.
        destruct (lockedVersions w !! flowId (flowRun run)) as [v|]; [|discriminate].
        intros [= _ <-]. by eapply (keyed_alter w _ (rebound (fv_id v)) runId).
      * revert Hrebind.
        unfold updateFlowRunToLatestFlowVersionIdAndReturnPayload.
        unfold bind at 1.
        pose proof (getOnePopulatedOrThrow_reads im runId None w) as Hreads.
        destruct (getOnePopulatedOrThrow im runId None w) as [[run|e'] w2];
          simpl in Hreads; subst w2; [|by intros [= _ <-]].
        unfold flowVersionService.getLatestLockedVersionOrThrow, repo.update,
          bind, gets, modify.
        destruct (lockedVersions w !! flowId (flowRun run)) as [v|]; [discriminate|].
        by intros [= _ <-].
Qed.

End Lifecycle.

(** *** The lifecycle on the sample worlds *)

Import LifecycleFixtures.

Lemma failed_startable : startable failed_world failed_run.
Proof.
  split; [reflexivity|]. split; [done|].
  exists old_version, {| flow_id := "flow-1"; flow_projectId := "project-1" |}.
  repeat split; reflexivity.
Qed.

Lemma start_looks_up_first_witness :
  (exists e,
     start imports (request "project-1" "version-404" (Some "run-1")) world
       = (Threw e, world)) /\
  (exists e,
     start imports (request "project-2" "version-1" None) world = (Threw e, world)).
Proof.
  split.
  - exact (proj1 (start_looks_up_first imports
                    (request "project-1" "version-404" (Some "run-1")) world) eq_refl).
  - apply (proj2 (start_looks_up_first imports (request "project-2" "version-1" None)
                    world) version eq_refl).
    right. exists {| flow_id := "flow-1"; flow_projectId := "project-1" |}.
    split; [reflexivity|discriminate].
Defined.

Lemma start_creates_run_witness :
  exists r w',
    start imports (request "project-1" "version-1" None) world = (Ok r, w') /\
    id r = "id-0" /\
    status r = Some RUNNING /\
    flowRuns w' !! "id-0" = Some r /\
    flowRuns w' !! "run-1" = Some (paused_run awaiting_webhook) /\
    length (queue w') = 1.
Proof.
  destruct (start_creates_run imports (request "project-1" "version-1" None) world
              version {| flow_id := "flow-1"; flow_projectId := "project-1" |}
              eq_refl eq_refl eq_refl eq_refl)
    as (r & w' & Hstart & Hid & _ & _ & _ & _ & _ & Hstatus & _ & _ & Hrow & Hothers
        & _ & job & Hqueue & _).
  exists r, w'. split; [exact Hstart|]. split; [exact Hid|]. split; [exact Hstatus|].
  rewrite Hid in Hrow, Hothers. split; [exact Hrow|]. split.
  - rewrite Hothers by discriminate. reflexivity.
  - rewrite Hqueue. reflexivity.
Defined.

Lemma start_rejects_foreign_run_witness :
  start imports (request "project-1" "version-1" (Some "run-1")) (world_with foreign_run)
    = (Threw (ActivepiecesError FLOW_RUN_NOT_FOUND "run-1"), world_with foreign_run) /\
  start imports (request "project-1" "version-1" (Some "run-9")) world
    = (Threw (ActivepiecesError FLOW_RUN_NOT_FOUND "run-9"), world).
Proof.
  split.
  - apply (start_rejects_foreign_run imports _ (world_with foreign_run) version
             {| flow_id := "flow-1"; flow_projectId := "project-1" |} "run-1");
      [reflexivity|discriminate|reflexivity..|].
    right. exists foreign_run. split; [reflexivity|discriminate].
  - apply (start_rejects_foreign_run imports _ world version
             {| flow_id := "flow-1"; flow_projectId := "project-1" |} "run-9");
      [reflexivity|discriminate|reflexivity..|].
    by left.
Defined.

Lemma test_starts_testing_run_witness :
  exists r w' job,
    test imports "project-1" "version-1" world = (Ok r, w') /\
    environment r = TESTING /\
    queue w' = [job] /\
    job_executionType job = BEGIN /\
    job_synchronousHandlerId job = Some "worker-1".
Proof.
  destruct (test_starts_testing_run imports "project-1" "version-1" world version
              {| flow_id := "flow-1"; flow_projectId := "project-1" |}
              eq_refl eq_refl eq_refl)
    as (r & w' & job & Htest & Henv & _ & _ & _ & Hqueue & _ & Hexecution & _ & _
        & Hhandler & _).
  exists r, w', job. split; [exact Htest|]. split; [exact Henv|].
  split; [exact Hqueue|]. split; [exact Hexecution|exact Hhandler].
Defined.

Lemma pause_records_metadata_witness :
  (exists w' r',
     pause "run-1" awaiting_timer failed_world = (Ok tt, w') /\
     flowRuns w' !! "run-1" = Some r' /\
     status r' = Some PAUSED /\
     pauseMetadata r' = Some awaiting_timer /\
     (tasks r', duration r', finishTime r') =
       (Some 2%Z, Some 5000%Z, Some "2024-05-01T10:00:05.000Z") /\
     pauseEffects w' = [r']) /\
  (exists w',
     pause "run-9" awaiting_timer failed_world = (Threw (EntityNotFoundError "run-9"), w') /\
     flowRuns w' = flowRuns failed_world /\
     pauseEffects w' = []).
Proof.
  split.
  - destruct (proj1 (pause_records_metadata "run-1" awaiting_timer failed_world)
                failed_run eq_refl)
      as (w' & r' & Hpause & Hrow & Hstatus & Hmetadata & Hsame & _ & Heffects).
    exists w', r'. split; [exact Hpause|]. split; [exact Hrow|].
    split; [exact Hstatus|]. split; [exact Hmetadata|]. split; [|exact Heffects].
    pose proof (f_equal (fun c => snd (fst (fst (fst (fst c))))) Hsame) as Htasks.
    pose proof (f_equal (fun c => snd (fst (fst (fst c)))) Hsame) as Hduration.
    pose proof (f_equal (fun c => snd (fst (fst (fst (fst (fst c)))))) Hsame) as Hfinish.
    simpl in Htasks, Hduration, Hfinish. by rewrite Htasks, Hduration, Hfinish.
  - exact (proj2 (pause_records_metadata "run-9" awaiting_timer failed_world) eq_refl).
Defined.

Lemma pause_then_resume_witness :
  let w1 := snd (pause "run-1" (WebhookPauseMetadata "abc" (Some "worker-7")) failed_world) in
  (exists w2 job,
     addToQueue imports "run-1" None (Some "abc") NONE RESUME w1 = (Ok tt, w2) /\
     queue w2 = [job] /\
     job_synchronousHandlerId job = Some "worker-7") /\
  addToQueue imports "run-1" None (Some "xyz") NONE RESUME w1 = (Ok tt, w1).
Proof.
  intros w1.
  destruct (pause_then_resume imports failed_world failed_run "abc" "worker-7" None
              NONE RESUME failed_startable) as [Hresume Hskip]; [discriminate|].
  split.
  - destruct Hresume as (w2 & job & Hcall & Hqueue & Hhandler & _).
    exists w2, job. split; [exact Hcall|]. split; [exact Hqueue|exact Hhandler].
  - apply Hskip. discriminate.
Defined.

Lemma resume_twice_queues_twice_witness :
  exists w1 w2,
    addToQueue imports "run-1" None (Some "abc") NONE RESUME world = (Ok tt, w1) /\
    addToQueue imports "run-1" None (Some "abc") NONE RESUME w1 = (Ok tt, w2) /\
    length (queue w2) = 2.
Proof.
  destruct (resume_twice_queues_twice imports world (paused_run awaiting_webhook) None
              (Some "abc") NONE RESUME (sample_startable awaiting_webhook))
    as (w1 & w2 & job1 & job2 & Hfirst & Hsecond & Hqueue & _).
  - right. by exists "abc", (Some "worker-7").
  - exists w1, w2. split; [exact Hfirst|]. split; [exact Hsecond|].
    rewrite Hqueue. reflexivity.
Defined.

Lemma retry_from_failed_step_witness :
  (exists w' job,
     retry imports "run-1" FROM_FAILED_STEP failed_world = (Ok tt, w') /\
     queue w' = [job] /\
     job_executionType job = RESUME /\
     flowVersionId (job_flowRun job) = "version-0") /\
  retry imports "run-1" FROM_FAILED_STEP world = (Ok tt, world).
Proof.
  split.
  - destruct (proj1 (retry_from_failed_step imports failed_world failed_run eq_refl)
                eq_refl failed_startable)
      as (w' & job & Hretry & Hqueue & Hexecution & _ & _ & _ & Hversion & _).
    exists w', job. split; [exact Hretry|]. split; [exact Hqueue|].
    split; [exact Hexecution|exact Hversion].
  - apply (proj2 (retry_from_failed_step imports world (paused_run awaiting_webhook)
                    eq_refl)).
    by eexists.
Defined.

Lemma retry_on_latest_version_witness :
  exists w' job,
    retry imports "run-1" ON_LATEST_VERSION failed_world = (Ok tt, w') /\
    flowVersionId <$> (flowRuns w' !! "run-1") = Some "version-1" /\
    queue w' = [job] /\
    flowVersionId (job_flowRun job) = "version-1" /\
    job_executionType job = BEGIN.
Proof.
  destruct (proj1 (retry_on_latest_version imports failed_world failed_run
                     {| flowRun := failed_run; run_steps := ∅ |} version
                     eq_refl eq_refl eq_refl) eq_refl)
    as (w' & job & Hretry & Hrow & Hqueue & Hversion & Hexecution & _).
  - split; [reflexivity|]. split; [done|].
    exists version, {| flow_id := "flow-1"; flow_projectId := "project-1" |}.
    repeat split; reflexivity.
  - exists w', job. split; [exact Hretry|]. split; [exact Hrow|].
    split; [exact Hqueue|]. split; [exact Hversion|exact Hexecution].
Defined.

Lemma updateStatus_returns_persisted_steps_witness :
  exists populated w',
    updateStatus json_imports "run-1" SUCCEEDED 2 (Some two_steps) "project-1" ["nightly"]
      None failed_world = (Ok populated, w') /\
    run_steps populated = steps two_steps /\
    run_steps populated !! "trigger" =
      Some (JsObject [("output", JsObject [("order", JsNumber 42); ("paid", JsBool true)])]) /\
    status (flowRun populated) = Some SUCCEEDED /\
    tags (flowRun populated) = ["nightly"] /\
    finishEffects w' = [populated].
Proof.
  destruct (updateStatus_returns_persisted_steps json_imports failed_world "run-1"
              failed_run SUCCEEDED 2 two_steps ["nightly"] None
              {| executionState := two_steps |} eq_refl)
    as (populated & w' & Hcall & Hsteps & Hstatus & _ & Htags & _ & _ & _ & Heffects).
  - vm_compute. lia.
  - vm_compute. reflexivity.
  - exists populated, w'. split; [exact Hcall|]. split; [exact Hsteps|].
    split; [by rewrite Hsteps|]. split; [exact Hstatus|]. split; [exact Htags|exact Heffects].
Defined.

Lemma updateStatus_keeps_the_rest_witness :
  let w' :=
    snd (updateStatus imports "run-1" SUCCEEDED 3 (Some one_step) "project-1" [] None
           world) in
  flowRuns w' !! "run-2" = None /\
  pauseMetadata <$> (flowRuns w' !! "run-1") = Some (Some awaiting_webhook) /\
  startTime <$> (flowRuns w' !! "run-1") = Some "2024-05-01T10:00:00.000Z".
Proof.
  intros w'.
  destruct (updateStatus_keeps_the_rest imports "run-1" SUCCEEDED 3 (Some one_step)
              "project-1" [] None world) as (Hothers & _ & Hrow).
  fold w' in Hothers, Hrow. clearbody w'. split.
  - by rewrite (Hothers "run-2").
  - destruct (Hrow (paused_run awaiting_webhook) eq_refl) as (r' & Hr' & Hsame).
    pose proof (f_equal snd Hsame) as Hpause.
    pose proof (f_equal (fun columns => snd (fst columns)) Hsame) as Hstarted.
    simpl in Hpause, Hstarted. rewrite Hr'. simpl. by rewrite Hpause, Hstarted.
Defined.

Lemma world_keyed : keyed world.
Proof.
  intros k r Hr. unfold world, world_with in Hr. cbn [flowRuns] in Hr.
  apply lookup_singleton_Some in Hr as [<- <-]. reflexivity.
Qed.

Lemma run_table_stays_keyed_witness :
  keyed (snd (start imports (request "project-1" "version-1" None) world)) /\
  keyed (snd (retry imports "run-1" ON_LATEST_VERSION world)).
Proof.
  destruct (run_table_stays_keyed imports world world_keyed)
    as (Hstart & _ & _ & _ & Hretry).
  split; [apply Hstart|apply Hretry].
Defined.

(** A run parked on a timer is not resumed through [addToQueue], with or
    without a request id. *)
Example delayed_run_is_left_alone :
  let w := world_with (paused_run awaiting_timer) in
  addToQueue imports "run-1" None None NONE RESUME w = (Ok tt, w) /\
  addToQueue imports "run-1" None (Some "abc") NONE RESUME w = (Ok tt, w).
Proof. split; reflexivity. Qed.

(** A run that was never paused goes straight to [start]. *)
Example unpaused_run_is_started :
  let r := paused_run awaiting_webhook in
  let fresh :=
    {| id := id r; projectId := projectId r; flowId := flowId r;
       flowVersionId := flowVersionId r; environment := environment r;
       flowDisplayName := flowDisplayName r; startTime := startTime r;
       finishTime := None; status := Some FAILED; tasks := tasks r;
       duration := None; logsFileId := None; tags := []; pauseMetadata := None;
       terminationReason := None |} in
  let w' := snd (addToQueue imports "run-1" None None NONE RESUME (world_with fresh)) in
  status <$> (flowRuns w' !! "run-1") = Some (Some RUNNING) /\
  job_synchronousHandlerId <$> queue w' = [Some "worker-1"].
Proof. split; reflexivity. Qed.

End FlowRunServiceFacts.

(** ** Properties of the file-system piece metadata service *)

Module FilePieceMetadataServiceFacts.
Import Js FilePieceMetadataService.

Section Facts.
Variable im : Imports.

Lemma loadPieceFromFolder_eq folderPath handled :
  loadPieceFromFolder im folderPath handled =
  (Ok (loads im folderPath),
   match fails im folderPath with
   | Some e => (handled ++ [e])%list
   | None => handled
   end).
Proof.
  unfold loadPieceFromFolder, loads, fails, try_catch, bind, attempt, handle, modify.
  destruct (importPackageJson im folderPath) as [[pieceName pieceVersion]|e]; simpl;
    [|done].
  by destruct (extractPieceFromModule im folderPath pieceName pieceVersion).
Qed.

Lemma all_loadPieceFromFolder paths handled :
  all (loadPieceFromFolder im) paths handled =
  (Ok (map (loads im) paths), (handled ++ omap (fails im) paths)%list).
Proof.
  revert handled. induction paths as [|folderPath rest IH]; intros handled; simpl.
  - by rewrite app_nil_r.
  - unfold bind. rewrite loadPieceFromFolder_eq, IH.
    destruct (fails im folderPath); simpl; [by rewrite <- app_assoc|done].
Qed.

Lemma omap_id_map {A B} (f : A -> option B) (l : list A) :
  omap (fun p => p) (map f l) = omap f l.
Proof.
  induction l as [|a l IH]; [done|]. cbn. destruct (f a); by rewrite IH.
Qed.

Lemma loadPiecesFromFolder_eq folderPath handled :
  loadPiecesFromFolder im folderPath handled =
  match findAllPiecesFolder im folderPath with
  | Ok paths => (Ok (omap (loads im) paths), (handled ++ omap (fails im) paths)%list)
  | Threw _ => (Ok [], handled)
  end.
Proof.
  unfold loadPiecesFromFolder, try_catch, bind, attempt.
  destruct (findAllPiecesFolder im folderPath) as [paths|e]; simpl; [|done].
  by rewrite all_loadPieceFromFolder, omap_id_map.
Qed.

Lemma loads_or_fails folderPath :
  (is_Some (loads im folderPath) /\ fails im folderPath = None) \/
  (loads im folderPath = None /\ is_Some (fails im folderPath)).
Proof.
  unfold loads, fails.
  destruct (importPackageJson im folderPath) as [[n v]|]; simpl; [|right; eauto].
  destruct (extractPieceFromModule im folderPath n v); [left|right]; eauto.
Qed.

Lemma loads_and_fails_count paths :
  length (omap (loads im) paths) + length (omap (fails im) paths) = length paths.
Proof.
  induction paths as [|path rest IH]; [done|]. cbn.
  destruct (loads_or_fails path) as [[[m ->] ->]|[-> [e ->]]]; cbn; lia.
Qed.

(** X20. Scanning a pieces folder never fails.  If the folder cannot be
    listed the answer is empty and nothing is reported; otherwise the answer
    has the metadata of the folders that load, in scan order, each with its
    name and version taken from its package.json and its folder as directory
    path, and every folder that does not load is skipped and its exception
    handed to the exception handler. *)
Theorem loadPiecesFromFolder_skips_broken_pieces folderPath handled :
  exists pieces handled',
    loadPiecesFromFolder im folderPath handled = (Ok pieces, handled') /\
    (forall e, findAllPiecesFolder im folderPath = Threw e ->
       pieces = [] /\ handled' = handled) /\
    (forall paths, findAllPiecesFolder im folderPath = Ok paths ->
       pieces = omap (loads im) paths /\
       handled' = (handled ++ omap (fails im) paths)%list /\
       length pieces + (length handled' - length handled) = length paths /\
       (forall m, m ∈ pieces ->
          exists path pieceName pieceVersion,
            path ∈ paths /\
            importPackageJson im path = Ok (pieceName, pieceVersion) /\
            name m = pieceName /\ version m = pieceVersion /\
            directoryPath m = Some path)).
Proof.
  rewrite loadPiecesFromFolder_eq.
  destruct (findAllPiecesFolder im folderPath) as [paths|e0].
  - eexists _, _. split; [reflexivity|]. split; [done|].
    intros ? [= <-]. split; [done|]. split; [done|]. split.
    + rewrite length_app. pose proof (loads_and_fails_count paths). lia.
    + intros m Hm. apply list_elem_of_omap in Hm as (path & Hpath & Hloads).
      unfold loads in Hloads.
      destruct (importPackageJson im path) as [[n v]|] eqn:Hjson; [|done].
      simpl in Hloads.
      destruct (extractPieceFromModule im path n v); [|done].
      injection Hloads as <-. by exists path, n, v.
  - eexists _, _. split; [reflexivity|]. split; [done|]. by intros ? [=].
Qed.

(** Loading the metadata never fails either. *)
Lemma loadPiecesMetadata_eq handled :
  exists pieces handled',
    findAllPieces im handled = (Ok pieces, handled') /\
    loadPiecesMetadata im handled = (Ok (sortByDisplayName im pieces), handled').
Proof.
  unfold loadPiecesMetadata, findAllPieces, bind.
  rewrite loadPiecesFromFolder_eq.
  destruct (findAllPiecesFolder im (piecesFolder im)) as [paths|e];
    (case_decide;
     [rewrite loadPiecesFromFolder_eq;
      destruct (findAllPiecesFolder im (enterprisePiecesFolder im))|];
     simpl; eauto).
Qed.

(** X21. [getOrThrow] looks a piece up by name alone: with the loaded
    metadata in display order, it answers with the model of the first piece
    of exactly that name, stamped with the project asked for, usage 0,
    registry package and official piece, whatever version was asked for; and
    it throws piece-not-found when no loaded piece has the name.  Nothing
    else makes it fail. *)
Theorem getOrThrow_by_name pieceName pieceVersion project handled :
  exists pieces handled',
    loadPiecesMetadata im handled = (Ok pieces, handled') /\
    match findByName pieceName pieces with
    | Some m =>
        name m = pieceName /\
        get im pieceName project handled =
          (Ok (Some (toPieceMetadataModel m project)), handled') /\
        getOrThrow im pieceName pieceVersion project handled =
          (Ok (toPieceMetadataModel m project), handled') /\
        forall other,
          getOrThrow im pieceName other project handled =
          getOrThrow im pieceName pieceVersion project handled
    | None =>
        get im pieceName project handled = (Ok None, handled') /\
        getOrThrow im pieceName pieceVersion project handled =
          (Threw (PIECE_NOT_FOUND pieceName pieceVersion
                    "Pieces is not found in file system"), handled')
    end.
Proof.
  destruct (loadPiecesMetadata_eq handled) as (raw & handled' & _ & Hload).
  exists (sortByDisplayName im raw), handled'. split; [exact Hload|].
  assert (Hget : forall v,
    getOrThrow im pieceName v project handled =
    match findByName pieceName (sortByDisplayName im raw) with
    | Some m => (Ok (toPieceMetadataModel m project), handled')
    | None => (Threw (PIECE_NOT_FOUND pieceName v "Pieces is not found in file system"),
               handled')
    end).
  { intros v. unfold getOrThrow, get, bind. rewrite Hload.
    by destruct (findByName pieceName (sortByDisplayName im raw)). }
  assert (Hget0 :
    get im pieceName project handled =
    (Ok (option_map (fun m => toPieceMetadataModel m project)
           (findByName pieceName (sortByDisplayName im raw))), handled')).
  { unfold get, bind. rewrite Hload.
    by destruct (findByName pieceName (sortByDisplayName im raw)). }
  destruct (findByName pieceName (sortByDisplayName im raw)) as [m|] eqn:Hfind.
  - split; [|split; [exact Hget0|split; [apply Hget|]]].
    + apply List.find_some in Hfind as [_ Heq]. by apply String.eqb_eq.
    + intros other. by rewrite !Hget.
  - split; [exact Hget0|apply Hget].
Qed.

(** X22. A piece whose folder is in the pieces folder and loads can be got
    by the name in its package.json, as long as sorting only reorders the
    loaded pieces: [get] answers with a model of that name. *)
Theorem get_finds_loaded_piece paths folderPath m project handled :
  (forall l, sortByDisplayName im l ≡ₚ l) ->
  findAllPiecesFolder im (piecesFolder im) = Ok paths ->
  folderPath ∈ paths ->
  loads im folderPath = Some m ->
  exists model handled',
    get im (name m) project handled = (Ok (Some model), handled') /\
    name (columns model) = name m /\
    projectId model = project.
Proof.
  intros Hsort Hscan Hin Hloads.
  destruct (loadPiecesMetadata_eq handled) as (raw & handled' & Hraw & Hload).
  assert (Hm : m ∈ raw).
  { revert Hraw. unfold findAllPieces, bind.
    rewrite loadPiecesFromFolder_eq, Hscan.
    assert (Hhere : m ∈ omap (loads im) paths).
    { apply list_elem_of_omap. by exists folderPath. }
    case_decide.
    - rewrite loadPiecesFromFolder_eq.
      destruct (findAllPiecesFolder im (enterprisePiecesFolder im));
        intros [= <- _]; apply elem_of_app; by left.
    - intros [= <- _]. apply elem_of_app. by left. }
  assert (Hsorted : m ∈ sortByDisplayName im raw) by by rewrite Hsort.
  destruct (findByName (name m) (sortByDisplayName im raw)) as [found|] eqn:Hfind.
  - exists (toPieceMetadataModel found project), handled'.
    unfold get, bind. rewrite Hload, Hfind. split; [done|]. simpl.
    apply List.find_some in Hfind as [_ Heq]. apply String.eqb_eq in Heq. done.
  - exfalso. apply list_elem_of_In in Hsorted.
    pose proof (List.find_none _ _ Hfind m Hsorted) as Hno. simpl in Hno.
    by rewrite String.eqb_refl in Hno.
Qed.

(** X23. [getExactPieceVersion] trusts an exact version: it is returned as
    given, without loading anything, even when no such piece is there.  Any
    other version is answered with the version of the loaded piece of that
    name, or with piece-not-found. *)
Theorem getExactPieceVersion_spec project pieceName pieceVersion handled :
  (isExactVersion im pieceVersion = true ->
   getExactPieceVersion im project pieceName pieceVersion handled
     = (Ok pieceVersion, handled)) /\
  (isExactVersion im pieceVersion = false ->
   exists pieces handled',
     loadPiecesMetadata im handled = (Ok pieces, handled') /\
     getExactPieceVersion im project pieceName pieceVersion handled =
     match findByName pieceName pieces with
     | Some m => (Ok (version m), handled')
     | None =>
         (Threw (PIECE_NOT_FOUND pieceName (Some pieceVersion)
                   "Pieces is not found in file system"), handled')
     end).
Proof.
  unfold getExactPieceVersion. split; intros ->; [done|].
  destruct (loadPiecesMetadata_eq handled) as (raw & handled' & _ & Hload).
  exists (sortByDisplayName im raw), handled'. split; [exact Hload|].
  unfold getOrThrow, get, bind. rewrite Hload.
  by destruct (findByName pieceName (sortByDisplayName im raw)).
Qed.

(** X24. [getVersions] knows at most one version of a piece, the one [get]
    would answer with; it is empty when no loaded piece has the name or when
    that piece has an empty version. *)
Theorem getVersions_at_most_one pieceName project handled :
  exists versions handled',
    getVersions im pieceName handled = (Ok versions, handled') /\
    length versions <= 1 /\
    (forall v, v ∈ versions ->
       v <> "" /\
       exists model,
         get im pieceName project handled = (Ok (Some model), handled') /\
         version (columns model) = v) /\
    (get im pieceName project handled = (Ok None, handled') -> versions = []).
Proof.
  destruct (loadPiecesMetadata_eq handled) as (raw & handled' & _ & Hload).
  unfold getVersions, get, bind. rewrite Hload.
  destruct (findByName pieceName (sortByDisplayName im raw)) as [m|].
  - simpl. destruct (version m =? "") eqn:Hempty; simpl.
    + eexists _, _. split; [reflexivity|]. split; [simpl; lia|].
      split; [by intros v ?%elem_of_nil|done].
    + eexists _, _. split; [reflexivity|]. split; [simpl; lia|]. split; [|done].
      intros v ->%list_elem_of_singleton. split; [by apply String.eqb_neq|].
      by eexists.
  - eexists _, _. split; [reflexivity|]. split; [simpl; lia|].
    split; [by intros v ?%elem_of_nil|done].
Qed.

End Facts.

(** *** The service on three sample folders *)

Import PieceFixtures.

Lemma loadPiecesFromFolder_skips_broken_pieces_witness :
  exists pieces,
    loadPiecesFromFolder imports "dist/packages/pieces" [] =
      (Ok pieces, [JsError "Failed to extract piece from module"]) /\
    length pieces = 2 /\
    loadPiecesFromFolder imports "dist/packages/ee/pieces" [] = (Ok [], []).
Proof.
  destruct (loadPiecesFromFolder_skips_broken_pieces imports "dist/packages/pieces" [])
    as (pieces & handled' & Hload & _ & Hscan).
  destruct (Hscan _ eq_refl) as (Hpieces & Hhandled & _).
  destruct (loadPiecesFromFolder_skips_broken_pieces imports "dist/packages/ee/pieces" [])
    as (none & handled'' & Hnone & Hfailed & _).
  destruct (Hfailed _ eq_refl) as [-> ->].
  exists pieces. rewrite Hload, Hhandled, Hpieces.
  split; [reflexivity|]. split; [reflexivity|exact Hnone].
Defined.

Lemma getOrThrow_by_name_witness :
  (exists model handled,
     getOrThrow imports "@activepieces/piece-slack" (Some "~0.4.0") (Some "project-1") []
       = (Ok model, handled) /\
     version (columns model) = "0.5.1" /\
     projectId model = Some "project-1") /\
  (exists handled,
     getOrThrow imports "@activepieces/piece-broken" None None [] =
       (Threw (PIECE_NOT_FOUND "@activepieces/piece-broken" None
                 "Pieces is not found in file system"), handled)).
Proof.
  split.
  - destruct (getOrThrow_by_name imports "@activepieces/piece-slack" (Some "~0.4.0")
                (Some "project-1") []) as (pieces & handled & Hload & Hfound).
    vm_compute in Hload. injection Hload as <- <-.
    destruct Hfound as (_ & _ & Hget & _).
    eexists _, _. split; [exact Hget|]. split; reflexivity.
  - destruct (getOrThrow_by_name imports "@activepieces/piece-broken" None None [])
      as (pieces & handled & Hload & Hfound).
    vm_compute in Hload. injection Hload as <- <-.
    destruct Hfound as (_ & Hget).
    eexists. exact Hget.
Defined.

Lemma get_finds_loaded_piece_witness :
  exists model handled,
    get imports "@activepieces/piece-gmail" None [] = (Ok (Some model), handled) /\
    name (columns model) = "@activepieces/piece-gmail".
Proof.
  destruct (get_finds_loaded_piece imports
              ["pieces/slack"; "pieces/broken"; "pieces/gmail"] "pieces/gmail"
              {| name := "@activepieces/piece-gmail"; displayName := "Gmail";
                 description := ""; logoUrl := "https://cdn/logo.png";
                 version := "0.7.0"; auth := JsUndefined;
                 minimumSupportedRelease := None; maximumSupportedRelease := None;
                 actions := JsObject []; authors := ["kanarelo"]; categories := [];
                 triggers := JsObject []; directoryPath := Some "pieces/gmail" |}
              None [])
    as (model & handled & Hget & Hname & _).
  - intros l. apply (merge_sort_Permutation before).
  - reflexivity.
  - set_solver.
  - reflexivity.
  - exists model, handled. split; [exact Hget|exact Hname].
Defined.

Lemma getExactPieceVersion_spec_witness :
  getExactPieceVersion imports None "@activepieces/piece-unknown" "1.2.3" []
    = (Ok "1.2.3", []) /\
  exists handled,
    getExactPieceVersion imports None "@activepieces/piece-gmail" "~0.7.0" []
      = (Ok "0.7.0", handled).
Proof.
  split.
  - exact (proj1 (getExactPieceVersion_spec imports None "@activepieces/piece-unknown"
                    "1.2.3" []) eq_refl).
  - destruct (proj2 (getExactPieceVersion_spec imports None "@activepieces/piece-gmail"
                       "~0.7.0" []) eq_refl) as (pieces & handled & Hload & Hget).
    vm_compute in Hload. injection Hload as <- <-.
    eexists. exact Hget.
Defined.

Lemma getVersions_at_most_one_witness :
  exists handled,
    getVersions imports "@activepieces/piece-slack" [] = (Ok ["0.5.1"], handled).
Proof.
  destruct (getVersions_at_most_one imports "@activepieces/piece-slack" None [])
    as (versions & handled & Hversions & _).
  exists handled. rewrite Hversions.
  vm_compute in Hversions. by injection Hversions as <- <-.
Defined.

End FilePieceMetadataServiceFacts.

(** ** Properties of the SMTP email sender *)

Module SmtpEmailSenderFacts.
Import Js SmtpEmailSender.

Section Facts.
Variable im : Imports.

(** [getOrThrow] gives what [get] finds. *)
Definition consistent : Prop :=
  forall prop v, get im prop = Some v -> getOrThrow im prop = Ok v.

Lemma orThrow_ok x prop :
  consistent ->
  is_Some (nullish x (get im prop)) ->
  exists v, orThrow im x prop = Ok v /\ nullish x (get im prop) = Some v.
Proof.
  intros Hget [v Hv]. destruct x as [x|]; simpl in *; [by exists x|].
  exists v. by rewrite (Hget _ _ Hv).
Qed.

Lemma isConfigured_true h p u pw :
  isConfigured h p u pw = true <-> is_Some h /\ is_Some p /\ is_Some u /\ is_Some pw.
Proof.
  unfold isConfigured. destruct h, p, u, pw; simpl; split; try done;
    intros (H1 & H2 & H3 & H4); try by inversion H1; try by inversion H2;
    try by inversion H3; by inversion H4.
Qed.

(** The transport of a sender that is configured. *)
Lemma initSmtpClient_configured platform :
  consistent ->
  isSmtpConfigured im platform = true ->
  exists t,
    initSmtpClient im platform = Ok t /\
    Some (host t) = nullish (platform ≫= smtpHost) (get im SMTP_HOST) /\
    port t =
      match platform ≫= smtpPort with
      | Some n => Some n
      | None => get im SMTP_PORT ≫= parseInt im
      end /\
    secure t = nullish (platform ≫= smtpUseSSL) (getBoolean im SMTP_USE_SSL) /\
    Some (user t) = nullish (platform ≫= smtpUser) (get im SMTP_USERNAME) /\
    Some (pass t) = nullish (platform ≫= smtpPassword) (get im SMTP_PASSWORD).
Proof.
  intros Hget Hconfigured.
  assert (Hall :
    is_Some (nullish (platform ≫= smtpHost) (get im SMTP_HOST)) /\
    (is_Some (platform ≫= smtpPort) \/ is_Some (get im SMTP_PORT)) /\
    is_Some (nullish (platform ≫= smtpUser) (get im SMTP_USERNAME)) /\
    is_Some (nullish (platform ≫= smtpPassword) (get im SMTP_PASSWORD))).
  { unfold isSmtpConfigured in Hconfigured.
    apply orb_true_iff in Hconfigured as [Hp|Hs].
    - destruct platform as [p|]; [|done].
      apply isConfigured_true in Hp as ([h Hh] & [n Hn] & [u Hu] & [pw Hpw]).
      simpl. rewrite Hh, Hu, Hpw. simpl.
      destruct (smtpPort p); [|done]. eauto.
    - apply isConfigured_true in Hs as ([h Hh] & [n Hn] & [u Hu] & [pw Hpw]).
      rewrite Hh, Hn, Hu, Hpw.
      repeat split; try (by right); by destruct (_ ≫= _); simpl; eauto. }
  destruct Hall as (Hh & Hn & Hu & Hpw).
  destruct (orThrow_ok _ _ Hget Hh) as (h & Hh1 & Hh2).
  destruct (orThrow_ok _ _ Hget Hu) as (u & Hu1 & Hu2).
  destruct (orThrow_ok _ _ Hget Hpw) as (pw & Hpw1 & Hpw2).
  unfold initSmtpClient. rewrite Hh1, Hu1, Hpw1.
  destruct (platform ≫= smtpPort) as [n|] eqn:Hport.
  - eexists. split; [reflexivity|]. simpl. by rewrite Hh2, Hu2, Hpw2.
  - destruct Hn as [[? ?]|[s Hs]]; [done|]. rewrite (Hget _ _ Hs).
    eexists. split; [reflexivity|]. simpl. by rewrite Hh2, Hu2, Hpw2, Hs.
Qed.

(** X25. A sender that [isSmtpConfigured] accepts can always build its
    transport: with the platform's SMTP settings complete, or the system's,
    [initSmtpClient] does not throw for a missing property, and host, port,
    user, password and the SSL flag are the platform's where the platform
    has them and the system's otherwise. *)
Theorem configured_sender_builds_transport platform :
  consistent ->
  isSmtpConfigured im platform = true ->
  exists t,
    initSmtpClient im platform = Ok t /\
    Some (host t) = nullish (platform ≫= smtpHost) (get im SMTP_HOST) /\
    port t =
      match platform ≫= smtpPort with
      | Some n => Some n
      | None => get im SMTP_PORT ≫= parseInt im
      end /\
    secure t = nullish (platform ≫= smtpUseSSL) (getBoolean im SMTP_USE_SSL) /\
    Some (user t) = nullish (platform ≫= smtpUser) (get im SMTP_USERNAME) /\
    Some (pass t) = nullish (platform ≫= smtpPassword) (get im SMTP_PASSWORD).
Proof. apply initSmtpClient_configured. Qed.

(** X26. Without SMTP settings [send] sends nothing and does not fail: when
    neither the platform nor the system has host, port, user and password,
    the call returns, the outbox is as it was, no template is read, and the
    logger is told once, with the subject of the email. *)
Theorem send_without_smtp_sends_nothing emails platformId templateData w :
  isSmtpConfigured im (getPlatform im platformId) = false ->
  exists w',
    send im emails platformId templateData w = (Ok tt, w') /\
    outbox w' = outbox w /\
    errors w' =
      (errors w ++
       [("SMTP isn't configured for sending the email "
         ++ getEmailSubject (template templateData) (vars templateData))%string])%list.
Proof.
  intros Hno. unfold send. rewrite Hno. simpl. by eexists.
Qed.

(** X27. With SMTP settings, a template that reads and renders, [send]
    sends exactly one mail: to all the addresses joined by commas, with the
    subject of the template, from the platform's name when there is a
    platform and the system's sender name otherwise, with the rendered
    body. *)
Theorem send_sends_one_mail emails platformId templateData w text body :
  consistent ->
  let platform := getPlatform im platformId in
  isSmtpConfigured im platform = true ->
  readFile im ("packages/server/api/src/assets/emails/"
               ++ spelled (template templateData) ++ ".html") = Ok text ->
  render im text (view_of im platform templateData) = Ok body ->
  exists w' t m,
    send im emails platformId templateData w = (Ok tt, w') /\
    outbox w' = (outbox w ++ [(t, m)])%list /\
    errors w' = errors w /\
    initSmtpClient im platform = Ok t /\
    to m = String.concat "," emails /\
    subject m = getEmailSubject (template templateData) (vars templateData) /\
    html m = body /\
    from m =
      interpolate (match platform with
                   | Some p => Some (name p)
                   | None => get im SMTP_SENDER_NAME
                   end)
      ++ " <"
      ++ interpolate (nullish (platform ≫= smtpSenderEmail) (get im SMTP_SENDER_EMAIL))
      ++ ">".
Proof.
  intros Hget platform Hconfigured Hread Hrender.
  destruct (initSmtpClient_configured platform Hget Hconfigured) as (t & Ht & _).
  unfold send. fold platform. rewrite Hconfigured. simpl.
  unfold renderEmailBody, bind, lift, sendMail, modify. rewrite Hread.
  fold platform. rewrite Hrender, Ht. by eexists _, t, _.
Qed.

End Facts.

(** *** The sender on the sample platforms *)

Import MailFixtures.

Lemma imports_over_consistent system : consistent (imports_over system).
Proof. intros prop v Hv. simpl in *. by rewrite Hv. Qed.

Lemma configured_sender_builds_transport_witness :
  (exists t,
     initSmtpClient (imports_over unset) (Some acme) = Ok t /\
     host t = "smtp.acme.test" /\ port t = Some 587%Z) /\
  (exists t,
     initSmtpClient (imports_over system_smtp) (Some bare) = Ok t /\
     host t = "smtp.system.test" /\ port t = Some 25%Z /\ secure t = Some true).
Proof.
  split.
  - destruct (configured_sender_builds_transport (imports_over unset) (Some acme)
                (imports_over_consistent unset) eq_refl)
      as (t & Ht & Hhost & Hport & _).
    exists t. split; [exact Ht|]. split; [by injection Hhost|exact Hport].
  - destruct (configured_sender_builds_transport (imports_over system_smtp) (Some bare)
                (imports_over_consistent system_smtp) eq_refl)
      as (t & Ht & Hhost & Hport & Hsecure & _).
    exists t. split; [exact Ht|]. split; [by injection Hhost|].
    split; [exact Hport|exact Hsecure].
Defined.

Lemma send_without_smtp_sends_nothing_witness :
  exists w',
    send (imports_over unset) ["a@x.test"; "b@x.test"] (Some "bare") reminder empty
      = (Ok tt, w') /\
    outbox w' = [] /\
    errors w' =
      ["SMTP isn't configured for sending the email [ACTION REQUIRED] New issue in Orders"].
Proof.
  exact (send_without_smtp_sends_nothing (imports_over unset) ["a@x.test"; "b@x.test"]
           (Some "bare") reminder empty eq_refl).
Defined.

Lemma send_sends_one_mail_witness :
  exists w' t m,
    send (imports_over unset) ["a@x.test"; "b@x.test"] (Some "acme") reminder empty
      = (Ok tt, w') /\
    outbox w' = [(t, m)] /\
    to m = "a@x.test,b@x.test" /\
    from m = "Acme <noreply@acme.test>" /\
    subject m = "[ACTION REQUIRED] New issue in Orders".
Proof.
  destruct (send_sends_one_mail (imports_over unset) ["a@x.test"; "b@x.test"]
              (Some "acme") reminder empty
              "packages/server/api/src/assets/emails/issue-created.html"
              "packages/server/api/src/assets/emails/issue-created.html for Acme"
              (imports_over_consistent unset) eq_refl eq_refl eq_refl)
    as (w' & t & m & Hsend & Houtbox & _ & _ & Hto & Hsubject & _ & Hfrom).
  exists w', t, m. split; [exact Hsend|]. split; [exact Houtbox|].
  split; [exact Hto|]. split; [exact Hfrom|exact Hsubject].
Defined.

End SmtpEmailSenderFacts.

(** ** Properties of the SQLite data source *)

Module SqliteConnectionFacts.
Import Js SqliteConnection.

Section Facts.
Context {C : Type}.
Variable im : Imports C.

(** X28. In the [TESTING] environment the data source is the in-memory
    database with no migration settings: no directory is made, and neither
    the configuration path nor the edition is looked at. *)
Theorem testing_uses_memory_database made :
  environment im = Ok TESTING ->
  createSqlLiteDataSource im made =
    (Ok {| ds_type := "sqlite"; database := ":memory:";
           config := {| migrationsRun := None; migrationsTransactionMode := None;
                        migrations := None |};
           common := commonProperties im |},
     made).
Proof.
  intros Henv.
  unfold createSqlLiteDataSource, getMigrationConfig, getSqliteDatabase, bind, lift.
  rewrite Henv. reflexivity.
Qed.

(** X29. Outside [TESTING], SQLite is for the community edition.  Any other
    edition makes [createSqlLiteDataSource] throw, naming the edition,
    before a directory is made.  For the community edition the
    configuration directory is made once, the database is the file
    [database.sqlite] in it, and the migrations are run, each in its own
    transaction: the forty-seven of the list, no one twice. *)
Theorem sqlite_is_for_community_edition env made :
  environment im = Ok env ->
  env <> TESTING ->
  (getEdition im <> COMMUNITY ->
   createSqlLiteDataSource im made =
     (Threw (JsError ("Edition " ++ editionName im (getEdition im)
                      ++ " not supported in sqlite3 mode")), made)) /\
  (forall directory,
     getEdition im = COMMUNITY ->
     configPath im = Ok directory ->
     exists options,
       createSqlLiteDataSource im made = (Ok options, (made ++ [directory])%list) /\
       ds_type options = "sqlite" /\
       database options = resolveJoin im directory "database.sqlite" /\
       migrationsRun (config options) = Some true /\
       migrationsTransactionMode (config options) = Some each /\
       migrations (config options) = Some communityMigrations /\
       length communityMigrations = 47 /\
       NoDup communityMigrations).
Proof.
  intros Henv Hother.
  unfold createSqlLiteDataSource, getMigrationConfig, getSqliteDatabase,
    getSqliteDatabaseFilePath, getMigrations, mkdirSync, bind, lift, modify.
  rewrite Henv. simpl. rewrite !decide_False by done. split.
  - intros Hedition. by rewrite decide_True.
  - intros directory Hedition Hpath. rewrite Hedition, Hpath. simpl.
    destruct (decide (env = TESTING)); [done|].
    eexists. split; [reflexivity|]. simpl. repeat split.
    apply (bool_decide_unpack (NoDup communityMigrations)). by vm_compute.
Qed.

End Facts.

(** *** The data source in three set-ups *)

Import SqliteFixtures.

Lemma testing_uses_memory_database_witness :
  exists options,
    createSqlLiteDataSource (imports_in TESTING ENTERPRISE) [] = (Ok options, []) /\
    database options = ":memory:" /\
    migrations (config options) = None.
Proof.
  eexists. split.
  - exact (testing_uses_memory_database (imports_in TESTING ENTERPRISE) [] eq_refl).
  - split; reflexivity.
Defined.

Lemma sqlite_is_for_community_edition_witness :
  createSqlLiteDataSource (imports_in PRODUCTION CLOUD) [] =
    (Threw (JsError "Edition cloud not supported in sqlite3 mode"), []) /\
  exists options,
    createSqlLiteDataSource (imports_in DEVELOPMENT COMMUNITY) [] =
      (Ok options, ["/root/.activepieces"]) /\
    database options = "/root/.activepieces/database.sqlite".
Proof.
  split.
  - refine (proj1 (sqlite_is_for_community_edition (imports_in PRODUCTION CLOUD)
                     PRODUCTION [] eq_refl _) _); discriminate.
  - destruct (proj2 (sqlite_is_for_community_edition (imports_in DEVELOPMENT COMMUNITY)
                       DEVELOPMENT [] eq_refl ltac:(discriminate))
                "/root/.activepieces" eq_refl eq_refl)
      as (options & Hcreate & _ & Hdatabase & _).
    exists options. split; [exact Hcreate|exact Hdatabase].
Defined.

End SqliteConnectionFacts.

(** ** Properties of the full-screen code editor dialog *)

Module CodeArtifactControlFullscreenFacts.
Import Js CodeArtifactControlFullscreen.

Section Facts.
Variable im : Imports.

Lemma value_of_cons k k0 v0 o :
  value_of k ((k0, v0) :: o) = if String.eqb k0 k then Some v0 else value_of k o.
Proof. unfold value_of. simpl. by destruct (k0 =? k). Qed.

Lemma value_of_replace o k kv :
  has (fst kv) o = true ->
  value_of k (replace o kv) =
  if String.eqb (fst kv) k then Some (snd kv) else value_of k o.
Proof.
  induction o as [|[k0 v0] rest IH]; [done|]. intros Hhas.
  cbn [replace has existsb fst] in *.
  destruct (String.eqb_spec k0 (fst kv)) as [->|Hne].
  - rewrite !value_of_cons. by destruct (fst kv =? k).
  - rewrite !value_of_cons. simpl in Hhas. rewrite (IH Hhas).
    destruct (String.eqb_spec k0 k) as [->|Hk]; [|done].
    by rewrite (proj2 (String.eqb_neq (fst kv) k)) by congruence.
Qed.

Lemma value_of_first o k kv :
  has (fst kv) o = false ->
  value_of k (kv :: o) = if String.eqb (fst kv) k then Some (snd kv) else value_of k o.
Proof. intros _. destruct kv as [k1 v1]. apply value_of_cons. Qed.

Lemma value_of_place o n k kv :
  has (fst kv) o = false ->
  value_of k (place o n kv) =
  if String.eqb (fst kv) k then Some (snd kv) else value_of k o.
Proof.
  induction o as [|[k0 v0] rest IH]; intros Hhas.
  - by apply value_of_first.
  - cbn [place]. cbn [has existsb fst] in Hhas.
    apply orb_false_elim in Hhas as [Hne Hrest].
    assert (Hplaced : value_of k ((k0, v0) :: place rest n kv) =
      if String.eqb (fst kv) k then Some (snd kv) else value_of k ((k0, v0) :: rest)).
    { rewrite !value_of_cons, (IH Hrest).
      destruct (String.eqb_spec k0 k) as [->|Hk]; [|done].
      rewrite String.eqb_sym in Hne. by rewrite Hne. }
    assert (Hfirst : value_of k (kv :: (k0, v0) :: rest) =
      if String.eqb (fst kv) k then Some (snd kv) else value_of k ((k0, v0) :: rest)).
    { destruct kv as [k1 v1]. apply value_of_cons. }
    destruct (array_index k0) as [m|]; [|exact Hfirst].
    by destruct (m <? n)%N.
Qed.

Lemma value_of_last o k kv :
  has (fst kv) o = false ->
  value_of k (o ++ [kv])%list =
  if String.eqb (fst kv) k then Some (snd kv) else value_of k o.
Proof.
  induction o as [|[k0 v0] rest IH]; intros Hhas.
  - by apply value_of_first.
  - cbn [has existsb fst] in Hhas. apply orb_false_elim in Hhas as [Hne Hrest].
    change (((k0, v0) :: rest) ++ [kv])%list with ((k0, v0) :: (rest ++ [kv]))%list.
    rewrite !value_of_cons, (IH Hrest).
    destruct (String.eqb_spec k0 k) as [->|Hk]; [|done].
    rewrite String.eqb_sym in Hne. by rewrite Hne.
Qed.

Lemma value_of_assign o k kv :
  value_of k (assign o kv) =
  if String.eqb (fst kv) k then Some (snd kv) else value_of k o.
Proof.
  unfold assign. destruct (has (fst kv) o) eqn:Hhas.
  - by apply value_of_replace.
  - destruct (array_index (fst kv)) as [n|].
    + by apply value_of_place.
    + by apply value_of_last.
Qed.

Lemma value_of_fold l o k :
  value_of k (fold_left assign l o) = last_of k l (value_of k o).
Proof.
  revert o. induction l as [|kv l IH]; intros o; simpl; [done|].
  by rewrite IH, value_of_assign.
Qed.

Lemma value_of_spread a b k :
  value_of k (spread a b) = last_of k b (last_of k a None).
Proof.
  unfold spread. rewrite value_of_fold. unfold last_of. by rewrite fold_left_app.
Qed.

(** X30. [addNewPackage] merges the package into the dependencies of
    package.json and shows that file: in the object handed to the
    beautifier, each dependency has the value the package gives it, or else
    the one it had; every other key of a package.json that parses and has
    dependencies keeps its value; and a package.json that does not parse, or
    has no dependencies, is replaced by one with the package as its only
    content. *)
Theorem addNewPackage_merges_dependencies pkg c :
  let before := getPackageDotJsonObject im c in
  let after := addNewPackage im pkg c in
  selectedFile after = PACKAGE /\
  (readOnly after, selectedTab after, codeEditorReadOnly after,
   packageDotJsonReadOnly after) =
  (readOnly c, selectedTab c, codeEditorReadOnly c, packageDotJsonReadOnly c) /\
  exists fields dependencies,
    packageJson after = beautifyJson im (JsObject fields) /\
    value_of "dependencies" fields = Some (JsObject dependencies) /\
    (forall k,
       value_of k dependencies =
       last_of k pkg (last_of k (entries (property before "dependencies")) None)) /\
    (forall k, k <> "dependencies" ->
       value_of k fields = value_of k (entries before)) /\
    ((forall parsed, parse im (packageJson c) = Ok parsed ->
        truthy_value (property parsed "dependencies") = false) ->
     (forall k, value_of k dependencies = last_of k pkg None) /\
     (forall k, k <> "dependencies" -> value_of k fields = None)).
Proof.
  intros before after. split; [done|]. split; [done|].
  eexists _, _. split; [reflexivity|]. fold before.
  split; [by rewrite value_of_assign|].
  split; [intros k; apply value_of_spread|].
  split.
  - intros k Hk. rewrite value_of_assign. cbn [fst].
    by rewrite (proj2 (String.eqb_neq "dependencies" k)) by congruence.
  - intros Hnone.
    assert (Hbefore : before = JsObject [("dependencies", JsObject [])]).
    { unfold before, getPackageDotJsonObject.
      destruct (parse im (packageJson c)) as [parsed|e] eqn:Hparse; [|done].
      by rewrite (Hnone parsed). }
    split.
    + intros k. rewrite value_of_spread, Hbefore. reflexivity.
    + intros k Hk. rewrite value_of_assign, Hbefore. cbn [fst].
      rewrite (proj2 (String.eqb_neq "dependencies" k)) by congruence.
      unfold value_of, entries. cbn [List.find fst].
      by rewrite (proj2 (String.eqb_neq "dependencies" k)) by congruence.
Qed.

Lemma prefix_app (s t : string) : String.prefix s (s ++ t) = true.
Proof.
  induction s as [|c s IH]; simpl; [by destruct t|].
  destruct (Ascii.ascii_dec c c); [exact IH|done].
Qed.

Lemma prefix_same (s : string) : String.prefix s s = true.
Proof.
  induction s as [|c s IH]; simpl; [done|].
  destruct (Ascii.ascii_dec c c); [exact IH|done].
Qed.

(** The console view never loses the standard output: it starts with
    it, is exactly it when there is no standard error, and otherwise adds
    the error separator and the error, verbatim when the error text is not
    JSON. *)
Lemma console_result_keeps_output r :
  String.prefix (standardOutput r) (getConsoleResult im r) = true /\
  (standardError r = "" -> getConsoleResult im r = standardOutput r) /\
  (standardError r <> "" ->
   getConsoleResult im r =
     standardOutput r ++ separator ++ tryParsingError im (standardError r)) /\
  (forall e,
     standardError r <> "" ->
     parse im (standardError r) = Threw e ->
     getConsoleResult im r = standardOutput r ++ separator ++ standardError r).
Proof.
  unfold getConsoleResult.
  destruct (String.eqb_spec (standardError r) "") as [Hempty|Hsome]; simpl.
  - split; [|split; [done|split; intros; done]].
    apply prefix_same.
  - split; [apply prefix_app|]. split; [done|]. split; [done|].
    intros e _ Hparse. unfold tryParsingError. by rewrite Hparse.
Qed.

End Facts.

(** *** The dialog on two sample package files *)

Import DialogFixtures.

Lemma addNewPackage_merges_dependencies_witness :
  let pkg := [("axios", JsString "1.6.0"); ("lodash", JsString "4.17.22")] in
  (exists fields dependencies,
     packageJson (addNewPackage imports pkg (dialog "with-dependencies")) =
       beautifyJson imports (JsObject fields) /\
     value_of "dependencies" fields = Some (JsObject dependencies) /\
     value_of "axios" dependencies = Some (JsString "1.6.0") /\
     value_of "lodash" dependencies = Some (JsString "4.17.22") /\
     value_of "name" fields = Some (JsString "code-step")) /\
  (exists fields dependencies,
     packageJson (addNewPackage imports pkg (dialog "without-dependencies")) =
       beautifyJson imports (JsObject fields) /\
     value_of "dependencies" fields = Some (JsObject dependencies) /\
     value_of "lodash" dependencies = Some (JsString "4.17.22") /\
     value_of "name" fields = None).
Proof.
  intros pkg. split.
  - destruct (addNewPackage_merges_dependencies imports pkg (dialog "with-dependencies"))
      as (_ & _ & fields & dependencies & Hvalue & Hdeps & Hmerged & Hkept & _).
    exists fields, dependencies. split; [exact Hvalue|]. split; [exact Hdeps|].
    split; [by rewrite Hmerged|]. split; [by rewrite Hmerged|].
    by rewrite Hkept.
  - destruct (addNewPackage_merges_dependencies imports pkg
                (dialog "without-dependencies"))
      as (_ & _ & fields & dependencies & Hvalue & Hdeps & _ & _ & Hreplaced).
    destruct Hreplaced as [Honly Hnone].
    { intros parsed [= <-]. reflexivity. }
    exists fields, dependencies. split; [exact Hvalue|]. split; [exact Hdeps|].
    split; [by rewrite Honly|]. by apply Hnone.
Defined.

End CodeArtifactControlFullscreenFacts.
